(** * Training-loop engines of torchreid: a trace semantics and its properties

    This development embeds the two [train] methods of

      - [torchreid/engine/image/cluster_dependency_triplet_dropbatch_dropbotfeatures.py]
        (class [ImageClusterDependencyTripletDropBatchDropBotFeaturesEngine]), and
      - [torchreid/engine/image/triplet_npairs_softmax_fgnet.py]
        (class [ImageTripletNpairsSoftmaxFGnetEngine])

    as programs of a small monad that threads the state of the machine-learning
    framework, stops at the first Python exception, and records every call the
    engine makes to a collaborator (model, optimizer, scheduler, losses,
    metrics, writer, clock, console, [AverageMeter]) together with what the
    call returned.  The properties of the engines are then statements about
    the recorded sequence of calls. *)

From Stdlib Require Import ZArith String DecimalString List Bool Lia.
From Stdlib Require DecimalPos DecimalZ.
Import ListNotations.

Set Implicit Arguments.
Open Scope Z_scope.

(** ** Python values and exceptions *)

(** The outcome of evaluating a Python expression: a value, or a raised
    exception. *)
Inductive result (E A : Type) : Type :=
| Ok (a : A)
| Raise (e : E).

Arguments Ok {E A} a.
Arguments Raise {E A} e.

(** The loss objects an engine owns ([self.criterion_*] of either class). *)
Inductive criterion : Type :=
| criterion_x | criterion_t | criterion_c
| criterion_db_x | criterion_db_t | criterion_db_c
| criterion_b_db_x | criterion_b_db_t | criterion_b_db_c
| criterion_dep
| criterion_n | criterion_x_parts.

(** The [outputs] argument of [_compute_loss]: one framework value, or the
    Python tuple of two values that the dependency loss receives. *)
Inductive loss_input (T : Type) : Type :=
| Single (t : T)
| Pair (a b : T).

Arguments Single {T} t.
Arguments Pair {T} a b.

(** What [self.model(imgs, drop_top=...)] returns in the cluster-dependency
    engine: [prelogits, features, (db_prelogits, db_features), b_db_prelogits,
    b_db_features]. *)
Record cluster_outputs (T : Type) : Type := {
  prelogits : T;
  features : T;
  db_prelogits : T;
  db_features : T;
  b_db_prelogits : T;
  b_db_features : T
}.

(** What [self.model(imgs)] returns in the fgnet engine: [outputs, features,
    parts, part_weights, outputs_parts]; [part_weights] is a sequence of pairs
    whose second component is the weight tensor of one part. *)
Record fgnet_outputs (T : Type) : Type := {
  outputs : T;
  fg_features : T;
  parts : T;
  part_weights : list (T * T);
  outputs_parts : T
}.

(** The local [AverageMeter] variables of the two [train] methods. *)
Inductive meter_id : Type :=
| id_losses_t | id_losses_x | id_losses_c
| id_losses_db_t | id_losses_db_x | id_losses_db_c
| id_losses_b_db_t | id_losses_b_db_x | id_losses_b_db_c
| id_losses_dep
| id_losses_n | id_losses_x_parts
| id_accs | id_batch_time | id_data_time.

Definition meter_id_eqb (a b : meter_id) : bool :=
  match a, b with
  | id_losses_t, id_losses_t | id_losses_x, id_losses_x | id_losses_c, id_losses_c
  | id_losses_db_t, id_losses_db_t | id_losses_db_x, id_losses_db_x | id_losses_db_c, id_losses_db_c
  | id_losses_b_db_t, id_losses_b_db_t | id_losses_b_db_x, id_losses_b_db_x
  | id_losses_b_db_c, id_losses_b_db_c
  | id_losses_dep, id_losses_dep | id_losses_n, id_losses_n | id_losses_x_parts, id_losses_x_parts
  | id_accs, id_accs | id_batch_time, id_batch_time | id_data_time, id_data_time => true
  | _, _ => false
  end.

(** The arguments of the progress line's [format] call: the four positional
    numbers, then for every meter keyword its label with the meter's [val] and
    [avg], the learning rate with the number of digits it is printed with, and
    the remaining-time string. *)
Record progress_line (Sc : Type) : Type := {
  pl_epoch : Z;
  pl_max_epoch : Z;
  pl_batch : Z;
  pl_num_batches : Z;
  pl_meters : list (meter_id * string * Sc * Sc);
  pl_lr : Sc;
  pl_lr_digits : Z;
  pl_eta : string
}.

(** ** The framework the engines run on

    Everything the engines call but do not define: the types of the values
    they pass around, the arithmetic of tensors and floats, [AverageMeter]
    (a class of [torchreid.utils], outside the two files), and one handler per
    call expression of the two [train] methods.  A handler reads and updates
    the framework's [World] and may raise.

    Where the value of a call is a function of its arguments ([w * t],
    [t1 + t2], [t.item()], [t.size(0)], [float * int], [AverageMeter()],
    [len(trainloader)], [next] of the loader's iterator), the function gives
    the value and the handler decides only whether the call raises instead of
    returning it.  Where the source unpacks or indexes the answer of a call on
    the spot ([imgs, pids = ...], the five outputs of the model,
    [metrics.accuracy(...)[0].item()], [str(datetime.timedelta(seconds=
    int(...)))], [print(....format(...))]), the handler stands for the whole
    expression: it answers with the unpacked values, and its raising is the
    call's or the unpacking's.  What is left to the language itself is
    arithmetic and comparison of Python ints, the difference of two clock
    readings, tests against [None], reading an attribute, [min], [range] and
    [enumerate] of a list, walking [part_weights] (taken to be a list of
    pairs, as the model returns it), formatting a tag, and
    [(batch_idx+1) % print_freq], whose [ZeroDivisionError] is modelled. *)
Class Framework : Type := {
  World : Type;
  Exn : Type;
  ZeroDivisionError : Exn;
  (* values *)
  Tensor : Type;
  Scalar : Type;
  Weight : Type;
  Data : Type;
  Layers : Type;
  Scheduler : Type;
  Writer : Type;
  (* [w * t] and [t1 + t2] on loss tensors, [t.item()], [t.size(0)] *)
  scale : Weight -> Tensor -> Tensor;
  tadd : Tensor -> Tensor -> Tensor;
  item : Tensor -> Scalar;
  size0 : Tensor -> Z;
  (* [a - b] on floats, and float times int *)
  fsub : Scalar -> Scalar -> Scalar;
  fmul_int : Scalar -> Z -> Scalar;
  (* [AverageMeter()], [m.update(val, n)], [m.val], [m.avg] *)
  Meter : Type;
  AverageMeter : Meter;
  meter_update : Meter -> Scalar -> Z -> result Exn Meter;
  meter_val : Meter -> Scalar;
  meter_avg : Meter -> Scalar;
  (* whether a call whose value is a function of its arguments raises *)
  fw_new_meter : World -> result Exn unit * World;
  fw_len : World -> result Exn unit * World;
  fw_iter : World -> result Exn unit * World;
  fw_next : option Data -> World -> result Exn unit * World;
  fw_mul : Weight -> Tensor -> World -> result Exn unit * World;
  fw_add : Tensor -> Tensor -> World -> result Exn unit * World;
  fw_item : Tensor -> World -> result Exn unit * World;
  fw_size0 : Tensor -> World -> result Exn unit * World;
  fw_float_mul : Scalar -> Z -> World -> result Exn unit * World;
  (* collaborators *)
  fw_model_train : World -> result Exn unit * World;
  fw_print_only_train : option Layers -> Z -> Z -> World -> result Exn unit * World;
  fw_open_specified_layers : option Layers -> World -> result Exn unit * World;
  fw_open_all_layers : World -> result Exn unit * World;
  fw_time : World -> result Exn Scalar * World;
  fw_parse_data_for_train : Data -> World -> result Exn (Tensor * Tensor) * World;
  fw_cuda : Tensor -> World -> result Exn Tensor * World;
  fw_zero_grad : World -> result Exn unit * World;
  fw_model_drop_top : Tensor -> bool -> World -> result Exn (cluster_outputs Tensor) * World;
  fw_model : Tensor -> World -> result Exn (fgnet_outputs Tensor) * World;
  fw_compute_loss :
    criterion -> loss_input Tensor -> Tensor -> bool -> World -> result Exn Tensor * World;
  fw_backward : Tensor -> World -> result Exn unit * World;
  fw_optimizer_step : World -> result Exn unit * World;
  fw_accuracy : Tensor -> Tensor -> World -> result Exn Scalar * World;
  fw_lr : World -> result Exn Scalar * World;
  fw_timedelta_str : Scalar -> World -> result Exn string * World;
  fw_print_progress : progress_line Scalar -> World -> result Exn unit * World;
  fw_add_scalar : Writer -> string -> Scalar -> Z -> World -> result Exn unit * World;
  fw_index : Tensor -> Z -> World -> result Exn Tensor * World;
  fw_add_histogram : Writer -> string -> Tensor -> Z -> World -> result Exn unit * World;
  fw_scheduler_step : Scheduler -> World -> result Exn unit * World
}.

(** The attributes [engine.Engine.__init__] gives every engine and that
    [train] reads. *)
Record Engine {F : Framework} : Type := {
  use_gpu : bool;
  scheduler : option Scheduler;
  writer : option Writer
}.

(** A [trainloader]: what [len] answers and what iterating over it yields,
    when they return. *)
Record TrainLoader {F : Framework} : Type := {
  loader_len : Z;
  loader_items : list Data
}.

(** ** Recorded calls *)

Section Semantics.
Context {F : Framework}.

(** One entry per call to a collaborator, with the arguments the engine passed
    and the call's outcome. *)
Inductive event : Type :=
| ENewMeter (m : meter_id) (r : result Exn unit)
| ELen (r : result Exn unit)
| EIter (r : result Exn unit)
| ENext (item_ : option Data) (r : result Exn unit)
| EMul (w : Weight) (t : Tensor) (r : result Exn unit)
| EAdd (a b : Tensor) (r : result Exn unit)
| EItem (t : Tensor) (r : result Exn unit)
| ESize0 (t : Tensor) (r : result Exn unit)
| EFloatMul (a : Scalar) (n : Z) (r : result Exn unit)
| EModelTrain (r : result Exn unit)
| EPrintOnlyTrain (open_layers : option Layers) (epoch1 fixbase_epoch : Z) (r : result Exn unit)
| EOpenSpecified (open_layers : option Layers) (r : result Exn unit)
| EOpenAll (r : result Exn unit)
| ETime (r : result Exn Scalar)
| EUpdate (m : meter_id) (val : Scalar) (n : Z) (r : result Exn Meter)
| EParse (data : Data) (r : result Exn (Tensor * Tensor))
| ECuda (t : Tensor) (r : result Exn Tensor)
| EZeroGrad (r : result Exn unit)
| EForwardDropTop (imgs : Tensor) (drop_top : bool) (r : result Exn (cluster_outputs Tensor))
| EForward (imgs : Tensor) (r : result Exn (fgnet_outputs Tensor))
| ECompute (c : criterion) (outs : loss_input Tensor) (targets : Tensor) (use_tuple : bool)
    (r : result Exn Tensor)
| EBackward (loss : Tensor) (r : result Exn unit)
| EOptStep (r : result Exn unit)
| EAccuracy (output target : Tensor) (r : result Exn Scalar)
| ELr (r : result Exn Scalar)
| EEta (eta_seconds : Scalar) (r : result Exn string)
| EPrintProgress (line : progress_line Scalar) (r : result Exn unit)
| EAddScalar (wr : Writer) (tag : string) (value : Scalar) (n_iter : Z) (r : result Exn unit)
| EIndex (weights : Tensor) (j : Z) (r : result Exn Tensor)
| EAddHistogram (wr : Writer) (tag : string) (values : Tensor) (n_iter : Z) (r : result Exn unit)
| ESchedStep (s : Scheduler) (r : result Exn unit).

Definition exn_of {A} (r : result Exn A) : option Exn :=
  match r with Ok _ => None | Raise e => Some e end.

(** The exception a recorded call raised, if it raised one. *)
Definition raised (ev : event) : option Exn :=
  match ev with
  | ENewMeter _ r | ELen r | EIter r | ENext _ r | EMul _ _ r | EAdd _ _ r
  | EItem _ r | ESize0 _ r | EFloatMul _ _ r => exn_of r
  | EModelTrain r | EPrintOnlyTrain _ _ _ r | EOpenSpecified _ r | EOpenAll r
  | EZeroGrad r | EBackward _ r | EOptStep r | EPrintProgress _ r
  | EAddScalar _ _ _ _ r | EAddHistogram _ _ _ _ r | ESchedStep _ r => exn_of r
  | ETime r | EAccuracy _ _ r | ELr r => exn_of r
  | EUpdate _ _ _ r => exn_of r
  | EParse _ r => exn_of r
  | ECuda _ r | ECompute _ _ _ _ r | EIndex _ _ r => exn_of r
  | EForwardDropTop _ _ r => exn_of r
  | EForward _ r => exn_of r
  | EEta _ r => exn_of r
  end.

(** ** The engine monad

    A computation starts in a state of the framework and yields the calls it
    made, the state it left, and its outcome.  [bind] is Python's sequencing:
    when the first part raises, the rest does not run and the exception is the
    outcome of the whole. *)
Definition M (A : Type) : Type := World -> list event * World * result Exn A.

Definition ret {A} (a : A) : M A := fun w => ([], w, Ok a).

Definition bind {A B} (m : M A) (f : A -> M B) : M B := fun w =>
  match m w with
  | (d1, w1, Ok a) => let '(d2, w2, r) := f a w1 in (d1 ++ d2, w2, r)
  | (d1, w1, Raise e) => (d1, w1, Raise e)
  end.

(** A call to a collaborator: run its handler and record the call. *)
Definition call {A} (mk : result Exn A -> event) (h : World -> result Exn A * World) : M A :=
  fun w => let '(r, w1) := h w in ([mk r], w1, r).

(** An operation of the language itself, which makes no call. *)
Definition lift {A} (r : result Exn A) : M A := fun w => ([], w, r).

Definition events_of {A} (x : list event * World * result Exn A) : list event := fst (fst x).
Definition world_of {A} (x : list event * World * result Exn A) : World := snd (fst x).
Definition outcome_of {A} (x : list event * World * result Exn A) : result Exn A := snd x.

End Semantics.

Declare Scope engine_scope.
Delimit Scope engine_scope with engine.
Notation "x <- m ;; k" := (bind m (fun x => k))
  (at level 100, m at next level, right associativity) : engine_scope.
Notation "' p <- m ;; k" := (bind m (fun p => k))
  (at level 100, p pattern, m at next level, right associativity) : engine_scope.
Notation "m ;; k" := (bind m (fun _ => k))
  (at level 100, right associativity) : engine_scope.
Open Scope engine_scope.

Section Python.
Context {F : Framework}.

(** [for x in xs: body], with the local variables the body assigns threaded
    through as [l]. *)
Fixpoint for_in {A L} (xs : list A) (body : A -> L -> M L) (l : L) : M L :=
  match xs with
  | [] => ret l
  | x :: xs' => l' <- body x l ;; for_in xs' body l'
  end.

(** [enumerate(xs)], counting from [start]. *)
Fixpoint enumerate_from {A} (start : Z) (xs : list A) : list (Z * A) :=
  match xs with
  | [] => []
  | x :: xs' => (start, x) :: enumerate_from (start + 1) xs'
  end.

Definition enumerate {A} (xs : list A) : list (Z * A) := enumerate_from 0 xs.

(** [range(n)]: [0, 1, ..., n-1], empty when [n <= 0]. *)
Definition range (n : Z) : list Z := map Z.of_nat (seq 0 (Z.to_nat n)).

(** [a % b] on Python ints: the remainder has the sign of [b]; a zero divisor
    raises [ZeroDivisionError]. *)
Definition py_mod (a b : Z) : result Exn Z :=
  if b =? 0 then Raise ZeroDivisionError else Ok (a mod b).

(** ['Train/Part{}/Batch{}'.format(i, j)] *)
Definition str_of_int (z : Z) : string := NilZero.string_of_int (Z.to_int z).

Definition part_tag (i j : Z) : string :=
  ("Train/Part" ++ str_of_int i ++ "/Batch" ++ str_of_int j)%string.

(** ** The collaborators, as recorded calls *)

(** Calls whose value is a function of their arguments. *)
Definition new_meter (id : meter_id) : M Meter :=
  call (ENewMeter id) fw_new_meter ;; ret AverageMeter.
Definition len (trainloader : TrainLoader) : M Z :=
  call ELen fw_len ;; ret (loader_len trainloader).
Definition loader_iter : M unit := call EIter fw_iter.
Definition loader_next (item_ : option Data) : M unit :=
  call (ENext item_) (fw_next item_).
Definition tensor_mul (w : Weight) (t : Tensor) : M Tensor :=
  call (EMul w t) (fw_mul w t) ;; ret (scale w t).
Definition tensor_add (a b : Tensor) : M Tensor :=
  call (EAdd a b) (fw_add a b) ;; ret (tadd a b).
Definition item_of (t : Tensor) : M Scalar :=
  call (EItem t) (fw_item t) ;; ret (item t).
Definition size0_of (t : Tensor) : M Z :=
  call (ESize0 t) (fw_size0 t) ;; ret (size0 t).
Definition float_mul (a : Scalar) (n : Z) : M Scalar :=
  call (EFloatMul a n) (fw_float_mul a n) ;; ret (fmul_int a n).

Definition model_train : M unit := call EModelTrain fw_model_train.
Definition print_only_train (open_layers : option Layers) (epoch1 fixbase_epoch : Z) : M unit :=
  call (EPrintOnlyTrain open_layers epoch1 fixbase_epoch)
       (fw_print_only_train open_layers epoch1 fixbase_epoch).
Definition open_specified_layers (open_layers : option Layers) : M unit :=
  call (EOpenSpecified open_layers) (fw_open_specified_layers open_layers).
Definition open_all_layers : M unit := call EOpenAll fw_open_all_layers.
Definition time_time : M Scalar := call ETime fw_time.
Definition update (id : meter_id) (m : Meter) (val : Scalar) (n : Z) : M Meter :=
  call (EUpdate id val n) (fun w => (meter_update m val n, w)).
(** [meter.update(loss.item(), pids.size(0))] *)
Definition update_loss (id : meter_id) (m : Meter) (loss pids : Tensor) : M Meter :=
  val <- item_of loss ;;
  n <- size0_of pids ;;
  update id m val n.
Definition parse_data_for_train (data : Data) : M (Tensor * Tensor) :=
  call (EParse data) (fw_parse_data_for_train data).
Definition cuda (t : Tensor) : M Tensor := call (ECuda t) (fw_cuda t).
Definition optimizer_zero_grad : M unit := call EZeroGrad fw_zero_grad.
Definition model_drop_top (imgs : Tensor) (drop_top : bool) : M (cluster_outputs Tensor) :=
  call (EForwardDropTop imgs drop_top) (fw_model_drop_top imgs drop_top).
Definition model (imgs : Tensor) : M (fgnet_outputs Tensor) :=
  call (EForward imgs) (fw_model imgs).
Definition compute_loss (c : criterion) (outs : loss_input Tensor) (targets : Tensor)
    (use_tuple : bool) : M Tensor :=
  call (ECompute c outs targets use_tuple) (fw_compute_loss c outs targets use_tuple).
Definition backward (loss : Tensor) : M unit := call (EBackward loss) (fw_backward loss).
Definition optimizer_step : M unit := call EOptStep fw_optimizer_step.
Definition accuracy (output target : Tensor) : M Scalar :=
  call (EAccuracy output target) (fw_accuracy output target).
Definition optimizer_lr : M Scalar := call ELr fw_lr.
Definition timedelta_str (eta_seconds : Scalar) : M string :=
  call (EEta eta_seconds) (fw_timedelta_str eta_seconds).
Definition print_progress (line : progress_line Scalar) : M unit :=
  call (EPrintProgress line) (fw_print_progress line).
Definition add_scalar (wr : Writer) (tag : string) (value : Scalar) (n_iter : Z) : M unit :=
  call (EAddScalar wr tag value n_iter) (fw_add_scalar wr tag value n_iter).
Definition getitem (weights : Tensor) (j : Z) : M Tensor :=
  call (EIndex weights j) (fw_index weights j).
Definition add_histogram (wr : Writer) (tag : string) (values : Tensor) (n_iter : Z) : M unit :=
  call (EAddHistogram wr tag values n_iter) (fw_add_histogram wr tag values n_iter).
Definition scheduler_step (s : Scheduler) : M unit :=
  call (ESchedStep s) (fw_scheduler_step s).

(** The part of both [train] methods before the loop that does not depend on
    the engine class: [self.model.train()] and the choice of the layers to
    train. *)
Definition is_not_None {A} (o : option A) : bool :=
  match o with Some _ => true | None => false end.

Definition open_layers_phase (epoch fixbase_epoch : Z) (open_layers : option Layers) : M unit :=
  if (epoch + 1 <=? fixbase_epoch) && is_not_None open_layers then
    print_only_train open_layers (epoch + 1) fixbase_epoch ;;
    open_specified_layers open_layers
  else
    open_all_layers.

(** The remaining-time estimate of the progress line, when the product
    returns. *)
Definition eta_seconds (batch_time_avg : Scalar) (epoch max_epoch num_batches batch_idx : Z)
    : Scalar :=
  fmul_int batch_time_avg
    (num_batches - (batch_idx + 1) + (max_epoch - (epoch + 1)) * num_batches).

Definition n_iter_of (epoch num_batches batch_idx : Z) : Z := epoch * num_batches + batch_idx.

End Python.

(** ** The cluster-dependency engine
    ([ImageClusterDependencyTripletDropBatchDropBotFeaturesEngine]) *)

Module Cluster.
Section WithFramework.
Context {F : Framework}.

(** The attributes [__init__] stores on [self]. *)
Record t : Type := {
  base : Engine;
  weight_t : Weight;
  weight_x : Weight;
  weight_c : Weight;
  weight_db_t : Weight;
  weight_db_x : Weight;
  weight_db_c : Weight;
  weight_b_db_t : Weight;
  weight_b_db_x : Weight;
  weight_b_db_c : Weight;
  weight_dep : Weight;
  top_drop_epoch : Z
}.

(** [__init__]: the weights are stored as given; [top_drop_epoch] is [-1]
    when the caller leaves it out ([None] here).  The weights' own defaults
    (the number 1) are written out by the caller of this model. *)
Definition init (engine : Engine)
    (weight_t weight_x weight_c weight_db_t weight_db_x weight_db_c
     weight_b_db_t weight_b_db_x weight_b_db_c weight_dep : Weight)
    (top_drop_epoch : option Z) : t :=
  {| base := engine;
     weight_t := weight_t; weight_x := weight_x; weight_c := weight_c;
     weight_db_t := weight_db_t; weight_db_x := weight_db_x; weight_db_c := weight_db_c;
     weight_b_db_t := weight_b_db_t; weight_b_db_x := weight_b_db_x;
     weight_b_db_c := weight_b_db_c;
     weight_dep := weight_dep;
     top_drop_epoch := match top_drop_epoch with Some e => e | None => -1 end |}.

(** The local variables of [train] that one iteration hands to the next. *)
Record locals : Type := {
  l_losses_t : Meter;
  l_losses_x : Meter;
  l_losses_c : Meter;
  l_losses_db_t : Meter;
  l_losses_db_x : Meter;
  l_losses_db_c : Meter;
  l_losses_b_db_t : Meter;
  l_losses_b_db_x : Meter;
  l_losses_b_db_c : Meter;
  l_losses_dep : Meter;
  l_accs : Meter;
  l_batch_time : Meter;
  l_data_time : Meter;
  l_end : Scalar
}.

(** Line 144. *)
Definition drop_top_flag (self : t) (epoch : Z) : bool :=
  negb (top_drop_epoch self =? -1) && (epoch + 1 >=? top_drop_epoch self).

(** Line 156: Python's [+] associates to the left. *)
Definition total_loss (self : t)
    (loss_t loss_x loss_db_t loss_db_x loss_b_db_t loss_b_db_x
     loss_c loss_db_c loss_b_db_c loss_dep : Tensor) : Tensor :=
  tadd (tadd (tadd (tadd (tadd (tadd (tadd (tadd (tadd
    (scale (weight_t self) loss_t)
    (scale (weight_x self) loss_x))
    (scale (weight_db_t self) loss_db_t))
    (scale (weight_db_x self) loss_db_x))
    (scale (weight_b_db_t self) loss_b_db_t))
    (scale (weight_b_db_x self) loss_b_db_x))
    (scale (weight_c self) loss_c))
    (scale (weight_db_c self) loss_db_c))
    (scale (weight_b_db_c self) loss_b_db_c))
    (scale (weight_dep self) loss_dep).

(** The same with its calls: the products and sums in the order Python
    evaluates them.  What it returns is [total_loss]. *)
Definition weighted_sum (self : t)
    (loss_t loss_x loss_db_t loss_db_x loss_b_db_t loss_b_db_x
     loss_c loss_db_c loss_b_db_c loss_dep : Tensor) : M Tensor :=
  acc <- tensor_mul (weight_t self) loss_t ;;
  term <- tensor_mul (weight_x self) loss_x ;;
  acc <- tensor_add acc term ;;
  term <- tensor_mul (weight_db_t self) loss_db_t ;;
  acc <- tensor_add acc term ;;
  term <- tensor_mul (weight_db_x self) loss_db_x ;;
  acc <- tensor_add acc term ;;
  term <- tensor_mul (weight_b_db_t self) loss_b_db_t ;;
  acc <- tensor_add acc term ;;
  term <- tensor_mul (weight_b_db_x self) loss_b_db_x ;;
  acc <- tensor_add acc term ;;
  term <- tensor_mul (weight_c self) loss_c ;;
  acc <- tensor_add acc term ;;
  term <- tensor_mul (weight_db_c self) loss_db_c ;;
  acc <- tensor_add acc term ;;
  term <- tensor_mul (weight_b_db_c self) loss_b_db_c ;;
  acc <- tensor_add acc term ;;
  term <- tensor_mul (weight_dep self) loss_dep ;;
  tensor_add acc term.

Definition field (id : meter_id) (label : string) (m : Meter)
    : meter_id * string * Scalar * Scalar :=
  (id, label, meter_val m, meter_avg m).

(** Lines 135-230: one turn of the loop.  The loader's iterator hands over
    the batch [data], at position [batch_idx]; then the body runs. *)
Definition train_batch (self : t) (epoch max_epoch num_batches print_freq : Z)
    (item_ : Z * Data) (l : locals) : M locals :=
  let '(batch_idx, data) := item_ in
  loader_next (Some data) ;;
  now <- time_time ;;
  data_time <- update id_data_time (l_data_time l) (fsub now (l_end l)) 1 ;;
  '(imgs, pids) <- parse_data_for_train data ;;
  '(imgs, pids) <- (if use_gpu (base self) then
                      imgs <- cuda imgs ;; pids <- cuda pids ;; ret (imgs, pids)
                    else ret (imgs, pids)) ;;
  optimizer_zero_grad ;;
  let drop_top := drop_top_flag self epoch in
  out <- model_drop_top imgs drop_top ;;
  loss_x <- compute_loss criterion_x (Single (prelogits out)) pids false ;;
  loss_t <- compute_loss criterion_t (Single (features out)) pids false ;;
  loss_c <- compute_loss criterion_c (Single (features out)) pids false ;;
  loss_db_x <- compute_loss criterion_db_x (Single (db_prelogits out)) pids false ;;
  loss_db_t <- compute_loss criterion_db_t (Single (db_features out)) pids false ;;
  loss_db_c <- compute_loss criterion_db_c (Single (db_features out)) pids false ;;
  loss_b_db_x <- compute_loss criterion_b_db_x (Single (b_db_prelogits out)) pids false ;;
  loss_b_db_t <- compute_loss criterion_b_db_t (Single (b_db_features out)) pids false ;;
  loss_b_db_c <- compute_loss criterion_b_db_c (Single (b_db_features out)) pids false ;;
  loss_dep <- compute_loss criterion_dep (Pair (db_features out) (b_db_features out))
                pids true ;;
  loss <- weighted_sum self loss_t loss_x loss_db_t loss_db_x loss_b_db_t loss_b_db_x
            loss_c loss_db_c loss_b_db_c loss_dep ;;
  backward loss ;;
  optimizer_step ;;
  now <- time_time ;;
  batch_time <- update id_batch_time (l_batch_time l) (fsub now (l_end l)) 1 ;;
  losses_t <- update_loss id_losses_t (l_losses_t l) loss_t pids ;;
  losses_x <- update_loss id_losses_x (l_losses_x l) loss_x pids ;;
  losses_c <- update_loss id_losses_c (l_losses_c l) loss_c pids ;;
  losses_db_t <- update_loss id_losses_db_t (l_losses_db_t l) loss_db_t pids ;;
  losses_db_x <- update_loss id_losses_db_x (l_losses_db_x l) loss_db_x pids ;;
  losses_db_c <- update_loss id_losses_db_c (l_losses_db_c l) loss_db_c pids ;;
  losses_b_db_t <- update_loss id_losses_b_db_t (l_losses_b_db_t l) loss_b_db_t pids ;;
  losses_b_db_x <- update_loss id_losses_b_db_x (l_losses_b_db_x l) loss_b_db_x pids ;;
  losses_b_db_c <- update_loss id_losses_b_db_c (l_losses_b_db_c l) loss_b_db_c pids ;;
  losses_dep <- update_loss id_losses_dep (l_losses_dep l) loss_dep pids ;;
  acc <- accuracy (prelogits out) pids ;;
  accs <- update id_accs (l_accs l) acc 1 ;;
  rem <- lift (py_mod (batch_idx + 1) print_freq) ;;
  (if rem =? 0 then
     seconds <- float_mul (meter_avg batch_time)
                  (num_batches - (batch_idx + 1) + (max_epoch - (epoch + 1)) * num_batches) ;;
     eta_str <- timedelta_str seconds ;;
     lr <- optimizer_lr ;;
     print_progress
       {| pl_epoch := epoch + 1; pl_max_epoch := max_epoch;
          pl_batch := batch_idx + 1; pl_num_batches := num_batches;
          pl_meters :=
            [ field id_batch_time "Time" batch_time;
              field id_data_time "Data" data_time;
              field id_losses_t "Loss_t" losses_t;
              field id_losses_x "Loss_x" losses_x;
              field id_losses_c "Loss_c" losses_c;
              field id_losses_db_t "Loss_db_t" losses_db_t;
              field id_losses_db_x "Loss_db_x" losses_db_x;
              field id_losses_db_c "Loss_db_c" losses_db_c;
              field id_losses_b_db_t "Loss_b_db_t" losses_b_db_t;
              field id_losses_b_db_x "Loss_b_db_x" losses_b_db_x;
              field id_losses_b_db_c "Loss_b_db_c" losses_b_db_c;
              field id_losses_dep "Loss_dep" losses_dep;
              field id_accs "Acc glob" accs ];
          pl_lr := lr; pl_lr_digits := 8; pl_eta := eta_str |}
   else ret tt) ;;
  match writer (base self) with
  | Some wr =>
      let n_iter := n_iter_of epoch num_batches batch_idx in
      add_scalar wr "Train/Time" (meter_avg batch_time) n_iter ;;
      add_scalar wr "Train/Data" (meter_avg data_time) n_iter ;;
      add_scalar wr "Train/Loss_t" (meter_avg losses_t) n_iter ;;
      add_scalar wr "Train/Loss_x" (meter_avg losses_x) n_iter ;;
      add_scalar wr "Train/Loss_c" (meter_avg losses_c) n_iter ;;
      add_scalar wr "Train/Loss_db_t" (meter_avg losses_db_t) n_iter ;;
      add_scalar wr "Train/Loss_db_x" (meter_avg losses_db_x) n_iter ;;
      add_scalar wr "Train/Loss_db_c" (meter_avg losses_db_c) n_iter ;;
      add_scalar wr "Train/Loss_b_db_t" (meter_avg losses_b_db_t) n_iter ;;
      add_scalar wr "Train/Loss_b_db_x" (meter_avg losses_b_db_x) n_iter ;;
      add_scalar wr "Train/Loss_b_db_c" (meter_avg losses_b_db_c) n_iter ;;
      add_scalar wr "Train/Loss_dep" (meter_avg losses_dep) n_iter ;;
      add_scalar wr "Train/Acc glob" (meter_avg accs) n_iter ;;
      lr <- optimizer_lr ;;
      add_scalar wr "Train/Lr" lr n_iter
  | None => ret tt
  end ;;
  now <- time_time ;;
  ret {| l_losses_t := losses_t; l_losses_x := losses_x; l_losses_c := losses_c;
         l_losses_db_t := losses_db_t; l_losses_db_x := losses_db_x;
         l_losses_db_c := losses_db_c;
         l_losses_b_db_t := losses_b_db_t; l_losses_b_db_x := losses_b_db_x;
         l_losses_b_db_c := losses_b_db_c;
         l_losses_dep := losses_dep;
         l_accs := accs; l_batch_time := batch_time; l_data_time := data_time;
         l_end := now |}.

(** Lines 111-233. *)
Definition train (self : t) (epoch max_epoch : Z) (trainloader : TrainLoader)
    (fixbase_epoch : Z) (open_layers : option Layers) (print_freq : Z) : M unit :=
  losses_t <- new_meter id_losses_t ;;
  losses_x <- new_meter id_losses_x ;;
  losses_c <- new_meter id_losses_c ;;
  losses_db_t <- new_meter id_losses_db_t ;;
  losses_db_x <- new_meter id_losses_db_x ;;
  losses_db_c <- new_meter id_losses_db_c ;;
  losses_b_db_t <- new_meter id_losses_b_db_t ;;
  losses_b_db_x <- new_meter id_losses_b_db_x ;;
  losses_b_db_c <- new_meter id_losses_b_db_c ;;
  losses_dep <- new_meter id_losses_dep ;;
  accs <- new_meter id_accs ;;
  batch_time <- new_meter id_batch_time ;;
  data_time <- new_meter id_data_time ;;
  model_train ;;
  open_layers_phase epoch fixbase_epoch open_layers ;;
  num_batches <- len trainloader ;;
  end_ <- time_time ;;
  loader_iter ;;
  for_in (enumerate (loader_items trainloader))
    (train_batch self epoch max_epoch num_batches print_freq)
    {| l_losses_t := losses_t; l_losses_x := losses_x; l_losses_c := losses_c;
       l_losses_db_t := losses_db_t; l_losses_db_x := losses_db_x;
       l_losses_db_c := losses_db_c;
       l_losses_b_db_t := losses_b_db_t; l_losses_b_db_x := losses_b_db_x;
       l_losses_b_db_c := losses_b_db_c;
       l_losses_dep := losses_dep;
       l_accs := accs; l_batch_time := batch_time; l_data_time := data_time;
       l_end := end_ |} ;;
  loader_next None ;;
  match scheduler (base self) with
  | Some s => scheduler_step s
  | None => ret tt
  end.

End WithFramework.
End Cluster.

(** ** The fgnet engine ([ImageTripletNpairsSoftmaxFGnetEngine]) *)

Module FGNet.
Section WithFramework.
Context {F : Framework}.

(** The attributes [__init__] stores on [self]. *)
Record t : Type := {
  base : Engine;
  weight_t : Weight;
  weight_x : Weight;
  weight_n : Weight;
  weight_x_parts : Weight
}.

(** [__init__]: the weights are stored as given. *)
Definition init (engine : Engine) (weight_t weight_x weight_n weight_x_parts : Weight) : t :=
  {| base := engine;
     weight_t := weight_t; weight_x := weight_x;
     weight_n := weight_n; weight_x_parts := weight_x_parts |}.

Record locals : Type := {
  l_losses_t : Meter;
  l_losses_x : Meter;
  l_losses_n : Meter;
  l_losses_x_parts : Meter;
  l_accs : Meter;
  l_batch_time : Meter;
  l_data_time : Meter;
  l_end : Scalar
}.

(** Line 131: Python's [+] associates to the left. *)
Definition total_loss (self : t) (loss_t loss_x loss_n loss_x_parts : Tensor) : Tensor :=
  tadd (tadd (tadd
    (scale (weight_t self) loss_t)
    (scale (weight_x self) loss_x))
    (scale (weight_n self) loss_n))
    (scale (weight_x_parts self) loss_x_parts).

(** The same with its calls, in the order Python evaluates them. *)
Definition weighted_sum (self : t) (loss_t loss_x loss_n loss_x_parts : Tensor) : M Tensor :=
  acc <- tensor_mul (weight_t self) loss_t ;;
  term <- tensor_mul (weight_x self) loss_x ;;
  acc <- tensor_add acc term ;;
  term <- tensor_mul (weight_n self) loss_n ;;
  acc <- tensor_add acc term ;;
  term <- tensor_mul (weight_x_parts self) loss_x_parts ;;
  tensor_add acc term.

Definition field (id : meter_id) (label : string) (m : Meter)
    : meter_id * string * Scalar * Scalar :=
  (id, label, meter_val m, meter_avg m).

(** Lines 185-186: the histograms of one part, [i] being its position in
    [part_weights]. *)
Definition log_part (wr : Writer) (n_iter : Z) (item_ : Z * (Tensor * Tensor)) (_ : unit)
    : M unit :=
  let '(i, (_, weights)) := item_ in
  size <- size0_of weights ;;
  for_in (range (Z.min size 3))
    (fun j _ =>
       values <- getitem weights j ;;
       add_histogram wr (part_tag i j) values n_iter)
    tt.

(** Lines 117-188: one turn of the loop.  The loader's iterator hands over
    the batch [data], at position [batch_idx]; then the body runs. *)
Definition train_batch (self : t) (epoch max_epoch num_batches print_freq : Z)
    (item_ : Z * Data) (l : locals) : M locals :=
  let '(batch_idx, data) := item_ in
  loader_next (Some data) ;;
  now <- time_time ;;
  data_time <- update id_data_time (l_data_time l) (fsub now (l_end l)) 1 ;;
  '(imgs, pids) <- parse_data_for_train data ;;
  '(imgs, pids) <- (if use_gpu (base self) then
                      imgs <- cuda imgs ;; pids <- cuda pids ;; ret (imgs, pids)
                    else ret (imgs, pids)) ;;
  optimizer_zero_grad ;;
  out <- model imgs ;;
  loss_t <- compute_loss criterion_t (Single (fg_features out)) pids false ;;
  loss_x <- compute_loss criterion_x (Single (outputs out)) pids false ;;
  loss_n <- compute_loss criterion_n (Single (parts out)) pids false ;;
  loss_x_parts <- compute_loss criterion_x_parts (Single (outputs_parts out)) pids false ;;
  loss <- weighted_sum self loss_t loss_x loss_n loss_x_parts ;;
  backward loss ;;
  optimizer_step ;;
  now <- time_time ;;
  batch_time <- update id_batch_time (l_batch_time l) (fsub now (l_end l)) 1 ;;
  losses_t <- update_loss id_losses_t (l_losses_t l) loss_t pids ;;
  losses_x <- update_loss id_losses_x (l_losses_x l) loss_x pids ;;
  losses_n <- update_loss id_losses_n (l_losses_n l) loss_n pids ;;
  losses_x_parts <- update_loss id_losses_x_parts (l_losses_x_parts l) loss_x_parts pids ;;
  acc <- accuracy (outputs out) pids ;;
  accs <- update id_accs (l_accs l) acc 1 ;;
  rem <- lift (py_mod (batch_idx + 1) print_freq) ;;
  (if rem =? 0 then
     seconds <- float_mul (meter_avg batch_time)
                  (num_batches - (batch_idx + 1) + (max_epoch - (epoch + 1)) * num_batches) ;;
     eta_str <- timedelta_str seconds ;;
     lr <- optimizer_lr ;;
     print_progress
       {| pl_epoch := epoch + 1; pl_max_epoch := max_epoch;
          pl_batch := batch_idx + 1; pl_num_batches := num_batches;
          pl_meters :=
            [ field id_batch_time "Time" batch_time;
              field id_data_time "Data" data_time;
              field id_losses_t "Loss_t" losses_t;
              field id_losses_x "Loss_x" losses_x;
              field id_losses_n "Loss_n" losses_n;
              field id_losses_x_parts "Loss_x_parts" losses_x_parts;
              field id_accs "Acc glob" accs ];
          pl_lr := lr; pl_lr_digits := 6; pl_eta := eta_str |}
   else ret tt) ;;
  match writer (base self) with
  | Some wr =>
      let n_iter := n_iter_of epoch num_batches batch_idx in
      add_scalar wr "Train/Time" (meter_avg batch_time) n_iter ;;
      add_scalar wr "Train/Data" (meter_avg data_time) n_iter ;;
      add_scalar wr "Train/Loss_t" (meter_avg losses_t) n_iter ;;
      add_scalar wr "Train/Loss_x" (meter_avg losses_x) n_iter ;;
      add_scalar wr "Train/Loss_n" (meter_avg losses_n) n_iter ;;
      add_scalar wr "Train/Loss_x_parts" (meter_avg losses_x_parts) n_iter ;;
      add_scalar wr "Train/Acc glob" (meter_avg accs) n_iter ;;
      lr <- optimizer_lr ;;
      add_scalar wr "Train/Lr" lr n_iter ;;
      for_in (enumerate (part_weights out)) (log_part wr n_iter) tt
  | None => ret tt
  end ;;
  now <- time_time ;;
  ret {| l_losses_t := losses_t; l_losses_x := losses_x; l_losses_n := losses_n;
         l_losses_x_parts := losses_x_parts;
         l_accs := accs; l_batch_time := batch_time; l_data_time := data_time;
         l_end := now |}.

(** Lines 99-191. *)
Definition train (self : t) (epoch max_epoch : Z) (trainloader : TrainLoader)
    (fixbase_epoch : Z) (open_layers : option Layers) (print_freq : Z) : M unit :=
  losses_t <- new_meter id_losses_t ;;
  losses_x <- new_meter id_losses_x ;;
  losses_n <- new_meter id_losses_n ;;
  losses_x_parts <- new_meter id_losses_x_parts ;;
  accs <- new_meter id_accs ;;
  batch_time <- new_meter id_batch_time ;;
  data_time <- new_meter id_data_time ;;
  model_train ;;
  open_layers_phase epoch fixbase_epoch open_layers ;;
  num_batches <- len trainloader ;;
  end_ <- time_time ;;
  loader_iter ;;
  for_in (enumerate (loader_items trainloader))
    (train_batch self epoch max_epoch num_batches print_freq)
    {| l_losses_t := losses_t; l_losses_x := losses_x; l_losses_n := losses_n;
       l_losses_x_parts := losses_x_parts;
       l_accs := accs; l_batch_time := batch_time; l_data_time := data_time;
       l_end := end_ |} ;;
  loader_next None ;;
  match scheduler (base self) with
  | Some s => scheduler_step s
  | None => ret tt
  end.

End WithFramework.
End FGNet.

(** * Specification devices *)

(** ** Monitors over recorded calls

    A monitor reads the calls of a run one by one: [ok s ev] is what it
    demands of the call [ev] when its state is [s], and [step s ev] is its
    state afterwards. *)

Section Monitor.
Context {F : Framework} {S : Type}.
Variable step : S -> event -> S.
Variable ok : S -> event -> Prop.

Fixpoint run (s : S) (d : list event) : S :=
  match d with
  | [] => s
  | ev :: d' => run (step s ev) d'
  end.

Fixpoint accepts (s : S) (d : list event) : Prop :=
  match d with
  | [] => True
  | ev :: d' => ok s ev /\ accepts (step s ev) d'
  end.

(** [wp m s Q QE]: from every state of the framework, the monitor started in
    [s] accepts the calls of [m]; its final state satisfies [Q] with the value
    [m] returns, or [QE] with the exception [m] raises. *)
Definition wp {A} (m : M A) (s : S) (Q : A -> S -> Prop) (QE : Exn -> S -> Prop) : Prop :=
  forall w,
    accepts s (events_of (m w)) /\
    match outcome_of (m w) with
    | Ok a => Q a (run s (events_of (m w)))
    | Raise e => QE e (run s (events_of (m w)))
    end.

End Monitor.

(** ** Expected sequences

    [proj] reads off each call the tokens a property is about.  A run
    [follows] an expected sequence when its tokens are always an initial
    segment of it, and all of it when the run returns normally. *)

Section Tokens.
Context {F : Framework} {T : Type}.
Variable proj : event -> list T.

Definition prefix_of (l1 l2 : list T) : Prop := exists rest, l2 = l1 ++ rest.

Definition follows {A} (m : M A) (expected : list T) : Prop :=
  forall w,
    prefix_of (flat_map proj (events_of (m w))) expected /\
    (forall a, outcome_of (m w) = Ok a -> flat_map proj (events_of (m w)) = expected).

(** The monitor that checks it: its state is what is still expected. *)
Definition consume_step (s : list T) (ev : event) : list T := skipn (length (proj ev)) s.
Definition consume_ok (s : list T) (ev : event) : Prop := exists rest, s = proj ev ++ rest.

End Tokens.

(** The monitor that demands [P] of every call. *)
Definition every_step {F : Framework} (s : unit) (ev : event) : unit := s.
Definition every_ok {F : Framework} (P : event -> Prop) (s : unit) (ev : event) : Prop := P ev.

(** The monitor that remembers the calls so far, latest first. *)
Definition history_step {F : Framework} (s : list event) (ev : event) : list event := ev :: s.

(** ** What the properties read off a run *)

Declare Scope tensor_scope.
Delimit Scope tensor_scope with tensor.
Infix "*:" := scale (at level 40, left associativity) : tensor_scope.
Infix "+:" := tadd (at level 50, left associativity) : tensor_scope.

Section Properties.
Context {F : Framework}.

(** *** The combined loss *)

(** The ten [_compute_loss] calls of the cluster-dependency engine, in the
    order of lines 146-155, each with the loss it returned. *)
Definition cluster_loss_calls (out : cluster_outputs Tensor) (pids : Tensor)
    (loss_x loss_t loss_c loss_db_x loss_db_t loss_db_c
     loss_b_db_x loss_b_db_t loss_b_db_c loss_dep : Tensor) : list event :=
  [ ECompute criterion_x (Single (prelogits out)) pids false (Ok loss_x);
    ECompute criterion_t (Single (features out)) pids false (Ok loss_t);
    ECompute criterion_c (Single (features out)) pids false (Ok loss_c);
    ECompute criterion_db_x (Single (db_prelogits out)) pids false (Ok loss_db_x);
    ECompute criterion_db_t (Single (db_features out)) pids false (Ok loss_db_t);
    ECompute criterion_db_c (Single (db_features out)) pids false (Ok loss_db_c);
    ECompute criterion_b_db_x (Single (b_db_prelogits out)) pids false (Ok loss_b_db_x);
    ECompute criterion_b_db_t (Single (b_db_features out)) pids false (Ok loss_b_db_t);
    ECompute criterion_b_db_c (Single (b_db_features out)) pids false (Ok loss_b_db_c);
    ECompute criterion_dep (Pair (db_features out) (b_db_features out)) pids true
      (Ok loss_dep) ].

(** The four [_compute_loss] calls of the fgnet engine, lines 127-130. *)
Definition fgnet_loss_calls (out : fgnet_outputs Tensor) (pids : Tensor)
    (loss_t loss_x loss_n loss_x_parts : Tensor) : list event :=
  [ ECompute criterion_t (Single (fg_features out)) pids false (Ok loss_t);
    ECompute criterion_x (Single (outputs out)) pids false (Ok loss_x);
    ECompute criterion_n (Single (parts out)) pids false (Ok loss_n);
    ECompute criterion_x_parts (Single (outputs_parts out)) pids false (Ok loss_x_parts) ].

(** The calls that combine the losses: every term [w * t] is multiplied out
    and, from the second on, added to the sum so far ([acc]), in the order
    Python evaluates a chain of [+]; all of them returned. *)
Fixpoint sum_calls (acc : Tensor) (terms : list (Weight * Tensor)) : list event :=
  match terms with
  | [] => []
  | (w, t) :: rest =>
      EMul w t (Ok tt) :: EAdd acc (scale w t) (Ok tt)
      :: sum_calls (tadd acc (scale w t)) rest
  end.

Definition weighted_sum_calls (terms : list (Weight * Tensor)) : list event :=
  match terms with
  | [] => []
  | (w, t) :: rest => EMul w t (Ok tt) :: sum_calls (scale w t) rest
  end.

(** The terms of line 156, and of line 131 of the fgnet engine, in the order
    of the source. *)
Definition cluster_terms (self : Cluster.t)
    (loss_x loss_t loss_c loss_db_x loss_db_t loss_db_c
     loss_b_db_x loss_b_db_t loss_b_db_c loss_dep : Tensor) : list (Weight * Tensor) :=
  [ (Cluster.weight_t self, loss_t); (Cluster.weight_x self, loss_x);
    (Cluster.weight_db_t self, loss_db_t); (Cluster.weight_db_x self, loss_db_x);
    (Cluster.weight_b_db_t self, loss_b_db_t); (Cluster.weight_b_db_x self, loss_b_db_x);
    (Cluster.weight_c self, loss_c); (Cluster.weight_db_c self, loss_db_c);
    (Cluster.weight_b_db_c self, loss_b_db_c); (Cluster.weight_dep self, loss_dep) ].

Definition fgnet_terms (self : FGNet.t) (loss_t loss_x loss_n loss_x_parts : Tensor)
    : list (Weight * Tensor) :=
  [ (FGNet.weight_t self, loss_t); (FGNet.weight_x self, loss_x);
    (FGNet.weight_n self, loss_n); (FGNet.weight_x_parts self, loss_x_parts) ].

(** What is demanded of a [loss.backward()] call when [hist] holds the calls
    before it, latest first. *)
Definition cluster_backward_ok (self : Cluster.t) (hist : list event) (ev : event) : Prop :=
  match ev with
  | EBackward loss _ =>
      exists out pids loss_x loss_t loss_c loss_db_x loss_db_t loss_db_c
             loss_b_db_x loss_b_db_t loss_b_db_c loss_dep rest,
        hist = rev (cluster_loss_calls out pids loss_x loss_t loss_c loss_db_x loss_db_t
                      loss_db_c loss_b_db_x loss_b_db_t loss_b_db_c loss_dep ++
                    weighted_sum_calls
                      (cluster_terms self loss_x loss_t loss_c loss_db_x loss_db_t
                         loss_db_c loss_b_db_x loss_b_db_t loss_b_db_c loss_dep))
               ++ rest /\
        loss = (Cluster.weight_t self *: loss_t +: Cluster.weight_x self *: loss_x
                +: Cluster.weight_db_t self *: loss_db_t
                +: Cluster.weight_db_x self *: loss_db_x
                +: Cluster.weight_b_db_t self *: loss_b_db_t
                +: Cluster.weight_b_db_x self *: loss_b_db_x
                +: Cluster.weight_c self *: loss_c
                +: Cluster.weight_db_c self *: loss_db_c
                +: Cluster.weight_b_db_c self *: loss_b_db_c
                +: Cluster.weight_dep self *: loss_dep)%tensor
  | _ => True
  end.

Definition fgnet_backward_ok (self : FGNet.t) (hist : list event) (ev : event) : Prop :=
  match ev with
  | EBackward loss _ =>
      exists out pids loss_t loss_x loss_n loss_x_parts rest,
        hist = rev (fgnet_loss_calls out pids loss_t loss_x loss_n loss_x_parts ++
                    weighted_sum_calls (fgnet_terms self loss_t loss_x loss_n loss_x_parts))
               ++ rest /\
        loss = (FGNet.weight_t self *: loss_t +: FGNet.weight_x self *: loss_x
                +: FGNet.weight_n self *: loss_n
                +: FGNet.weight_x_parts self *: loss_x_parts)%tensor
  | _ => True
  end.

(** The loss computations and the backward call, as a run shows them. *)
Inductive loss_token : Type :=
| LCompute (c : criterion)
| LBackward.

Definition loss_proj (ev : event) : list loss_token :=
  match ev with
  | ECompute c _ _ _ _ => [LCompute c]
  | EBackward _ _ => [LBackward]
  | _ => []
  end.

(** Those of one batch: lines 146-157, and lines 127-134 of the fgnet engine. *)
Definition cluster_loss_tokens : list loss_token :=
  [ LCompute criterion_x; LCompute criterion_t; LCompute criterion_c;
    LCompute criterion_db_x; LCompute criterion_db_t; LCompute criterion_db_c;
    LCompute criterion_b_db_x; LCompute criterion_b_db_t; LCompute criterion_b_db_c;
    LCompute criterion_dep; LBackward ].

Definition fgnet_loss_tokens : list loss_token :=
  [ LCompute criterion_t; LCompute criterion_x; LCompute criterion_n;
    LCompute criterion_x_parts; LBackward ].

(** *** The drop-top flag *)

Definition drop_top_ok (self : Cluster.t) (epoch : Z) (ev : event) : Prop :=
  match ev with
  | EForwardDropTop _ drop_top _ =>
      drop_top = true <->
      (Cluster.top_drop_epoch self <> -1 /\ epoch + 1 >= Cluster.top_drop_epoch self)
  | _ => True
  end.

(** *** The layers opened, and the batches *)

Inductive phase_token : Type :=
| TOpenSpecified (open_layers : option Layers)
| TOpenAll
| TBatch (data : Data).

Definition phase_proj (ev : event) : list phase_token :=
  match ev with
  | EOpenSpecified open_layers _ => [TOpenSpecified open_layers]
  | EOpenAll _ => [TOpenAll]
  | EParse data _ => [TBatch data]
  | _ => []
  end.

(** *** Running averages *)

Definition meter_table : Type := meter_id -> Meter.

Definition fresh_meters : meter_table := fun _ => AverageMeter.

Definition set_meter (s : meter_table) (id : meter_id) (m : Meter) : meter_table :=
  fun id' => if meter_id_eqb id id' then m else s id'.

(** The meters after one more recorded call: an [update] call updates its
    meter, computed again from the meter's state and the call's arguments. *)
Definition meters_step (s : meter_table) (ev : event) : meter_table :=
  match ev with
  | EUpdate id val n _ =>
      match meter_update (s id) val n with
      | Ok m => set_meter s id m
      | Raise _ => s
      end
  | _ => s
  end.

(** The meters as the [update] calls of [d] leave them, starting from
    [AverageMeter()] for each. *)
Definition replay (d : list event) : meter_table := run meters_step fresh_meters d.

(** The meter a writer tag reports. *)
Definition tag_meter (tag : string) : option meter_id :=
  let table :=
    [ ("Train/Time", id_batch_time); ("Train/Data", id_data_time);
      ("Train/Loss_t", id_losses_t); ("Train/Loss_x", id_losses_x);
      ("Train/Loss_c", id_losses_c);
      ("Train/Loss_db_t", id_losses_db_t); ("Train/Loss_db_x", id_losses_db_x);
      ("Train/Loss_db_c", id_losses_db_c);
      ("Train/Loss_b_db_t", id_losses_b_db_t); ("Train/Loss_b_db_x", id_losses_b_db_x);
      ("Train/Loss_b_db_c", id_losses_b_db_c);
      ("Train/Loss_dep", id_losses_dep);
      ("Train/Loss_n", id_losses_n); ("Train/Loss_x_parts", id_losses_x_parts);
      ("Train/Acc glob", id_accs) ]%string in
  option_map snd (find (fun p => String.eqb (fst p) tag) table).

(** What is demanded of a report (a writer scalar or a progress line) when
    the meters are [s]. *)
Definition report_ok (s : meter_table) (ev : event) : Prop :=
  match ev with
  | EAddScalar _ tag value _ _ =>
      forall id, tag_meter tag = Some id -> value = meter_avg (s id)
  | EPrintProgress line _ =>
      forall id label val avg,
        In (id, label, val, avg) (pl_meters line) ->
        val = meter_val (s id) /\ avg = meter_avg (s id)
  | _ => True
  end.

(** *** Exceptions *)

(** The monitor's state is the exception a recorded call has raised, if one
    has; it demands that no call follows one that raised. *)
Definition pending_step (s : option Exn) (ev : event) : option Exn :=
  match s with
  | None => raised ev
  | Some e => Some e
  end.

Definition pending_ok (s : option Exn) (ev : event) : Prop := s = None.

(** *** Optimizer and scheduler steps *)

Inductive step_token : Type :=
| TOptimizerStep
| TSchedulerStep (s : Scheduler).

Definition step_proj (ev : event) : list step_token :=
  match ev with
  | EOptStep _ => [TOptimizerStep]
  | ESchedStep s _ => [TSchedulerStep s]
  | _ => []
  end.

Definition scheduler_tokens (engine : Engine) : list step_token :=
  match scheduler engine with
  | Some s => [TSchedulerStep s]
  | None => []
  end.

(** *** The gradient step of each batch *)

Inductive grad_token : Type :=
| GBatch (data : Data)
| GZeroGrad
| GForward
| GBackward
| GStep.

Definition grad_proj (ev : event) : list grad_token :=
  match ev with
  | EParse data _ => [GBatch data]
  | EZeroGrad _ => [GZeroGrad]
  | EForwardDropTop _ _ _ | EForward _ _ => [GForward]
  | EBackward _ _ => [GBackward]
  | EOptStep _ => [GStep]
  | _ => []
  end.

Definition grad_expected (data : Data) : list grad_token :=
  [GBatch data; GZeroGrad; GForward; GBackward; GStep].

(** *** Printing and writer logging *)

Inductive log_token : Type :=
| LPrint (batch : Z)
| LScalar (wr : Writer) (tag : string) (n_iter : Z).

Definition log_proj (ev : event) : list log_token :=
  match ev with
  | EPrintProgress line _ => [LPrint (pl_batch line)]
  | EAddScalar wr tag _ n_iter _ => [LScalar wr tag n_iter]
  | _ => []
  end.

(** [(batch_idx+1) % print_freq == 0], for a [print_freq] other than 0. *)
Definition print_due (print_freq batch_idx : Z) : bool :=
  (batch_idx + 1) mod print_freq =? 0.

Definition cluster_scalar_tags : list string :=
  [ "Train/Time"; "Train/Data"; "Train/Loss_t"; "Train/Loss_x"; "Train/Loss_c";
    "Train/Loss_db_t"; "Train/Loss_db_x"; "Train/Loss_db_c";
    "Train/Loss_b_db_t"; "Train/Loss_b_db_x"; "Train/Loss_b_db_c";
    "Train/Loss_dep"; "Train/Acc glob"; "Train/Lr" ]%string.

Definition fgnet_scalar_tags : list string :=
  [ "Train/Time"; "Train/Data"; "Train/Loss_t"; "Train/Loss_x"; "Train/Loss_n";
    "Train/Loss_x_parts"; "Train/Acc glob"; "Train/Lr" ]%string.

(** What one batch prints and logs. *)
Definition log_expected (tags : list string) (engine : Engine)
    (epoch num_batches print_freq : Z) (item_ : Z * Data) : list log_token :=
  let batch_idx := fst item_ in
  (if print_due print_freq batch_idx then [LPrint (batch_idx + 1)] else []) ++
  match writer engine with
  | Some wr => map (fun tag => LScalar wr tag (n_iter_of epoch num_batches batch_idx)) tags
  | None => []
  end.

(** The monitor of the histograms' global step: its state is the [n_iter] of
    the latest [add_scalar] call. *)
Definition iter_step (s : option Z) (ev : event) : option Z :=
  match ev with
  | EAddScalar _ _ _ n_iter _ => Some n_iter
  | _ => s
  end.

Definition iter_ok (s : option Z) (ev : event) : Prop :=
  match ev with
  | EAddHistogram _ _ _ n_iter _ => s = Some n_iter
  | _ => True
  end.

(** *** Part-weight histograms *)

Definition index_ok (ev : event) : Prop :=
  match ev with
  | EIndex weights j _ => 0 <= j < size0 weights /\ j < 3
  | _ => True
  end.

Inductive hist_token : Type :=
| HIndex (weights : Tensor) (j : Z)
| HHistogram (wr : Writer) (tag : string) (n_iter : Z).

Definition hist_proj (ev : event) : list hist_token :=
  match ev with
  | EIndex weights j _ => [HIndex weights j]
  | EAddHistogram wr tag _ n_iter _ => [HHistogram wr tag n_iter]
  | _ => []
  end.

Definition hist_expected (wr : Writer) (n_iter i : Z) (weights : Tensor) : list hist_token :=
  flat_map (fun j => [HIndex weights j; HHistogram wr (part_tag i j) n_iter])
    (range (Z.min (size0 weights) 3)).

(** *** The control flow of an epoch *)

Inductive ctl_token : Type :=
| CNewMeter (id : meter_id)
| CLen
| CIter
| CNext (item_ : option Data)
| CFloatMul
| CModelTrain
| CPrintOnlyTrain (open_layers : option Layers) (epoch1 fixbase_epoch : Z)
| COpenSpecified (open_layers : option Layers)
| COpenAll
| CTime
| CUpdate (id : meter_id) (n : Z)
| CParse (data : Data)
| CCuda
| CZeroGrad
| CForward
| CBackward
| COptStep
| CAccuracy
| CEta
| CLr
| CPrintLine (epoch1 max_epoch batch num_batches : Z) (fields : list (meter_id * string))
| CScalar (wr : Writer) (tag : string) (n_iter : Z)
| CIndex
| CHistogram (wr : Writer) (n_iter : Z)
| CSchedStep (s : Scheduler).

(** The meters and writer tags of the loss terms, which differ between the
    engines with the losses they compute. *)
Definition is_loss_meter (id : meter_id) : bool :=
  match id with
  | id_accs | id_batch_time | id_data_time => false
  | _ => true
  end.

Definition is_loss_tag (tag : string) : bool := String.prefix "Train/Loss_" tag.

(** The fields of a progress line that are not those of a loss meter, each
    with its label. *)
Definition other_fields {Sc} (line : progress_line Sc) : list (meter_id * string) :=
  flat_map (fun f => let '(id, label, _, _) := f in
                     if is_loss_meter id then [] else [(id, label)])
    (pl_meters line).

(** The control flow of a run.  Left out is what belongs to the losses an
    engine computes: the loss computations, the products and sums that
    combine them, the loss meters (their construction, their [update] calls
    with the [.item()] and [.size(0)] calls that feed them, their
    [Train/Loss_*] scalars and their fields in the progress line), and the
    number of digits the progress line prints the learning rate with.  Of the
    calls kept, the values that the clock and the model decide are left out;
    [.size(0)] is called for the loss meters and in the histogram logging
    only. *)
Definition skeleton (ev : event) : list ctl_token :=
  match ev with
  | ENewMeter id _ => if is_loss_meter id then [] else [CNewMeter id]
  | ELen _ => [CLen]
  | EIter _ => [CIter]
  | ENext item_ _ => [CNext item_]
  | EMul _ _ _ | EAdd _ _ _ => []
  | EItem _ _ | ESize0 _ _ => []
  | EFloatMul _ _ _ => [CFloatMul]
  | EModelTrain _ => [CModelTrain]
  | EPrintOnlyTrain ol e1 fb _ => [CPrintOnlyTrain ol e1 fb]
  | EOpenSpecified ol _ => [COpenSpecified ol]
  | EOpenAll _ => [COpenAll]
  | ETime _ => [CTime]
  | EUpdate id _ n _ => if is_loss_meter id then [] else [CUpdate id n]
  | EParse data _ => [CParse data]
  | ECuda _ _ => [CCuda]
  | EZeroGrad _ => [CZeroGrad]
  | EForwardDropTop _ _ _ | EForward _ _ => [CForward]
  | ECompute _ _ _ _ _ => []
  | EBackward _ _ => [CBackward]
  | EOptStep _ => [COptStep]
  | EAccuracy _ _ _ => [CAccuracy]
  | ELr _ => [CLr]
  | EEta _ _ => [CEta]
  | EPrintProgress line _ =>
      [CPrintLine (pl_epoch line) (pl_max_epoch line) (pl_batch line) (pl_num_batches line)
         (other_fields line)]
  | EAddScalar wr tag _ n_iter _ => if is_loss_tag tag then [] else [CScalar wr tag n_iter]
  | EIndex _ _ _ => [CIndex]
  | EAddHistogram wr _ _ n_iter _ => [CHistogram wr n_iter]
  | ESchedStep s _ => [CSchedStep s]
  end.

Definition is_histogram_token (t : ctl_token) : bool :=
  match t with
  | CIndex | CHistogram _ _ => true
  | _ => false
  end.

Definition without_histograms (l : list ctl_token) : list ctl_token :=
  filter (fun t => negb (is_histogram_token t)) l.

(** The same, leaving the histogram logging out. *)
Definition skeleton_no_hist (ev : event) : list ctl_token := without_histograms (skeleton ev).

Definition batch_control (engine : Engine) (epoch max_epoch num_batches print_freq : Z)
    (item_ : Z * Data) : list ctl_token :=
  let '(batch_idx, data) := item_ in
  [CNext (Some data); CTime; CUpdate id_data_time 1; CParse data] ++
  (if use_gpu engine then [CCuda; CCuda] else []) ++
  [CZeroGrad; CForward; CBackward; COptStep; CTime; CUpdate id_batch_time 1;
   CAccuracy; CUpdate id_accs 1] ++
  (if print_due print_freq batch_idx then
     [CFloatMul; CEta; CLr;
      CPrintLine (epoch + 1) max_epoch (batch_idx + 1) num_batches
        [(id_batch_time, "Time"); (id_data_time, "Data"); (id_accs, "Acc glob")]%string]
   else []) ++
  match writer engine with
  | Some wr =>
      let n_iter := n_iter_of epoch num_batches batch_idx in
      [CScalar wr "Train/Time" n_iter; CScalar wr "Train/Data" n_iter;
       CScalar wr "Train/Acc glob" n_iter; CLr; CScalar wr "Train/Lr" n_iter]
  | None => []
  end ++
  [CTime].

Definition open_control (epoch fixbase_epoch : Z) (open_layers : option Layers)
    : list ctl_token :=
  if (epoch + 1 <=? fixbase_epoch) && is_not_None open_layers then
    [CPrintOnlyTrain open_layers (epoch + 1) fixbase_epoch; COpenSpecified open_layers]
  else [COpenAll].

Definition epoch_control (engine : Engine) (epoch max_epoch : Z) (trainloader : TrainLoader)
    (fixbase_epoch : Z) (open_layers : option Layers) (print_freq : Z) : list ctl_token :=
  [CNewMeter id_accs; CNewMeter id_batch_time; CNewMeter id_data_time; CModelTrain] ++
  open_control epoch fixbase_epoch open_layers ++ [CLen; CTime; CIter] ++
  flat_map (batch_control engine epoch max_epoch (loader_len trainloader) print_freq)
    (enumerate (loader_items trainloader)) ++
  [CNext None] ++
  match scheduler engine with
  | Some s => [CSchedStep s]
  | None => []
  end.

End Properties.

Arguments without_histograms {F} l /.
Arguments skeleton_no_hist {F} ev /.

Section MoreProperties.
Context {F : Framework}.

(** What one opening call and the batches look like (C3). *)
Definition phase_expected (epoch fixbase_epoch : Z) (open_layers : option Layers)
    (items : list Data) : list phase_token :=
  (if (epoch + 1 <=? fixbase_epoch) && is_not_None open_layers
   then TOpenSpecified open_layers else TOpenAll) :: map TBatch items.

(** A computation hands every exception on unchanged: a call that raises is
    the last call made and its exception is the outcome; and an exception that
    is the outcome was raised by the last call made, or is the
    [ZeroDivisionError] of Python's own [%] when [print_freq] is 0. *)
Definition raises_unchanged (print_freq : Z) {A} (m : M A) : Prop :=
  forall w,
    (forall d0 ev d1 e,
       events_of (m w) = d0 ++ ev :: d1 -> raised ev = Some e ->
       d1 = [] /\ outcome_of (m w) = Raise e) /\
    (forall e,
       outcome_of (m w) = Raise e ->
       (exists d0 ev, events_of (m w) = d0 ++ [ev] /\ raised ev = Some e) \/
       (e = ZeroDivisionError /\ print_freq = 0)).

(** What the pending-exception monitor holds when [train] raises [e]: the
    monitor saw [e] raised by a call, or it saw no call raise and [e] is the
    [ZeroDivisionError] of [%] with [print_freq] 0. *)
Definition pending_post (pf : Z) (e : Exn) (s : option Exn) : Prop :=
  s = Some e \/ (s = None /\ e = ZeroDivisionError /\ pf = 0).

(** The meters held by the local variables of the two [train] methods. *)
Definition cluster_meters (l : Cluster.locals) : meter_table :=
  fun id =>
    match id with
    | id_losses_t => Cluster.l_losses_t l
    | id_losses_x => Cluster.l_losses_x l
    | id_losses_c => Cluster.l_losses_c l
    | id_losses_db_t => Cluster.l_losses_db_t l
    | id_losses_db_x => Cluster.l_losses_db_x l
    | id_losses_db_c => Cluster.l_losses_db_c l
    | id_losses_b_db_t => Cluster.l_losses_b_db_t l
    | id_losses_b_db_x => Cluster.l_losses_b_db_x l
    | id_losses_b_db_c => Cluster.l_losses_b_db_c l
    | id_losses_dep => Cluster.l_losses_dep l
    | id_accs => Cluster.l_accs l
    | id_batch_time => Cluster.l_batch_time l
    | id_data_time => Cluster.l_data_time l
    | id_losses_n | id_losses_x_parts => AverageMeter
    end.

Definition fgnet_meters (l : FGNet.locals) : meter_table :=
  fun id =>
    match id with
    | id_losses_t => FGNet.l_losses_t l
    | id_losses_x => FGNet.l_losses_x l
    | id_losses_n => FGNet.l_losses_n l
    | id_losses_x_parts => FGNet.l_losses_x_parts l
    | id_accs => FGNet.l_accs l
    | id_batch_time => FGNet.l_batch_time l
    | id_data_time => FGNet.l_data_time l
    | _ => AverageMeter
    end.

(** Every value a computation reports (in a writer scalar or a progress line)
    is read off the meters as the [update] calls made before it in the same
    computation leave them, starting from fresh meters. *)
Definition reports_own_averages {A} (m : M A) : Prop :=
  forall w d0 ev d1,
    events_of (m w) = d0 ++ ev :: d1 ->
    match ev with
    | EAddScalar _ tag value _ _ =>
        forall id, tag_meter tag = Some id -> value = meter_avg (replay d0 id)
    | EPrintProgress line _ =>
        forall id label val avg,
          In (id, label, val, avg) (pl_meters line) ->
          val = meter_val (replay d0 id) /\ avg = meter_avg (replay d0 id)
    | _ => True
    end.

(** The global step of the latest [add_scalar] call of [d]. *)
Definition latest_scalar_iter (d : list event) : option Z := run iter_step None d.

End MoreProperties.

Arguments set_meter {F} s id m id' /.
Arguments every_ok {F} P s ev /.
Arguments every_step {F} s ev /.
Arguments history_step {F} s ev /.

(** * Further properties of the engines: what they read off a run *)

Section DataFlow.
Context {F : Framework}.

(** ** Clock readings *)

(** The readings [time.time()] has returned so far, latest first. *)
Definition clock_step (s : list Scalar) (ev : event) : list Scalar :=
  match ev with
  | ETime (Ok t) => t :: s
  | _ => s
  end.

Definition clock_readings (d : list event) : list Scalar := run clock_step [] d.

(** What is demanded of the two timers' [update] calls when the readings so
    far are [s]. *)
Definition timing_ok (s : list Scalar) (ev : event) : Prop :=
  match ev with
  | EUpdate id_data_time val n _ =>
      exists now end_ rest, s = now :: end_ :: rest /\ val = fsub now end_ /\ n = 1
  | EUpdate id_batch_time val n _ =>
      exists now mid end_ rest,
        s = now :: mid :: end_ :: rest /\ val = fsub now end_ /\ n = 1
  | _ => True
  end.

(** ** The latest answer of a kind, within a batch *)

Definition is_parse (ev : event) : bool :=
  match ev with EParse _ _ => true | _ => false end.

(** [pick] chooses the calls of a kind and reads a value off them.  The
    monitor keeps the value of the latest such call; fetching a new batch
    ([_parse_data_for_train]) forgets the value of the batch before. *)
Definition latest_step {A} (pick : event -> option A) (s : option A) (ev : event)
    : option A :=
  match pick ev with
  | Some a => Some a
  | None => if is_parse ev then None else s
  end.

Definition latest_of_batch {A} (pick : event -> option A) (d : list event) : option A :=
  run (latest_step pick) None d.

(** The labels of the batch: what [_parse_data_for_train] returned as [pids],
    or, when the engine uses the GPU, what the latest [.cuda()] returned. *)
Definition pick_labels (gpu : bool) (ev : event) : option Tensor :=
  match ev with
  | EParse _ (Ok (_, pids)) => if gpu then None else Some pids
  | ECuda _ (Ok t) => if gpu then Some t else None
  | _ => None
  end.

Definition pick_cluster_out (ev : event) : option (cluster_outputs Tensor) :=
  match ev with EForwardDropTop _ _ (Ok out) => Some out | _ => None end.

Definition pick_fgnet_out (ev : event) : option (fgnet_outputs Tensor) :=
  match ev with EForward _ (Ok out) => Some out | _ => None end.

Definition criterion_code (c : criterion) : Z :=
  match c with
  | criterion_x => 0 | criterion_t => 1 | criterion_c => 2
  | criterion_db_x => 3 | criterion_db_t => 4 | criterion_db_c => 5
  | criterion_b_db_x => 6 | criterion_b_db_t => 7 | criterion_b_db_c => 8
  | criterion_dep => 9
  | criterion_n => 10 | criterion_x_parts => 11
  end.

Definition criterion_eqb (a b : criterion) : bool := criterion_code a =? criterion_code b.

(** The loss the criterion [c] returned. *)
Definition pick_loss (c : criterion) (ev : event) : option Tensor :=
  match ev with
  | ECompute c' _ _ _ (Ok loss) => if criterion_eqb c c' then Some loss else None
  | _ => None
  end.

Definition pick_accuracy (ev : event) : option Scalar :=
  match ev with EAccuracy _ _ (Ok acc) => Some acc | _ => None end.

Definition pick_lr (ev : event) : option Scalar :=
  match ev with ELr (Ok lr) => Some lr | _ => None end.

(** The remaining time asked for, and the string returned for it. *)
Definition pick_eta (ev : event) : option (Scalar * string) :=
  match ev with EEta seconds (Ok str) => Some (seconds, str) | _ => None end.

Definition pick_batch_time (ev : event) : option Meter :=
  match ev with EUpdate id_batch_time _ _ (Ok m) => Some m | _ => None end.

(** The model output each criterion of the cluster-dependency engine is
    applied to (lines 146-155), and of the fgnet engine (lines 127-130). *)
Definition cluster_head (c : criterion) (out : cluster_outputs Tensor)
    : option (loss_input Tensor) :=
  match c with
  | criterion_x => Some (Single (prelogits out))
  | criterion_t | criterion_c => Some (Single (features out))
  | criterion_db_x => Some (Single (db_prelogits out))
  | criterion_db_t | criterion_db_c => Some (Single (db_features out))
  | criterion_b_db_x => Some (Single (b_db_prelogits out))
  | criterion_b_db_t | criterion_b_db_c => Some (Single (b_db_features out))
  | criterion_dep => Some (Pair (db_features out) (b_db_features out))
  | criterion_n | criterion_x_parts => None
  end.

Definition fgnet_head (c : criterion) (out : fgnet_outputs Tensor)
    : option (loss_input Tensor) :=
  match c with
  | criterion_t => Some (Single (fg_features out))
  | criterion_x => Some (Single (outputs out))
  | criterion_n => Some (Single (parts out))
  | criterion_x_parts => Some (Single (outputs_parts out))
  | _ => None
  end.

Definition is_pair {T} (outs : loss_input T) : bool :=
  match outs with Pair _ _ => true | Single _ => false end.

(** The criterion whose loss a meter averages. *)
Definition meter_criterion (id : meter_id) : option criterion :=
  match id with
  | id_losses_t => Some criterion_t
  | id_losses_x => Some criterion_x
  | id_losses_c => Some criterion_c
  | id_losses_db_t => Some criterion_db_t
  | id_losses_db_x => Some criterion_db_x
  | id_losses_db_c => Some criterion_db_c
  | id_losses_b_db_t => Some criterion_b_db_t
  | id_losses_b_db_x => Some criterion_b_db_x
  | id_losses_b_db_c => Some criterion_b_db_c
  | id_losses_dep => Some criterion_dep
  | id_losses_n => Some criterion_n
  | id_losses_x_parts => Some criterion_x_parts
  | id_accs | id_batch_time | id_data_time => None
  end.

(** All of these at once: the state of the data-flow monitor. *)
Record flow : Type := {
  f_labels : option Tensor;
  f_cluster_out : option (cluster_outputs Tensor);
  f_fgnet_out : option (fgnet_outputs Tensor);
  f_loss : criterion -> option Tensor;
  f_accuracy : option Scalar;
  f_lr : option Scalar;
  f_eta : option (Scalar * string);
  f_batch_time : option Meter
}.

Definition flow_start : flow :=
  {| f_labels := None; f_cluster_out := None; f_fgnet_out := None;
     f_loss := fun _ => None; f_accuracy := None; f_lr := None; f_eta := None;
     f_batch_time := None |}.

Definition flow_step (gpu : bool) (s : flow) (ev : event) : flow :=
  {| f_labels := latest_step (pick_labels gpu) (f_labels s) ev;
     f_cluster_out := latest_step pick_cluster_out (f_cluster_out s) ev;
     f_fgnet_out := latest_step pick_fgnet_out (f_fgnet_out s) ev;
     f_loss := fun c => latest_step (pick_loss c) (f_loss s c) ev;
     f_accuracy := latest_step pick_accuracy (f_accuracy s) ev;
     f_lr := latest_step pick_lr (f_lr s) ev;
     f_eta := latest_step pick_eta (f_eta s) ev;
     f_batch_time := latest_step pick_batch_time (f_batch_time s) ev |}.

(** What is demanded of a call of the cluster-dependency engine when the
    latest answers are [s]. *)
Definition cluster_flow_ok (epoch max_epoch num_batches : Z) (s : flow) (ev : event)
    : Prop :=
  match ev with
  | ECompute c outs targets use_tuple _ =>
      f_labels s = Some targets /\
      (exists out, f_cluster_out s = Some out /\ cluster_head c out = Some outs) /\
      use_tuple = is_pair outs
  | EAccuracy output target _ =>
      f_labels s = Some target /\
      exists out, f_cluster_out s = Some out /\ output = prelogits out
  | EUpdate id val n _ =>
      match meter_criterion id with
      | Some c =>
          exists loss pids,
            f_loss s c = Some loss /\ val = item loss /\
            f_labels s = Some pids /\ n = size0 pids
      | None =>
          match id with
          | id_accs => f_accuracy s = Some val /\ n = 1
          | _ => True
          end
      end
  | EAddScalar _ tag value _ _ => tag = "Train/Lr"%string -> f_lr s = Some value
  | EPrintProgress line _ =>
      f_lr s = Some (pl_lr line) /\
      exists m,
        f_batch_time s = Some m /\
        f_eta s = Some (eta_seconds (meter_avg m) epoch max_epoch num_batches
                          (pl_batch line - 1),
                        pl_eta line)
  | _ => True
  end.

Definition fgnet_flow_ok (epoch max_epoch num_batches : Z) (s : flow) (ev : event)
    : Prop :=
  match ev with
  | ECompute c outs targets use_tuple _ =>
      f_labels s = Some targets /\
      (exists out, f_fgnet_out s = Some out /\ fgnet_head c out = Some outs) /\
      use_tuple = false
  | EAccuracy output target _ =>
      f_labels s = Some target /\
      exists out, f_fgnet_out s = Some out /\ output = outputs out
  | EUpdate id val n _ =>
      match meter_criterion id with
      | Some c =>
          exists loss pids,
            f_loss s c = Some loss /\ val = item loss /\
            f_labels s = Some pids /\ n = size0 pids
      | None =>
          match id with
          | id_accs => f_accuracy s = Some val /\ n = 1
          | _ => True
          end
      end
  | EAddScalar _ tag value _ _ => tag = "Train/Lr"%string -> f_lr s = Some value
  | EPrintProgress line _ =>
      f_lr s = Some (pl_lr line) /\
      exists m,
        f_batch_time s = Some m /\
        f_eta s = Some (eta_seconds (meter_avg m) epoch max_epoch num_batches
                          (pl_batch line - 1),
                        pl_eta line)
  | _ => True
  end.

(** ** The inputs of the forward call *)

(** The calls between fetching a batch and the forward call (lines 138-143):
    the batch is parsed, its images and labels are moved to the GPU when the
    engine uses it, and the gradients are reset. *)
Definition batch_inputs (gpu : bool) (data : Data) (imgs0 pids0 imgs pids : Tensor)
    : list event :=
  EParse data (Ok (imgs0, pids0)) ::
  (if gpu then [ECuda imgs0 (Ok imgs); ECuda pids0 (Ok pids)] else []) ++
  [EZeroGrad (Ok tt)].

Definition forward_inputs_ok (gpu : bool) (hist : list event) (imgs : Tensor) : Prop :=
  exists data imgs0 pids0 pids rest,
    hist = rev (batch_inputs gpu data imgs0 pids0 imgs pids) ++ rest /\
    (gpu = false -> imgs = imgs0 /\ pids = pids0).

Definition forward_ok (gpu : bool) (hist : list event) (ev : event) : Prop :=
  match ev with
  | EForwardDropTop imgs _ _ => forward_inputs_ok gpu hist imgs
  | EForward imgs _ => forward_inputs_ok gpu hist imgs
  | _ => True
  end.

(** ** Calls an engine never makes *)

Definition is_cluster_criterion (c : criterion) : bool :=
  match c with
  | criterion_n | criterion_x_parts => false
  | _ => true
  end.

Definition is_fgnet_criterion (c : criterion) : bool :=
  match c with
  | criterion_t | criterion_x | criterion_n | criterion_x_parts => true
  | _ => false
  end.

(** The calls of a run of the cluster-dependency engine. *)
Definition cluster_call (engine : Engine) (ev : event) : Prop :=
  match ev with
  | EForward _ _ | EIndex _ _ _ | EAddHistogram _ _ _ _ _ => False
  | ECompute c _ _ _ _ => is_cluster_criterion c = true
  | ENewMeter id _ | EUpdate id _ _ _ => id <> id_losses_n /\ id <> id_losses_x_parts
  | ECuda _ _ => use_gpu engine = true
  | EAddScalar wr _ _ _ _ => writer engine = Some wr
  | ESchedStep s _ => scheduler engine = Some s
  | _ => True
  end.

(** The calls of a run of the fgnet engine. *)
Definition fgnet_call (engine : Engine) (ev : event) : Prop :=
  match ev with
  | EForwardDropTop _ _ _ => False
  | ECompute c _ _ _ _ => is_fgnet_criterion c = true
  | ENewMeter id _ | EUpdate id _ _ _ =>
      match meter_criterion id with
      | Some c => is_fgnet_criterion c = true
      | None => True
      end
  | ECuda _ _ => use_gpu engine = true
  | EAddScalar wr _ _ _ _ | EAddHistogram wr _ _ _ _ => writer engine = Some wr
  | EIndex _ _ _ => writer engine <> None
  | ESchedStep s _ => scheduler engine = Some s
  | _ => True
  end.

(** ** A zero [print_freq] *)

(** Calls that report: the progress line with what it asks for, and the
    writer's records. *)
Definition is_report (ev : event) : bool :=
  match ev with
  | EFloatMul _ _ _ | EEta _ _ | ELr _ | EPrintProgress _ _
  | EAddScalar _ _ _ _ _ | EIndex _ _ _ | EAddHistogram _ _ _ _ _ => true
  | _ => false
  end.

Definition is_scheduler_step (ev : event) : bool :=
  match ev with ESchedStep _ _ => true | _ => false end.

Definition no_report_nor_step (ev : event) : Prop :=
  is_report ev = false /\ is_scheduler_step ev = false.

(** ** Writer records *)

(** The tag and global step an [add_scalar] call writes under. *)
Definition scalar_key (ev : event) : list (string * Z) :=
  match ev with
  | EAddScalar _ tag _ n_iter _ => [(tag, n_iter)]
  | _ => []
  end.

Definition token_key (t : log_token) : list (string * Z) :=
  match t with
  | LScalar _ tag n_iter => [(tag, n_iter)]
  | LPrint _ => []
  end.

(** The keys one batch writes its scalars under. *)
Definition batch_keys (tags : list string) (engine : Engine) (epoch num_batches : Z)
    (item_ : Z * Data) : list (string * Z) :=
  match writer engine with
  | Some _ => map (fun tag => (tag, n_iter_of epoch num_batches (fst item_))) tags
  | None => []
  end.

(** The tag and global step an [add_histogram] call writes under. *)
Definition histogram_key (ev : event) : list (string * Z) :=
  match ev with
  | EAddHistogram _ tag _ n_iter _ => [(tag, n_iter)]
  | _ => []
  end.

(** The monitor of the histograms written: its state is the keys written so
    far, and it demands a new key of every [add_histogram] call. *)
Definition keys_step (s : list (string * Z)) (ev : event) : list (string * Z) :=
  histogram_key ev ++ s.

Definition keys_ok (s : list (string * Z)) (ev : event) : Prop :=
  match ev with
  | EAddHistogram _ tag _ n_iter _ => ~ In (tag, n_iter) s
  | _ => True
  end.

(** A key written before the histogram of part [i], index [j], at the step
    [n_iter]: at an earlier step, or at this step for an earlier part, or for
    this part and an earlier index. *)
Definition older_key (n_iter i j : Z) (key : string * Z) : Prop :=
  snd key < n_iter \/
  (snd key = n_iter /\
   exists i' j', fst key = part_tag i' j' /\ (i' < i \/ (i' = i /\ j' < j))).

(** The character ["/"], and the strings without it. *)
Definition slash : Ascii.ascii := Ascii.ascii_of_nat 47.

Fixpoint no_slash (s : string) : bool :=
  match s with
  | EmptyString => true
  | String c s' => negb (Ascii.eqb c slash) && no_slash s'
  end.

End DataFlow.

Arguments latest_step {F A} pick s ev /.
Arguments clock_step {F} s ev /.
Arguments keys_step {F} s ev /.

(** ** The loss objects [__init__] creates *)

Section Criteria.
Context {F : Framework}.

(** The classes of [torchreid.losses] the engines instantiate, with the
    arguments of their constructors. *)
Inductive loss_object : Type :=
| TripletLossWithDependency (margin : Scalar)
| ClusterLoss
| TripletLoss (margin : Scalar)
| CrossEntropyLoss (num_classes : Z) (use_gpu label_smooth : bool)
| NPairsLoss (use_gpu : bool) (margin_sasc margin_sadc margin_dasc : Scalar).

(** Lines 88-109 of the cluster-dependency engine: the attributes assigned, in
    the order of the source.  [num_train_pids] is
    [self.datamanager.num_train_pids]. *)
Definition cluster_criteria (engine : Engine) (num_train_pids : Z) (margin : Scalar)
    (label_smooth : bool) : list (criterion * loss_object) :=
  [ (criterion_dep, TripletLossWithDependency margin);
    (criterion_c, ClusterLoss);
    (criterion_t, TripletLoss margin);
    (criterion_x, CrossEntropyLoss num_train_pids (use_gpu engine) label_smooth);
    (criterion_db_c, ClusterLoss);
    (criterion_db_t, TripletLoss margin);
    (criterion_db_x, CrossEntropyLoss num_train_pids (use_gpu engine) label_smooth);
    (criterion_b_db_c, ClusterLoss);
    (criterion_b_db_t, TripletLoss margin);
    (criterion_b_db_x, CrossEntropyLoss num_train_pids (use_gpu engine) label_smooth) ].

(** Lines 81-97 of the fgnet engine. *)
Definition fgnet_criteria (engine : Engine) (num_train_pids : Z)
    (margin margin_sasc margin_sadc margin_dasc : Scalar) (label_smooth : bool)
    : list (criterion * loss_object) :=
  [ (criterion_t, TripletLoss margin);
    (criterion_x, CrossEntropyLoss num_train_pids (use_gpu engine) label_smooth);
    (criterion_n, NPairsLoss (use_gpu engine) margin_sasc margin_sadc margin_dasc);
    (criterion_x_parts, CrossEntropyLoss num_train_pids (use_gpu engine) label_smooth) ].

(** [self.<criterion>]: the object last assigned to the attribute, if any. *)
Fixpoint getattr (attrs : list (criterion * loss_object)) (c : criterion)
    : option loss_object :=
  match attrs with
  | [] => None
  | (c', o) :: rest =>
      match getattr rest c with
      | Some o' => Some o'
      | None => if criterion_eqb c c' then Some o else None
      end
  end.

(** The head a criterion of the cluster-dependency engine scores: the global
    one, the drop-batch one, the bottom drop-batch one; the dependency loss
    scores two. *)
Inductive head : Type := head_global | head_db | head_b_db.

(** The criterion of the same kind on another head. *)
Definition on_head (h : head) (c : criterion) : criterion :=
  match c, h with
  | (criterion_x | criterion_db_x | criterion_b_db_x), head_global => criterion_x
  | (criterion_x | criterion_db_x | criterion_b_db_x), head_db => criterion_db_x
  | (criterion_x | criterion_db_x | criterion_b_db_x), head_b_db => criterion_b_db_x
  | (criterion_t | criterion_db_t | criterion_b_db_t), head_global => criterion_t
  | (criterion_t | criterion_db_t | criterion_b_db_t), head_db => criterion_db_t
  | (criterion_t | criterion_db_t | criterion_b_db_t), head_b_db => criterion_b_db_t
  | (criterion_c | criterion_db_c | criterion_b_db_c), head_global => criterion_c
  | (criterion_c | criterion_db_c | criterion_b_db_c), head_db => criterion_db_c
  | (criterion_c | criterion_db_c | criterion_b_db_c), head_b_db => criterion_b_db_c
  | c, _ => c
  end.

(** The criterion a compute-loss call uses. *)
Definition criterion_used (ev : event) : list criterion :=
  match ev with
  | ECompute c _ _ _ _ => [c]
  | _ => []
  end.

(** The criteria of lines 146-155, and of lines 127-130, in the order of use. *)
Definition cluster_criteria_used : list criterion :=
  [ criterion_x; criterion_t; criterion_c; criterion_db_x; criterion_db_t; criterion_db_c;
    criterion_b_db_x; criterion_b_db_t; criterion_b_db_c; criterion_dep ].

Definition fgnet_criteria_used : list criterion :=
  [ criterion_t; criterion_x; criterion_n; criterion_x_parts ].

End Criteria.

(** * A small framework to run the engines on

    Tensors, floats and weights are integers; the state of the framework is a
    clock that [time.time()] reads and advances; the model refuses negative
    images and [len] raises when the clock is negative; every other call
    returns; a loss is a number that depends on the criterion and on its
    input.  The meter keeps [val], [avg], [sum] and [count] and divides with
    integer division. *)

Module Toy.

Definition toy_meter : Type := Z * Z * Z * Z.

Definition toy_update (m : toy_meter) (val n : Z) : result string toy_meter :=
  let '(_, _, sum, count) := m in
  let sum' := sum + val * n in
  let count' := count + n in
  if count' =? 0 then Raise "ZeroDivisionError"%string
  else Ok (val, sum' / count', sum', count').

Definition toy_loss (c : criterion) (outs : loss_input Z) : Z :=
  match outs with Single t => t | Pair a b => a + b end +
  match c with
  | criterion_x => 11 | criterion_t => 12 | criterion_c => 13
  | criterion_db_x => 14 | criterion_db_t => 15 | criterion_db_c => 16
  | criterion_b_db_x => 17 | criterion_b_db_t => 18 | criterion_b_db_c => 19
  | criterion_dep => 20
  | criterion_n => 21 | criterion_x_parts => 22
  end.

Definition framework : Framework := {|
  World := Z;
  Exn := string;
  ZeroDivisionError := "ZeroDivisionError"%string;
  Tensor := Z;
  Scalar := Z;
  Weight := Z;
  Data := Z;
  Layers := string;
  Scheduler := unit;
  Writer := unit;
  scale := Z.mul;
  tadd := Z.add;
  item := fun t => t;
  size0 := fun t => t;
  fsub := Z.sub;
  fmul_int := Z.mul;
  Meter := toy_meter;
  AverageMeter := (0, 0, 0, 0);
  meter_update := toy_update;
  meter_val := fun m => fst (fst (fst m));
  meter_avg := fun m => snd (fst (fst m));
  fw_new_meter := fun w => (Ok tt, w);
  fw_len := fun w => if w <? 0 then (Raise "OverflowError"%string, w) else (Ok tt, w);
  fw_iter := fun w => (Ok tt, w);
  fw_next := fun _ w => (Ok tt, w);
  fw_mul := fun _ _ w => (Ok tt, w);
  fw_add := fun _ _ w => (Ok tt, w);
  fw_item := fun _ w => (Ok tt, w);
  fw_size0 := fun _ w => (Ok tt, w);
  fw_float_mul := fun _ _ w => (Ok tt, w);
  fw_model_train := fun w => (Ok tt, w);
  fw_print_only_train := fun _ _ _ w => (Ok tt, w);
  fw_open_specified_layers := fun _ w => (Ok tt, w);
  fw_open_all_layers := fun w => (Ok tt, w);
  fw_time := fun w => (Ok w, w + 1);
  fw_parse_data_for_train := fun data w => (Ok (data, 4), w);
  fw_cuda := fun t w => (Ok t, w);
  fw_zero_grad := fun w => (Ok tt, w);
  fw_model_drop_top := fun imgs _ w =>
    if imgs <? 0 then (Raise "RuntimeError"%string, w)
    else (Ok {| prelogits := imgs; features := imgs + 1;
                db_prelogits := imgs + 2; db_features := imgs + 3;
                b_db_prelogits := imgs + 4; b_db_features := imgs + 5 |}, w);
  fw_model := fun imgs w =>
    if imgs <? 0 then (Raise "RuntimeError"%string, w)
    else (Ok {| outputs := imgs; fg_features := imgs + 1; parts := imgs + 2;
                part_weights := [(0, 2); (0, 5)]; outputs_parts := imgs + 3 |}, w);
  fw_compute_loss := fun c outs _ _ w => (Ok (toy_loss c outs), w);
  fw_backward := fun _ w => (Ok tt, w);
  fw_optimizer_step := fun w => (Ok tt, w);
  fw_accuracy := fun _ _ w => (Ok 90, w);
  fw_lr := fun w => (Ok 3, w);
  fw_timedelta_str := fun _ w => (Ok "0:00:00"%string, w);
  fw_print_progress := fun _ w => (Ok tt, w);
  fw_add_scalar := fun _ _ _ _ w => (Ok tt, w);
  fw_index := fun weights j w => (Ok (10 * weights + j), w);
  fw_add_histogram := fun _ _ _ _ w => (Ok tt, w);
  fw_scheduler_step := fun _ w => (Ok tt, w)
|}.

Definition engine : @Engine framework :=
  @Build_Engine framework true (Some tt) (Some tt).

Definition cluster : @Cluster.t framework :=
  Cluster.init engine 1 2 3 4 5 6 7 8 9 10 (Some 2).

Definition fgnet : @FGNet.t framework := FGNet.init engine 1 2 3 4.

Definition loader : @TrainLoader framework := @Build_TrainLoader framework 2 [10; 20].

(** Epoch 1 of 60 over two batches, printing every second batch. *)
Definition cluster_run := Cluster.train cluster 1 60 loader 0 None 2 0.
Definition fgnet_run := FGNet.train fgnet 1 60 loader 0 None 2 0.

(** The same over a loader whose second batch the model refuses. *)
Definition bad_loader : @TrainLoader framework :=
  @Build_TrainLoader framework 2 [10; -1].
Definition cluster_bad_run := Cluster.train cluster 1 60 bad_loader 0 None 2 0.

(** The same over an empty loader. *)
Definition empty_loader : @TrainLoader framework := @Build_TrainLoader framework 0 [].
Definition cluster_empty_run := Cluster.train cluster 1 60 empty_loader 0 None 2 0.

End Toy.

(** * Proofs *)

(** ** The monitor logic *)

Section MonitorLemmas.
Context {F : Framework} {S : Type}.
Variable step : S -> event -> S.
Variable ok : S -> event -> Prop.

Lemma run_app s d1 d2 : run step s (d1 ++ d2) = run step (run step s d1) d2.
Proof. revert s; induction d1; simpl; auto. Qed.

Lemma accepts_app s d1 d2 :
  accepts step ok s (d1 ++ d2) <->
  accepts step ok s d1 /\ accepts step ok (run step s d1) d2.
Proof.
  revert s; induction d1 as [|ev d1 IH]; simpl; intros s.
  - tauto.
  - rewrite IH. tauto.
Qed.

Lemma accepts_at s d d0 ev d1 :
  accepts step ok s d -> d = d0 ++ ev :: d1 -> ok (run step s d0) ev.
Proof.
  intros H ->. apply accepts_app in H. simpl in H. tauto.
Qed.

Lemma wp_ret {A} (a : A) s (Q : A -> S -> Prop) QE : Q a s -> wp step ok (ret a) s Q QE.
Proof. intros H w. simpl. auto. Qed.

Lemma wp_lift {A} (r : result Exn A) s (Q : A -> S -> Prop) (QE : Exn -> S -> Prop) :
  match r with Ok a => Q a s | Raise e => QE e s end -> wp step ok (lift r) s Q QE.
Proof. intros H w. simpl. destruct r; auto. Qed.

Lemma wp_bind {A B} (m : M A) (f : A -> M B) s (Q : B -> S -> Prop) QE :
  wp step ok m s (fun a s1 => wp step ok (f a) s1 Q QE) QE -> wp step ok (bind m f) s Q QE.
Proof.
  intros H w. specialize (H w). unfold bind, events_of, outcome_of in *.
  destruct (m w) as [[d1 w1] [a|e]]; simpl in *.
  - destruct H as [H1 H2]. specialize (H2 w1).
    unfold events_of, outcome_of in H2.
    destruct (f a w1) as [[d2 w2] r]; simpl in *.
    rewrite accepts_app, run_app. tauto.
  - exact H.
Qed.

Lemma wp_call {A} (mk : result Exn A -> event) h s (Q : A -> S -> Prop)
    (QE : Exn -> S -> Prop) :
  (forall r, ok s (mk r)) ->
  (forall a, Q a (step s (mk (Ok a)))) ->
  (forall e, QE e (step s (mk (Raise e)))) ->
  wp step ok (call mk h) s Q QE.
Proof.
  intros Hok HQ HE w. unfold call, events_of, outcome_of.
  destruct (h w) as [[a|e] w1]; simpl; auto.
Qed.

(** The same for a call whose answer does not depend on the framework's
    state: the postcondition may use the answer. *)
Lemma wp_call_pure {A} (mk : result Exn A -> event) (r : result Exn A) s
    (Q : A -> S -> Prop) (QE : Exn -> S -> Prop) :
  ok s (mk r) ->
  match r with Ok a => Q a (step s (mk r)) | Raise e => QE e (step s (mk r)) end ->
  wp step ok (call mk (fun w => (r, w))) s Q QE.
Proof.
  intros Hok H w. unfold call, events_of, outcome_of. simpl. destruct r; auto.
Qed.

Lemma wp_conseq {A} (m : M A) s (Q Q' : A -> S -> Prop) (QE QE' : Exn -> S -> Prop) :
  wp step ok m s Q QE ->
  (forall a s', Q a s' -> Q' a s') ->
  (forall e s', QE e s' -> QE' e s') ->
  wp step ok m s Q' QE'.
Proof.
  intros H HQ HE w. specialize (H w). destruct H as [H1 H2]. split; auto.
  destruct (outcome_of (m w)); auto.
Qed.

(** A loop keeps an invariant that is indexed by the items still to come. *)
Lemma wp_for_in {A L} (body : A -> L -> M L) (I : list A -> L -> S -> Prop)
    (QE : Exn -> S -> Prop) :
  (forall x xs l s, I (x :: xs) l s ->
     wp step ok (body x l) s (fun l' s' => I xs l' s') QE) ->
  forall xs l s, I xs l s -> wp step ok (for_in xs body l) s (fun l' s' => I [] l' s') QE.
Proof.
  intros Hbody. induction xs as [|x xs IH]; intros l s HI; simpl.
  - now apply wp_ret.
  - apply wp_bind. eapply wp_conseq.
    + apply Hbody; eassumption.
    + intros l' s' HI'. now apply IH.
    + auto.
Qed.

Lemma wp_loop {A L} (body : A -> L -> M L) (I : list A -> L -> S -> Prop)
    (Q : L -> S -> Prop) (QE : Exn -> S -> Prop) :
  (forall x xs l s, I (x :: xs) l s ->
     wp step ok (body x l) s (fun l' s' => I xs l' s') QE) ->
  (forall l s, I [] l s -> Q l s) ->
  forall xs l s, I xs l s -> wp step ok (for_in xs body l) s Q QE.
Proof.
  intros Hbody HQ xs l s HI. eapply wp_conseq.
  - apply wp_for_in with (I := I); eassumption.
  - exact HQ.
  - auto.
Qed.

(** The histogram logging of one part: [weights.size(0)], then the loop. *)
Lemma wp_log_part wr n i x weights u s (Q : unit -> S -> Prop) QE :
  (forall r, ok s (ESize0 weights r)) ->
  wp step ok
     (for_in (range (Z.min (size0 weights) 3))
        (fun j _ => values <- getitem weights j ;;
                    add_histogram wr (part_tag i j) values n) tt)
     (step s (ESize0 weights (Ok tt))) Q QE ->
  (forall e, QE e (step s (ESize0 weights (Raise e)))) ->
  wp step ok (FGNet.log_part wr n (i, (x, weights)) u) s Q QE.
Proof.
  intros Hok Hloop HE. unfold FGNet.log_part, size0_of.
  apply wp_bind. apply wp_bind. apply wp_call; [ exact Hok | | exact HE ].
  intros []. apply wp_ret. exact Hloop.
Qed.

End MonitorLemmas.

Section TokenLemmas.
Context {F : Framework} {T : Type}.
Variable proj : event -> list T.

Lemma consume_sound s d :
  accepts (consume_step proj) (consume_ok proj) s d ->
  s = flat_map proj d ++ run (consume_step proj) s d.
Proof.
  revert s; induction d as [|ev d IH]; simpl; intros s H.
  - reflexivity.
  - destruct H as [[rest ->] H]. unfold consume_step in *.
    rewrite skipn_app, skipn_all, Nat.sub_diag in *. simpl in *.
    rewrite <- app_assoc. f_equal. now apply IH.
Qed.

Lemma wp_follows {A} (m : M A) expected :
  wp (consume_step proj) (consume_ok proj) m expected
     (fun _ s => s = []) (fun _ _ => True) ->
  follows proj m expected.
Proof.
  intros H w. destruct (H w) as [Hacc Hout].
  apply consume_sound in Hacc. split.
  - eexists. exact Hacc.
  - intros a Ha. rewrite Ha in Hout. rewrite Hout, app_nil_r in Hacc. now symmetry.
Qed.

(** A call that yields the tokens [ts] takes them off the front. *)
Lemma tok_call {A} (mk : result Exn A -> event) h ts s rest (Q : A -> list T -> Prop) :
  (forall r, proj (mk r) = ts) ->
  s = ts ++ rest ->
  (forall a, Q a rest) ->
  wp (consume_step proj) (consume_ok proj) (call mk h) s Q (fun _ _ => True).
Proof.
  intros Hp -> HQ. apply wp_call.
  - intro r. exists rest. now rewrite Hp.
  - intro a. unfold consume_step. rewrite Hp, skipn_app, skipn_all, Nat.sub_diag. apply HQ.
  - auto.
Qed.

(** A loop whose body takes [e x] off the front for each item [x]. *)
Lemma tok_for_in {A L} (body : A -> L -> M L) (e : A -> list T) :
  (forall x l rest,
     wp (consume_step proj) (consume_ok proj) (body x l) (e x ++ rest)
        (fun _ s => s = rest) (fun _ _ => True)) ->
  forall xs l rest,
    wp (consume_step proj) (consume_ok proj) (for_in xs body l) (flat_map e xs ++ rest)
       (fun _ s => s = rest) (fun _ _ => True).
Proof.
  intros Hbody xs l rest.
  apply wp_for_in with (I := fun xs _ s => s = flat_map e xs ++ rest); [|reflexivity].
  intros x xs' l' s ->. simpl. rewrite <- app_assoc. apply Hbody.
Qed.

End TokenLemmas.

Section EveryLemmas.
Context {F : Framework}.

Lemma accepts_every (P : event -> Prop) d :
  accepts every_step (every_ok P) tt d <-> Forall P d.
Proof.
  induction d as [|ev d IH]; simpl.
  - split; auto.
  - rewrite IH. unfold every_ok, every_step. split.
    + intros [H1 H2]. now constructor.
    + intros H. inversion H; auto.
Qed.

Lemma run_history d s : run history_step s d = rev d ++ s.
Proof.
  revert s; induction d as [|ev d IH]; simpl; intros s; auto.
  rewrite IH. unfold history_step. now rewrite <- app_assoc.
Qed.

Lemma rev_eq_app {A} (l : list A) l1 l2 : rev l = l1 ++ l2 -> l = rev l2 ++ rev l1.
Proof. intros H. rewrite <- rev_app_distr, <- H. now rewrite rev_involutive. Qed.

Lemma enumerate_from_snd {A} (xs : list A) k : map snd (enumerate_from k xs) = xs.
Proof. revert k; induction xs; simpl; intros; f_equal; auto. Qed.

Lemma flat_map_enumerate {A B} (f : A -> list B) (xs : list A) k :
  flat_map (fun it => f (snd it)) (enumerate_from k xs) = flat_map f xs.
Proof. revert k; induction xs; simpl; intros; f_equal; auto. Qed.

End EveryLemmas.

(** ** Stepping through an engine *)

Ltac wp_unfold :=
  unfold Cluster.weighted_sum, FGNet.weighted_sum, update_loss, new_meter, len, loader_iter,
    loader_next, tensor_mul, tensor_add, item_of, size0_of, float_mul;
  unfold open_layers_phase, model_train, print_only_train, open_specified_layers,
    open_all_layers, time_time, update, parse_data_for_train, cuda, optimizer_zero_grad,
    model_drop_top, model, compute_loss, backward, optimizer_step, accuracy, optimizer_lr,
    timedelta_str, print_progress, add_scalar, getitem, add_histogram, scheduler_step.

(** One step of a program; [on_call] settles a call, [on_lift] an operation of
    the language. *)
Ltac wp_step on_call on_lift :=
  lazymatch goal with
  | |- wp _ _ (bind _ _) _ _ _ => apply wp_bind
  | |- wp _ _ (call _ _) _ _ _ => on_call
  | |- wp _ _ (ret _) _ _ _ => apply wp_ret
  | |- wp _ _ (lift _) _ _ _ => apply wp_lift; on_lift
  | |- wp _ _ (let '(_, _) := ?p in _) _ _ _ => destruct p
  | |- wp _ _ (if ?b then _ else _) _ _ _ => destruct b eqn:?
  | |- wp _ _ (match ?o with Some _ => _ | None => _ end) _ _ _ => destruct o eqn:?
  end.

Ltac tok_on_call :=
  eapply tok_call; [ intro; simpl; reflexivity | simpl; reflexivity | intro ].

Ltac on_py_mod tac :=
  unfold py_mod;
  lazymatch goal with
  | |- match (if ?b then _ else _) with _ => _ end => destruct b eqn:?; [ tac | ]
  end.

Ltac tok_steps := repeat wp_step tok_on_call ltac:(on_py_mod ltac:(exact I)).

(** ** Loops that make no call a property reads *)

Section SilentLoops.
Context {F : Framework} {T : Type}.
Variable proj : event -> list T.
Hypothesis proj_size0 : forall t r, proj (ESize0 t r) = [].
Hypothesis proj_index : forall weights j r, proj (EIndex weights j r) = [].
Hypothesis proj_histogram : forall wr tag v n r, proj (EAddHistogram wr tag v n r) = [].

(** The histogram logging of the fgnet engine yields no token of [proj]. *)
Lemma log_part_silent wr n it u s :
  wp (consume_step proj) (consume_ok proj) (FGNet.log_part wr n it u) s
     (fun _ s' => s' = s) (fun _ _ => True).
Proof.
  destruct it as [i [x weights]].
  assert (Hs : forall r, consume_step proj s (ESize0 weights r) = s)
    by (intro; unfold consume_step; now rewrite proj_size0).
  apply wp_log_part; [ intro; exists s; now rewrite proj_size0 | rewrite Hs | auto ].
  apply wp_for_in with (I := fun _ _ s' => s' = s); [|reflexivity].
  intros j js [] s' ->. wp_unfold. apply wp_bind.
  eapply tok_call; [intro; apply proj_index | reflexivity | intro values].
  eapply tok_call; [intro; apply proj_histogram | reflexivity | intro; reflexivity].
Qed.

Lemma log_parts_silent wr n (pw : list (Z * (Tensor * Tensor))) u s :
  wp (consume_step proj) (consume_ok proj) (for_in pw (FGNet.log_part wr n) u) s
     (fun _ s' => s' = s) (fun _ _ => True).
Proof.
  apply wp_for_in with (I := fun _ _ s' => s' = s); [|reflexivity].
  intros it its u' s' ->. apply log_part_silent.
Qed.

End SilentLoops.

Ltac tok_silent_loop :=
  eapply wp_conseq;
  [ apply log_parts_silent; intros; reflexivity | intros ? ? -> | auto ].

Ltac tok_step :=
  lazymatch goal with
  | |- wp _ _ (for_in (enumerate (part_weights _)) _ _) _ _ _ => tok_silent_loop
  | _ => wp_step tok_on_call ltac:(on_py_mod ltac:(exact I))
  end.

Ltac tok_steps ::= repeat tok_step.

(** The rest of [train] after a batch loop whose body takes [e] off the front
    for each batch. *)
Ltac tok_train body_lemma e :=
  tok_steps;
  lazymatch goal with
  | |- wp _ _ (for_in (enumerate_from ?k ?xs) _ _) (?l ++ ?rest) _ _ =>
      eapply wp_conseq;
      [ apply (@tok_for_in _ _ _ _ _ _ e); intros; apply body_lemma
      | intros ? ? ->; tok_steps; try reflexivity
      | auto ]
  end.

(** ** The gradient step of every batch (C7) *)

Section GradientSteps.
Context {F : Framework}.

Lemma cluster_batch_grad self epoch max_epoch nb pf it l rest :
  wp (consume_step grad_proj) (consume_ok grad_proj)
     (Cluster.train_batch self epoch max_epoch nb pf it l)
     (grad_expected (snd it) ++ rest)
     (fun _ s => s = rest) (fun _ _ => True).
Proof.
  unfold Cluster.train_batch. destruct it as [batch_idx data]. wp_unfold.
  tok_steps; reflexivity.
Qed.

Lemma fgnet_batch_grad self epoch max_epoch nb pf it l rest :
  wp (consume_step grad_proj) (consume_ok grad_proj)
     (FGNet.train_batch self epoch max_epoch nb pf it l)
     (grad_expected (snd it) ++ rest)
     (fun _ s => s = rest) (fun _ _ => True).
Proof.
  unfold FGNet.train_batch. destruct it as [batch_idx data]. wp_unfold.
  tok_steps; reflexivity.
Qed.

Lemma cluster_train_grad self epoch max_epoch tl fb ol pf :
  follows grad_proj (Cluster.train self epoch max_epoch tl fb ol pf)
    (flat_map grad_expected (loader_items tl)).
Proof.
  apply wp_follows. unfold Cluster.train, enumerate. wp_unfold.
  rewrite <- (flat_map_enumerate grad_expected _ 0).
  rewrite <- (app_nil_r (flat_map _ _)).
  tok_train cluster_batch_grad (fun it : Z * Data => grad_expected (snd it)).
Qed.

Lemma fgnet_train_grad self epoch max_epoch tl fb ol pf :
  follows grad_proj (FGNet.train self epoch max_epoch tl fb ol pf)
    (flat_map grad_expected (loader_items tl)).
Proof.
  apply wp_follows. unfold FGNet.train, enumerate. wp_unfold.
  rewrite <- (flat_map_enumerate grad_expected _ 0).
  rewrite <- (app_nil_r (flat_map _ _)).
  tok_train fgnet_batch_grad (fun it : Z * Data => grad_expected (snd it)).
Qed.

(** C7.  [train] of either engine is one sequential loop over the
    trainloader: the batch, [optimizer.zero_grad()], the model's forward call,
    [loss.backward()] and [optimizer.step()] happen once per batch, in this
    order and in the order the batches are delivered.  In every run the calls
    made are an initial segment of this sequence, and they are the whole
    sequence when [train] returns normally. *)
Theorem train_gradient_steps_in_order :
  (forall (self : Cluster.t) epoch max_epoch trainloader fixbase_epoch open_layers print_freq,
     follows grad_proj
       (Cluster.train self epoch max_epoch trainloader fixbase_epoch open_layers print_freq)
       (flat_map (fun data => [GBatch data; GZeroGrad; GForward; GBackward; GStep])
          (loader_items trainloader))) /\
  (forall (self : FGNet.t) epoch max_epoch trainloader fixbase_epoch open_layers print_freq,
     follows grad_proj
       (FGNet.train self epoch max_epoch trainloader fixbase_epoch open_layers print_freq)
       (flat_map (fun data => [GBatch data; GZeroGrad; GForward; GBackward; GStep])
          (loader_items trainloader))).
Proof.
  split; intros.
  - apply cluster_train_grad.
  - apply fgnet_train_grad.
Qed.

End GradientSteps.

(** ** Inverting a run that returned *)

Section Inversion.
Context {F : Framework}.

Lemma bind_ok_inv {A B} (m : M A) (f : A -> M B) w b :
  outcome_of (bind m f w) = Ok b ->
  exists a,
    outcome_of (m w) = Ok a /\
    events_of (bind m f w) = events_of (m w) ++ events_of (f a (world_of (m w))) /\
    outcome_of (f a (world_of (m w))) = Ok b.
Proof.
  unfold bind, outcome_of, events_of, world_of.
  destruct (m w) as [[d1 w1] [a|e]]; simpl.
  - destruct (f a w1) as [[d2 w2] r] eqn:E; simpl. intros ->. exists a.
    rewrite E. simpl. auto.
  - discriminate.
Qed.

Lemma call_ok_inv {A} (mk : result Exn A -> event) h w a :
  outcome_of (call mk h w) = Ok a -> events_of (call mk h w) = [mk (Ok a)].
Proof.
  unfold call, outcome_of, events_of. destruct (h w) as [r w1]; simpl. now intros ->.
Qed.

Lemma flat_map_singleton {A B} (f : A -> B) (l : list A) :
  flat_map (fun x => [f x]) l = map f l.
Proof. induction l; simpl; congruence. Qed.

Lemma flat_map_repeat {A B} (x : B) (l : list A) :
  flat_map (fun _ => [x]) l = repeat x (length l).
Proof. induction l; simpl; congruence. Qed.

End Inversion.

(** ** The scheduler step (C6) *)

Section SchedulerStep.
Context {F : Framework}.

Lemma cluster_batch_step self epoch max_epoch nb pf it l rest :
  wp (consume_step step_proj) (consume_ok step_proj)
     (Cluster.train_batch self epoch max_epoch nb pf it l)
     ([TOptimizerStep] ++ rest) (fun _ s => s = rest) (fun _ _ => True).
Proof.
  unfold Cluster.train_batch. destruct it as [batch_idx data]. wp_unfold.
  tok_steps; reflexivity.
Qed.

Lemma fgnet_batch_step self epoch max_epoch nb pf it l rest :
  wp (consume_step step_proj) (consume_ok step_proj)
     (FGNet.train_batch self epoch max_epoch nb pf it l)
     ([TOptimizerStep] ++ rest) (fun _ s => s = rest) (fun _ _ => True).
Proof.
  unfold FGNet.train_batch. destruct it as [batch_idx data]. wp_unfold.
  tok_steps; reflexivity.
Qed.

Lemma cluster_train_step self epoch max_epoch tl fb ol pf :
  follows step_proj (Cluster.train self epoch max_epoch tl fb ol pf)
    (repeat TOptimizerStep (length (loader_items tl)) ++
     scheduler_tokens (Cluster.base self)).
Proof.
  apply wp_follows. unfold Cluster.train, enumerate, scheduler_tokens. wp_unfold.
  rewrite <- flat_map_repeat.
  rewrite <- (flat_map_enumerate (fun _ => [TOptimizerStep]) _ 0).
  tok_train cluster_batch_step (fun _ : Z * Data => [TOptimizerStep]).
Qed.

Lemma fgnet_train_step self epoch max_epoch tl fb ol pf :
  follows step_proj (FGNet.train self epoch max_epoch tl fb ol pf)
    (repeat TOptimizerStep (length (loader_items tl)) ++
     scheduler_tokens (FGNet.base self)).
Proof.
  apply wp_follows. unfold FGNet.train, enumerate, scheduler_tokens. wp_unfold.
  rewrite <- flat_map_repeat.
  rewrite <- (flat_map_enumerate (fun _ => [TOptimizerStep]) _ 0).
  tok_train fgnet_batch_step (fun _ : Z * Data => [TOptimizerStep]).
Qed.

Ltac last_call H :=
  repeat (apply bind_ok_inv in H; destruct H as (? & _ & -> & H));
  rewrite (call_ok_inv _ _ _ H);
  rewrite ?app_assoc; eexists; reflexivity.

Lemma cluster_train_ends_with_scheduler self epoch max_epoch tl fb ol pf w s :
  scheduler (Cluster.base self) = Some s ->
  outcome_of (Cluster.train self epoch max_epoch tl fb ol pf w) = Ok tt ->
  exists d, events_of (Cluster.train self epoch max_epoch tl fb ol pf w)
            = d ++ [ESchedStep s (Ok tt)].
Proof.
  unfold Cluster.train. intros -> H. unfold scheduler_step in *. last_call H.
Qed.

Lemma fgnet_train_ends_with_scheduler self epoch max_epoch tl fb ol pf w s :
  scheduler (FGNet.base self) = Some s ->
  outcome_of (FGNet.train self epoch max_epoch tl fb ol pf w) = Ok tt ->
  exists d, events_of (FGNet.train self epoch max_epoch tl fb ol pf w)
            = d ++ [ESchedStep s (Ok tt)].
Proof.
  unfold FGNet.train. intros -> H. unfold scheduler_step in *. last_call H.
Qed.

(** C6.  Every call of [train], of either engine, steps the scheduler once,
    after the loop over the batches, and only when [self.scheduler] is not
    [None]: the optimizer and scheduler steps of a run are an initial segment
    of one optimizer step per batch followed by the scheduler step (by nothing
    when the scheduler is [None]), and all of it when [train] returns
    normally; the scheduler step is then the last call of the run.  With no
    batch the sequence is the scheduler step alone. *)
Theorem scheduler_steps_once_after_the_loop :
  (forall (self : Cluster.t) epoch max_epoch trainloader fixbase_epoch open_layers print_freq,
     follows step_proj
       (Cluster.train self epoch max_epoch trainloader fixbase_epoch open_layers print_freq)
       (repeat TOptimizerStep (length (loader_items trainloader)) ++
        match scheduler (Cluster.base self) with
        | Some s => [TSchedulerStep s]
        | None => []
        end) /\
     forall w s,
       scheduler (Cluster.base self) = Some s ->
       outcome_of (Cluster.train self epoch max_epoch trainloader fixbase_epoch open_layers
                     print_freq w) = Ok tt ->
       exists d,
         events_of (Cluster.train self epoch max_epoch trainloader fixbase_epoch open_layers
                      print_freq w) = d ++ [ESchedStep s (Ok tt)]) /\
  (forall (self : FGNet.t) epoch max_epoch trainloader fixbase_epoch open_layers print_freq,
     follows step_proj
       (FGNet.train self epoch max_epoch trainloader fixbase_epoch open_layers print_freq)
       (repeat TOptimizerStep (length (loader_items trainloader)) ++
        match scheduler (FGNet.base self) with
        | Some s => [TSchedulerStep s]
        | None => []
        end) /\
     forall w s,
       scheduler (FGNet.base self) = Some s ->
       outcome_of (FGNet.train self epoch max_epoch trainloader fixbase_epoch open_layers
                     print_freq w) = Ok tt ->
       exists d,
         events_of (FGNet.train self epoch max_epoch trainloader fixbase_epoch open_layers
                      print_freq w) = d ++ [ESchedStep s (Ok tt)]).
Proof.
  split; intros; split.
  - apply cluster_train_step.
  - intros. now apply cluster_train_ends_with_scheduler.
  - apply fgnet_train_step.
  - intros. now apply fgnet_train_ends_with_scheduler.
Qed.

End SchedulerStep.

(** ** The layers opened (C3) *)

Section OpenLayers.
Context {F : Framework}.

Lemma cluster_batch_phase self epoch max_epoch nb pf it l rest :
  wp (consume_step phase_proj) (consume_ok phase_proj)
     (Cluster.train_batch self epoch max_epoch nb pf it l)
     ([TBatch (snd it)] ++ rest) (fun _ s => s = rest) (fun _ _ => True).
Proof.
  unfold Cluster.train_batch. destruct it as [batch_idx data]. wp_unfold.
  tok_steps; reflexivity.
Qed.

Lemma fgnet_batch_phase self epoch max_epoch nb pf it l rest :
  wp (consume_step phase_proj) (consume_ok phase_proj)
     (FGNet.train_batch self epoch max_epoch nb pf it l)
     ([TBatch (snd it)] ++ rest) (fun _ s => s = rest) (fun _ _ => True).
Proof.
  unfold FGNet.train_batch. destruct it as [batch_idx data]. wp_unfold.
  tok_steps; reflexivity.
Qed.

Lemma cluster_train_phase self epoch max_epoch tl fb ol pf :
  follows phase_proj (Cluster.train self epoch max_epoch tl fb ol pf)
    (phase_expected epoch fb ol (loader_items tl)).
Proof.
  apply wp_follows. unfold Cluster.train, enumerate, phase_expected. wp_unfold.
  rewrite <- flat_map_singleton.
  rewrite <- (flat_map_enumerate (fun data => [TBatch data]) _ 0).
  rewrite <- (app_nil_r (flat_map _ _)).
  tok_train cluster_batch_phase (fun it : Z * Data => [TBatch (snd it)]).
Qed.

Lemma fgnet_train_phase self epoch max_epoch tl fb ol pf :
  follows phase_proj (FGNet.train self epoch max_epoch tl fb ol pf)
    (phase_expected epoch fb ol (loader_items tl)).
Proof.
  apply wp_follows. unfold FGNet.train, enumerate, phase_expected. wp_unfold.
  rewrite <- flat_map_singleton.
  rewrite <- (flat_map_enumerate (fun data => [TBatch data]) _ 0).
  rewrite <- (app_nil_r (flat_map _ _)).
  tok_train fgnet_batch_phase (fun it : Z * Data => [TBatch (snd it)]).
Qed.

End OpenLayers.

(** ** The layers opened before the batches (C3) *)

Section OpenLayersTheorem.
Context {F : Framework}.

(** C3.  Every call of [train], of either engine, chooses the layers to train
    once, before the first batch: it opens the specified layers
    ([open_specified_layers]) if [epoch+1 <= fixbase_epoch] and [open_layers]
    is not [None], and all layers ([open_all_layers]) in every other case.  In
    every run the layer-opening calls and the batches are an initial segment
    of "the one opening call, then the batches", and all of it when [train]
    returns normally. *)
Theorem layers_opened_once_before_the_batches :
  (forall (self : Cluster.t) epoch max_epoch trainloader fixbase_epoch open_layers print_freq,
     follows phase_proj
       (Cluster.train self epoch max_epoch trainloader fixbase_epoch open_layers print_freq)
       ((if (epoch + 1 <=? fixbase_epoch) && is_not_None open_layers
         then TOpenSpecified open_layers else TOpenAll)
        :: map TBatch (loader_items trainloader))) /\
  (forall (self : FGNet.t) epoch max_epoch trainloader fixbase_epoch open_layers print_freq,
     follows phase_proj
       (FGNet.train self epoch max_epoch trainloader fixbase_epoch open_layers print_freq)
       ((if (epoch + 1 <=? fixbase_epoch) && is_not_None open_layers
         then TOpenSpecified open_layers else TOpenAll)
        :: map TBatch (loader_items trainloader))) /\
  (forall epoch fixbase_epoch (open_layers : option Layers),
     (epoch + 1 <=? fixbase_epoch) && is_not_None open_layers = true <->
     epoch + 1 <= fixbase_epoch /\ open_layers <> None).
Proof.
  split; [|split]; intros.
  - apply cluster_train_phase.
  - apply fgnet_train_phase.
  - rewrite andb_true_iff, Z.leb_le. destruct open_layers; simpl; intuition congruence.
Qed.

End OpenLayersTheorem.

(** ** Printing and writer logging (C9) *)

Section Logging.
Context {F : Framework}.

Lemma cluster_batch_log self epoch max_epoch nb pf it l rest :
  wp (consume_step log_proj) (consume_ok log_proj)
     (Cluster.train_batch self epoch max_epoch nb pf it l)
     (log_expected cluster_scalar_tags (Cluster.base self) epoch nb pf it ++ rest)
     (fun _ s => s = rest) (fun _ _ => True).
Proof.
  unfold Cluster.train_batch, log_expected, print_due, cluster_scalar_tags.
  destruct it as [batch_idx data]. wp_unfold. simpl fst.
  tok_steps; reflexivity.
Qed.

Lemma fgnet_batch_log self epoch max_epoch nb pf it l rest :
  wp (consume_step log_proj) (consume_ok log_proj)
     (FGNet.train_batch self epoch max_epoch nb pf it l)
     (log_expected fgnet_scalar_tags (FGNet.base self) epoch nb pf it ++ rest)
     (fun _ s => s = rest) (fun _ _ => True).
Proof.
  unfold FGNet.train_batch, log_expected, print_due, fgnet_scalar_tags.
  destruct it as [batch_idx data]. wp_unfold. simpl fst.
  tok_steps; reflexivity.
Qed.

Lemma cluster_train_log self epoch max_epoch tl fb ol pf :
  follows log_proj (Cluster.train self epoch max_epoch tl fb ol pf)
    (flat_map (log_expected cluster_scalar_tags (Cluster.base self) epoch (loader_len tl) pf)
       (enumerate (loader_items tl))).
Proof.
  apply wp_follows. unfold Cluster.train, enumerate. wp_unfold.
  rewrite <- (app_nil_r (flat_map _ _)).
  tok_train cluster_batch_log
    (log_expected cluster_scalar_tags (Cluster.base self) epoch (loader_len tl) pf).
Qed.

Lemma fgnet_train_log self epoch max_epoch tl fb ol pf :
  follows log_proj (FGNet.train self epoch max_epoch tl fb ol pf)
    (flat_map (log_expected fgnet_scalar_tags (FGNet.base self) epoch (loader_len tl) pf)
       (enumerate (loader_items tl))).
Proof.
  apply wp_follows. unfold FGNet.train, enumerate. wp_unfold.
  rewrite <- (app_nil_r (flat_map _ _)).
  tok_train fgnet_batch_log
    (log_expected fgnet_scalar_tags (FGNet.base self) epoch (loader_len tl) pf).
Qed.

Lemma print_due_multiple print_freq batch_idx :
  0 <= batch_idx -> (print_due print_freq batch_idx = true <-> (print_freq | batch_idx + 1)).
Proof.
  intros Hidx. unfold print_due. rewrite Z.eqb_eq.
  destruct (Z.eq_dec print_freq 0) as [->|Hpf].
  - rewrite Z.mod_0_r. split.
    + lia.
    + intros [k Hk]. lia.
  - now apply Z.mod_divide.
Qed.

End Logging.

(** ** The control flow of the two engines (C8) *)

Section ControlFlow.
Context {F : Framework}.

Lemma cluster_batch_control self epoch max_epoch nb pf it l rest :
  wp (consume_step skeleton) (consume_ok skeleton)
     (Cluster.train_batch self epoch max_epoch nb pf it l)
     (batch_control (Cluster.base self) epoch max_epoch nb pf it ++ rest)
     (fun _ s => s = rest) (fun _ _ => True).
Proof.
  unfold Cluster.train_batch, batch_control, print_due.
  destruct it as [batch_idx data]. wp_unfold.
  tok_steps; reflexivity.
Qed.

Lemma fgnet_batch_control self epoch max_epoch nb pf it l rest :
  wp (consume_step skeleton_no_hist) (consume_ok skeleton_no_hist)
     (FGNet.train_batch self epoch max_epoch nb pf it l)
     (batch_control (FGNet.base self) epoch max_epoch nb pf it ++ rest)
     (fun _ s => s = rest) (fun _ _ => True).
Proof.
  unfold FGNet.train_batch, batch_control, print_due.
  destruct it as [batch_idx data]. wp_unfold.
  tok_steps; reflexivity.
Qed.

Lemma cluster_train_control self epoch max_epoch tl fb ol pf :
  follows skeleton (Cluster.train self epoch max_epoch tl fb ol pf)
    (epoch_control (Cluster.base self) epoch max_epoch tl fb ol pf).
Proof.
  apply wp_follows. unfold Cluster.train, enumerate, epoch_control, open_control. wp_unfold.
  tok_train cluster_batch_control
    (batch_control (Cluster.base self) epoch max_epoch (loader_len tl) pf).
Qed.

Lemma fgnet_train_control self epoch max_epoch tl fb ol pf :
  follows skeleton_no_hist (FGNet.train self epoch max_epoch tl fb ol pf)
    (epoch_control (FGNet.base self) epoch max_epoch tl fb ol pf).
Proof.
  apply wp_follows. unfold FGNet.train, enumerate, epoch_control, open_control. wp_unfold.
  tok_train fgnet_batch_control
    (batch_control (FGNet.base self) epoch max_epoch (loader_len tl) pf).
Qed.

Lemma without_histograms_flat_map (d : list event) :
  flat_map skeleton_no_hist d = without_histograms (flat_map skeleton d).
Proof.
  unfold without_histograms. induction d as [|ev d IH]; simpl; auto.
  rewrite filter_app, IH. reflexivity.
Qed.

End ControlFlow.

(** ** Monitors with an invariant *)

Ltac inv_call tac :=
  apply wp_call; [ intro; simpl; tac | intro; simpl | intro; simpl; tac ].

Ltac inv_step tac on_loop :=
  lazymatch goal with
  | |- wp _ _ (for_in (enumerate (part_weights _)) _ _) _ _ _ => on_loop
  | _ => wp_step ltac:(inv_call tac) ltac:(on_py_mod tac)
  end.

Section RangeFacts.

Lemma range_bounds n j : In j (range n) -> 0 <= j < n.
Proof.
  unfold range. rewrite in_map_iff. intros [k [<- Hk]]. apply in_seq in Hk. lia.
Qed.

Lemma range_length n : length (range n) = Z.to_nat n.
Proof. unfold range. now rewrite length_map, length_seq. Qed.

End RangeFacts.

(** ** The drop-top flag (C2) *)

Section DropTop.
Context {F : Framework}.

Lemma drop_top_flag_spec self epoch :
  Cluster.drop_top_flag self epoch = true <->
  (Cluster.top_drop_epoch self <> -1 /\ epoch + 1 >= Cluster.top_drop_epoch self).
Proof.
  unfold Cluster.drop_top_flag.
  rewrite andb_true_iff, negb_true_iff, Z.eqb_neq, Z.geb_le. lia.
Qed.

Ltac drop_tac := first [ exact I | apply drop_top_flag_spec ].

Lemma cluster_batch_drop_top self epoch max_epoch nb pf it l s :
  wp every_step (every_ok (drop_top_ok self epoch))
     (Cluster.train_batch self epoch max_epoch nb pf it l) s
     (fun _ _ => True) (fun _ _ => True).
Proof.
  unfold Cluster.train_batch. destruct it as [batch_idx data]. wp_unfold.
  repeat inv_step drop_tac idtac. all: exact I.
Qed.

Lemma cluster_train_drop_top self epoch max_epoch tl fb ol pf :
  wp every_step (every_ok (drop_top_ok self epoch))
     (Cluster.train self epoch max_epoch tl fb ol pf) tt
     (fun _ _ => True) (fun _ _ => True).
Proof.
  unfold Cluster.train. wp_unfold.
  repeat inv_step drop_tac idtac.
  all: eapply wp_conseq;
    [ apply wp_for_in with (I := fun _ _ _ => True);
      [ intros; apply cluster_batch_drop_top | exact I ]
    | intros; repeat inv_step drop_tac idtac; exact I
    | auto ].
Qed.

(** C2.  In the cluster-dependency engine the [drop_top] flag of every forward
    call of [train(epoch, ...)] is true exactly when [top_drop_epoch] is not
    [-1] and [epoch+1 >= top_drop_epoch]; an engine constructed without
    [top_drop_epoch] (the default, [-1]) passes [False] in every epoch. *)
Theorem drop_top_flag_of_forward_calls :
  (forall (self : Cluster.t) epoch max_epoch trainloader fixbase_epoch open_layers print_freq
          w imgs drop_top r,
     In (EForwardDropTop imgs drop_top r)
        (events_of (Cluster.train self epoch max_epoch trainloader fixbase_epoch open_layers
                      print_freq w)) ->
     (drop_top = true <->
      Cluster.top_drop_epoch self <> -1 /\ epoch + 1 >= Cluster.top_drop_epoch self)) /\
  (forall engine wt wx wc wdbt wdbx wdbc wbt wbx wbc wdep
          epoch max_epoch trainloader fixbase_epoch open_layers print_freq w imgs drop_top r,
     In (EForwardDropTop imgs drop_top r)
        (events_of (Cluster.train
                      (Cluster.init engine wt wx wc wdbt wdbx wdbc wbt wbx wbc wdep None)
                      epoch max_epoch trainloader fixbase_epoch open_layers print_freq w)) ->
     drop_top = false).
Proof.
  assert (H : forall (self : Cluster.t) epoch max_epoch trainloader fixbase_epoch open_layers
                     print_freq w imgs drop_top r,
     In (EForwardDropTop imgs drop_top r)
        (events_of (Cluster.train self epoch max_epoch trainloader fixbase_epoch open_layers
                      print_freq w)) ->
     (drop_top = true <->
      Cluster.top_drop_epoch self <> -1 /\ epoch + 1 >= Cluster.top_drop_epoch self)).
  { intros self epoch max_epoch tl fb ol pf w imgs drop_top r Hin.
    destruct (cluster_train_drop_top self epoch max_epoch tl fb ol pf w) as [Hacc _].
    apply accepts_every in Hacc. rewrite Forall_forall in Hacc.
    exact (Hacc _ Hin). }
  split; [exact H|].
  intros. apply H in H0. simpl in H0. destruct drop_top; auto.
  destruct H0 as [H0 _]. destruct (H0 eq_refl) as [Hne _]. now elim Hne.
Qed.

End DropTop.

(** ** Part-weight histograms (C10) *)

Section Histograms.
Context {F : Framework}.

Lemma range_min_bounds (weights : Tensor) j :
  In j (range (Z.min (size0 weights) 3)) -> 0 <= j < size0 weights /\ j < 3.
Proof. intros H. apply range_bounds in H. lia. Qed.

Lemma range_min_length (weights : Tensor) :
  (length (range (Z.min (size0 weights) 3)) <= 3)%nat.
Proof. rewrite range_length. lia. Qed.

Lemma log_part_index wr n it u s :
  wp every_step (every_ok index_ok) (FGNet.log_part wr n it u) s
     (fun _ _ => True) (fun _ _ => True).
Proof.
  destruct it as [i [x weights]].
  apply wp_log_part; [ intro; exact I | | intro; exact I ].
  apply wp_loop with
    (I := fun js _ _ => Forall (fun j => 0 <= j < size0 weights /\ j < 3) js).
  - intros j js [] s' Hjs. inversion Hjs; subst. wp_unfold.
    repeat inv_step
      ltac:(first [ exact I | match goal with H : _ /\ _ |- _ => exact H end ]) idtac.
    match goal with H : Forall _ _ |- _ => exact H end.
  - auto.
  - apply Forall_forall. intros j. apply range_min_bounds.
Qed.

Ltac index_loop :=
  apply wp_loop with (I := fun _ _ _ => True);
  [ intros; eapply wp_conseq; [ apply log_part_index | auto | auto ]
  | intros
  | exact I ].

Lemma fgnet_batch_index self epoch max_epoch nb pf it l s :
  wp every_step (every_ok index_ok)
     (FGNet.train_batch self epoch max_epoch nb pf it l) s
     (fun _ _ => True) (fun _ _ => True).
Proof.
  unfold FGNet.train_batch. destruct it as [batch_idx data]. wp_unfold.
  repeat inv_step ltac:(exact I) index_loop. all: exact I.
Qed.

Lemma fgnet_train_index self epoch max_epoch tl fb ol pf :
  wp every_step (every_ok index_ok)
     (FGNet.train self epoch max_epoch tl fb ol pf) tt
     (fun _ _ => True) (fun _ _ => True).
Proof.
  unfold FGNet.train. wp_unfold.
  repeat inv_step ltac:(exact I) idtac.
  all: eapply wp_conseq;
    [ apply wp_for_in with (I := fun _ _ _ => True);
      [ intros; apply fgnet_batch_index | exact I ]
    | intros; repeat inv_step ltac:(exact I) idtac; exact I
    | auto ].
Qed.

Lemma log_part_histograms wr n i x weights :
  follows hist_proj (FGNet.log_part wr n (i, (x, weights)) tt)
    (hist_expected wr n i weights).
Proof.
  apply wp_follows. unfold hist_expected.
  apply wp_log_part; [ intro; now exists (hist_expected wr n i weights) | | auto ].
  unfold hist_expected. rewrite <- (app_nil_r (flat_map _ _)).
  apply tok_for_in. intros j [] rest. wp_unfold.
  tok_steps. reflexivity.
Qed.

(** C10.  In the fgnet engine's histogram logging the inner index [j] of a
    part ranges over [min(weights.size(0), 3)] values: there are at most 3 of
    them and each satisfies [0 <= j < weights.size(0)]; for a part, the calls
    made are [weights[j, ...]] and then [add_histogram] for these [j] in
    order (an initial segment of them when a call raises), so at most 3
    histograms are written per part per batch; and in every run of [train]
    every index taken is within the bounds of the indexed tensor. *)
Theorem histogram_indices_in_bounds :
  (forall (weights : Tensor),
     (length (range (Z.min (size0 weights) 3)) <= 3)%nat /\
     forall j, In j (range (Z.min (size0 weights) 3)) -> 0 <= j < size0 weights) /\
  (forall wr n_iter i x weights,
     follows hist_proj (FGNet.log_part wr n_iter (i, (x, weights)) tt)
       (flat_map (fun j => [HIndex weights j; HHistogram wr (part_tag i j) n_iter])
          (range (Z.min (size0 weights) 3)))) /\
  (forall (self : FGNet.t) epoch max_epoch trainloader fixbase_epoch open_layers print_freq
          w weights j r,
     In (EIndex weights j r)
        (events_of (FGNet.train self epoch max_epoch trainloader fixbase_epoch open_layers
                      print_freq w)) ->
     0 <= j < size0 weights /\ j < 3).
Proof.
  split; [|split].
  - intros weights. split.
    + apply range_min_length.
    + intros j Hj. now apply range_min_bounds in Hj.
  - intros. apply log_part_histograms.
  - intros self epoch max_epoch tl fb ol pf w weights j r Hin.
    destruct (fgnet_train_index self epoch max_epoch tl fb ol pf w) as [Hacc _].
    apply accepts_every in Hacc. rewrite Forall_forall in Hacc.
    exact (Hacc _ Hin).
Qed.

End Histograms.

(** ** Exceptions are handed on unchanged (C5) *)

Section Exceptions.
Context {F : Framework}.

Lemma pending_after_raise d e :
  accepts pending_step pending_ok (Some e) d -> d = [].
Proof.
  destruct d as [|ev d]; simpl; auto. intros [H _]. discriminate H.
Qed.

Lemma pending_at d0 ev d1 e :
  accepts pending_step pending_ok None (d0 ++ ev :: d1) ->
  raised ev = Some e ->
  d1 = [] /\ run pending_step None (d0 ++ ev :: d1) = Some e.
Proof.
  intros H Hev. apply accepts_app in H. destruct H as [_ H]. simpl in H.
  destruct H as [Hok H]. unfold pending_ok in Hok. rewrite Hok in H. simpl in H.
  rewrite Hev in H. apply pending_after_raise in H. subst d1.
  rewrite run_app. simpl. rewrite Hok. simpl. now rewrite Hev.
Qed.

Lemma pending_last d e :
  accepts pending_step pending_ok None d ->
  run pending_step None d = Some e ->
  exists d0 ev, d = d0 ++ [ev] /\ raised ev = Some e.
Proof.
  induction d as [|ev d IH]; simpl.
  - discriminate.
  - intros [_ H] Hrun. destruct (raised ev) as [e'|] eqn:Hev.
    + apply pending_after_raise in H. subst d. simpl in Hrun.
      exists [], ev. split; auto. congruence.
    + destruct (IH H Hrun) as (d0 & ev' & -> & Hev'). now exists (ev :: d0), ev'.
Qed.

Lemma wp_raises_unchanged {A} (m : M A) pf :
  wp pending_step pending_ok m None (fun _ s => s = None) (pending_post pf) ->
  raises_unchanged pf m.
Proof.
  intros H w. destruct (H w) as [Hacc Hout]. split.
  - intros d0 ev d1 e Hd Hev. rewrite Hd in *.
    destruct (pending_at _ _ _ Hacc Hev) as [-> Hrun]. split; auto.
    rewrite Hrun in Hout. destruct (outcome_of (m w)) as [a|e'].
    + discriminate.
    + destruct Hout as [Hout|[Hout _]]; congruence.
  - intros e He. rewrite He in Hout. destruct Hout as [Hout|(_ & -> & ->)].
    + left. now apply pending_last.
    + now right.
Qed.

Ltac pending_tac :=
  first [ reflexivity
        | left; reflexivity
        | right; repeat split; auto; apply Z.eqb_eq; assumption ].

Ltac pending_inner :=
  apply wp_log_part;
  [ intro; reflexivity
  | simpl
  | intro; unfold pending_post; left; reflexivity ];
  apply wp_loop with (I := fun _ _ s => s = None);
  [ intros ? ? [] ? ->; wp_unfold;
    repeat inv_step ltac:(unfold pending_ok, pending_post; pending_tac) idtac;
    reflexivity
  | auto
  | reflexivity ].

Lemma log_part_pending pf wr n it u :
  wp pending_step pending_ok (FGNet.log_part wr n it u) None
     (fun _ s => s = None) (pending_post pf).
Proof.
  destruct it as [i [x weights]]. pending_inner.
Qed.

Ltac pending_loop pf :=
  apply wp_loop with (I := fun _ _ s => s = None);
  [ intros ? ? ? ? ->; apply (log_part_pending pf)
  | intros ? ? ->
  | reflexivity ].

Lemma cluster_batch_pending self epoch max_epoch nb pf it l :
  wp pending_step pending_ok (Cluster.train_batch self epoch max_epoch nb pf it l) None
     (fun _ s => s = None) (pending_post pf).
Proof.
  unfold Cluster.train_batch. destruct it as [batch_idx data]. wp_unfold.
  repeat inv_step ltac:(unfold pending_ok, pending_post; pending_tac) idtac.
  all: reflexivity.
Qed.

Lemma fgnet_batch_pending self epoch max_epoch nb pf it l :
  wp pending_step pending_ok (FGNet.train_batch self epoch max_epoch nb pf it l) None
     (fun _ s => s = None) (pending_post pf).
Proof.
  unfold FGNet.train_batch. destruct it as [batch_idx data]. wp_unfold.
  repeat inv_step ltac:(unfold pending_ok, pending_post; pending_tac) ltac:(pending_loop pf).
  all: reflexivity.
Qed.

Ltac pending_train body_lemma :=
  wp_unfold;
  repeat inv_step ltac:(unfold pending_ok, pending_post; pending_tac) idtac;
  (apply wp_loop with (I := fun _ _ s => s = None);
   [ intros ? ? ? ? ->; apply body_lemma
   | intros ? ? ->;
     repeat inv_step ltac:(unfold pending_ok, pending_post; pending_tac) idtac;
     reflexivity
   | reflexivity ]).

Lemma cluster_train_pending self epoch max_epoch tl fb ol pf :
  raises_unchanged pf (Cluster.train self epoch max_epoch tl fb ol pf).
Proof.
  apply wp_raises_unchanged. unfold Cluster.train.
  pending_train cluster_batch_pending.
Qed.

Lemma fgnet_train_pending self epoch max_epoch tl fb ol pf :
  raises_unchanged pf (FGNet.train self epoch max_epoch tl fb ol pf).
Proof.
  apply wp_raises_unchanged. unfold FGNet.train.
  pending_train fgnet_batch_pending.
Qed.

(** C5.  Neither [train] catches or transforms an exception.  The calls of a
    run are all the call expressions of [train]: the collaborators' methods
    (model, criteria, optimizer, scheduler, metrics, writer, clock, [print])
    and also [AverageMeter()], [len(trainloader)], the iteration of the
    loader, the products and sums of the loss, [.item()] and [.size(0)].  In
    every run, a call that raises is the last call [train] makes, and [train]
    raises that same exception; and whenever [train] raises, the exception is
    the one its last call raised: there is no error of the engine's own.
    (The one exception not raised by a call is Python's [ZeroDivisionError]
    for [(batch_idx+1) % print_freq] when [print_freq] is 0.) *)
Theorem train_raises_what_its_calls_raise :
  (forall (self : Cluster.t) epoch max_epoch trainloader fixbase_epoch open_layers print_freq,
     raises_unchanged print_freq
       (Cluster.train self epoch max_epoch trainloader fixbase_epoch open_layers print_freq)) /\
  (forall (self : FGNet.t) epoch max_epoch trainloader fixbase_epoch open_layers print_freq,
     raises_unchanged print_freq
       (FGNet.train self epoch max_epoch trainloader fixbase_epoch open_layers print_freq)).
Proof.
  split; intros.
  - apply cluster_train_pending.
  - apply fgnet_train_pending.
Qed.

End Exceptions.

(** ** The combined loss (C1) *)

Section CombinedLoss.
Context {F : Framework}.

Ltac backward_tac :=
  first [ exact I
        | repeat match goal with u : unit |- _ => destruct u end;
          repeat eexists; simpl; reflexivity ].

Lemma log_part_backward (ok : list event -> event -> Prop) wr n it u s :
  (forall h t r, ok h (ESize0 t r)) ->
  (forall h weights j r, ok h (EIndex weights j r)) ->
  (forall h wr tag v n r, ok h (EAddHistogram wr tag v n r)) ->
  wp history_step ok (FGNet.log_part wr n it u) s (fun _ _ => True) (fun _ _ => True).
Proof.
  intros Hs Hi Hh. destruct it as [i [x weights]].
  apply wp_log_part; [ intro; apply Hs | | auto ].
  apply wp_loop with (I := fun _ _ _ => True); [ | auto | exact I ].
  intros j js [] s' _. wp_unfold. apply wp_bind.
  apply wp_call; [ intro; apply Hi | intro | intro; exact I ].
  apply wp_call; [ intro; apply Hh | intro; exact I | intro; exact I ].
Qed.

Ltac backward_loop :=
  apply wp_loop with (I := fun _ _ _ => True);
  [ intros; apply log_part_backward; intros; exact I
  | intros
  | exact I ].

Lemma cluster_batch_backward self epoch max_epoch nb pf it l s :
  wp history_step (cluster_backward_ok self)
     (Cluster.train_batch self epoch max_epoch nb pf it l) s
     (fun _ _ => True) (fun _ _ => True).
Proof.
  unfold Cluster.train_batch. destruct it as [batch_idx data]. wp_unfold.
  repeat inv_step backward_tac idtac. all: exact I.
Qed.

Lemma fgnet_batch_backward self epoch max_epoch nb pf it l s :
  wp history_step (fgnet_backward_ok self)
     (FGNet.train_batch self epoch max_epoch nb pf it l) s
     (fun _ _ => True) (fun _ _ => True).
Proof.
  unfold FGNet.train_batch. destruct it as [batch_idx data]. wp_unfold.
  repeat inv_step backward_tac backward_loop. all: exact I.
Qed.

Ltac backward_train body_lemma :=
  wp_unfold;
  repeat inv_step backward_tac idtac;
  (apply wp_loop with (I := fun _ _ _ => True);
   [ intros; apply body_lemma
   | intros; repeat inv_step backward_tac idtac; exact I
   | exact I ]).

Lemma cluster_train_backward self epoch max_epoch tl fb ol pf :
  wp history_step (cluster_backward_ok self)
     (Cluster.train self epoch max_epoch tl fb ol pf) []
     (fun _ _ => True) (fun _ _ => True).
Proof. unfold Cluster.train. backward_train cluster_batch_backward. Qed.

Lemma fgnet_train_backward self epoch max_epoch tl fb ol pf :
  wp history_step (fgnet_backward_ok self)
     (FGNet.train self epoch max_epoch tl fb ol pf) []
     (fun _ _ => True) (fun _ _ => True).
Proof. unfold FGNet.train. backward_train fgnet_batch_backward. Qed.

Lemma cluster_batch_loss_tokens self epoch max_epoch nb pf it l rest :
  wp (consume_step loss_proj) (consume_ok loss_proj)
     (Cluster.train_batch self epoch max_epoch nb pf it l)
     (cluster_loss_tokens ++ rest) (fun _ s => s = rest) (fun _ _ => True).
Proof.
  unfold Cluster.train_batch. destruct it as [batch_idx data]. wp_unfold.
  tok_steps; reflexivity.
Qed.

Lemma fgnet_batch_loss_tokens self epoch max_epoch nb pf it l rest :
  wp (consume_step loss_proj) (consume_ok loss_proj)
     (FGNet.train_batch self epoch max_epoch nb pf it l)
     (fgnet_loss_tokens ++ rest) (fun _ s => s = rest) (fun _ _ => True).
Proof.
  unfold FGNet.train_batch. destruct it as [batch_idx data]. wp_unfold.
  tok_steps; reflexivity.
Qed.

Lemma cluster_train_loss_tokens self epoch max_epoch tl fb ol pf :
  follows loss_proj (Cluster.train self epoch max_epoch tl fb ol pf)
    (flat_map (fun _ => cluster_loss_tokens) (loader_items tl)).
Proof.
  apply wp_follows. unfold Cluster.train, enumerate. wp_unfold.
  rewrite <- (flat_map_enumerate (fun _ : Data => cluster_loss_tokens) _ 0).
  rewrite <- (app_nil_r (flat_map _ _)).
  tok_train cluster_batch_loss_tokens (fun _ : Z * Data => cluster_loss_tokens).
Qed.

Lemma fgnet_train_loss_tokens self epoch max_epoch tl fb ol pf :
  follows loss_proj (FGNet.train self epoch max_epoch tl fb ol pf)
    (flat_map (fun _ => fgnet_loss_tokens) (loader_items tl)).
Proof.
  apply wp_follows. unfold FGNet.train, enumerate. wp_unfold.
  rewrite <- (flat_map_enumerate (fun _ : Data => fgnet_loss_tokens) _ 0).
  rewrite <- (app_nil_r (flat_map _ _)).
  tok_train fgnet_batch_loss_tokens (fun _ : Z * Data => fgnet_loss_tokens).
Qed.

(** C1.  For every batch, each engine computes its losses and backpropagates
    their weighted sum, with the weights given at construction.  In every run
    of [train] the [_compute_loss] and [loss.backward()] calls are, batch
    after batch, the engine's criteria in the order of the source (ten in the
    cluster-dependency engine, four in the fgnet engine) and then one
    [backward]: an initial segment of this in any run, and all of it, once
    for every batch of the loader, when [train] returns normally.  And every
    [loss.backward()] call comes directly after those [_compute_loss] calls of
    its batch, all of which returned, and the products and sums that combine
    what they returned; its [loss] is the sum of the results, each times its
    weight, in the order of the source. *)
Theorem backward_gets_the_weighted_sum :
  (forall engine weight_t weight_x weight_c weight_db_t weight_db_x weight_db_c
          weight_b_db_t weight_b_db_x weight_b_db_c weight_dep top_drop_epoch
          epoch max_epoch trainloader fixbase_epoch open_layers print_freq,
     let self := Cluster.init engine weight_t weight_x weight_c weight_db_t weight_db_x
                   weight_db_c weight_b_db_t weight_b_db_x weight_b_db_c weight_dep
                   top_drop_epoch in
     follows loss_proj
       (Cluster.train self epoch max_epoch trainloader fixbase_epoch open_layers print_freq)
       (flat_map (fun _ => cluster_loss_tokens) (loader_items trainloader)) /\
     forall w d0 loss r d1,
       events_of (Cluster.train self epoch max_epoch trainloader fixbase_epoch open_layers
                    print_freq w)
       = d0 ++ EBackward loss r :: d1 ->
       exists out pids loss_x loss_t loss_c loss_db_x loss_db_t loss_db_c
              loss_b_db_x loss_b_db_t loss_b_db_c loss_dep before,
         d0 = before ++
              cluster_loss_calls out pids loss_x loss_t loss_c loss_db_x loss_db_t
                loss_db_c loss_b_db_x loss_b_db_t loss_b_db_c loss_dep ++
              weighted_sum_calls
                (cluster_terms self loss_x loss_t loss_c loss_db_x loss_db_t
                   loss_db_c loss_b_db_x loss_b_db_t loss_b_db_c loss_dep) /\
         loss = (weight_t *: loss_t +: weight_x *: loss_x
                 +: weight_db_t *: loss_db_t +: weight_db_x *: loss_db_x
                 +: weight_b_db_t *: loss_b_db_t +: weight_b_db_x *: loss_b_db_x
                 +: weight_c *: loss_c +: weight_db_c *: loss_db_c
                 +: weight_b_db_c *: loss_b_db_c +: weight_dep *: loss_dep)%tensor) /\
  (forall engine weight_t weight_x weight_n weight_x_parts
          epoch max_epoch trainloader fixbase_epoch open_layers print_freq,
     let self := FGNet.init engine weight_t weight_x weight_n weight_x_parts in
     follows loss_proj
       (FGNet.train self epoch max_epoch trainloader fixbase_epoch open_layers print_freq)
       (flat_map (fun _ => fgnet_loss_tokens) (loader_items trainloader)) /\
     forall w d0 loss r d1,
       events_of (FGNet.train self epoch max_epoch trainloader fixbase_epoch open_layers
                    print_freq w)
       = d0 ++ EBackward loss r :: d1 ->
       exists out pids loss_t loss_x loss_n loss_x_parts before,
         d0 = before ++
              fgnet_loss_calls out pids loss_t loss_x loss_n loss_x_parts ++
              weighted_sum_calls (fgnet_terms self loss_t loss_x loss_n loss_x_parts) /\
         loss = (weight_t *: loss_t +: weight_x *: loss_x +: weight_n *: loss_n
                 +: weight_x_parts *: loss_x_parts)%tensor).
Proof.
  split.
  - intros engine wt wx wc wdbt wdbx wdbc wbt wbx wbc wdep tde
           epoch max_epoch tl fb ol pf self.
    split; [ apply cluster_train_loss_tokens | ].
    intros w d0 loss r d1 Hd.
    destruct (cluster_train_backward self epoch max_epoch tl fb ol pf w) as [Hacc _].
    pose proof (@accepts_at _ _ _ _ _ _ _ _ _ Hacc Hd) as Hok.
    rewrite run_history, app_nil_r in Hok.
    unfold cluster_backward_ok in Hok.
    destruct Hok as (out & pids & lx & lt & lc & ldbx & ldbt & ldbc & lbx & lbt & lbc
                     & ldep & rest & Hrev & Hloss).
    exists out, pids, lx, lt, lc, ldbx, ldbt, ldbc, lbx, lbt, lbc, ldep, (rev rest).
    split; [|exact Hloss].
    apply rev_eq_app in Hrev. now rewrite rev_involutive in Hrev.
  - intros engine wt wx wn wxp epoch max_epoch tl fb ol pf self.
    split; [ apply fgnet_train_loss_tokens | ].
    intros w d0 loss r d1 Hd.
    destruct (fgnet_train_backward self epoch max_epoch tl fb ol pf w) as [Hacc _].
    pose proof (@accepts_at _ _ _ _ _ _ _ _ _ Hacc Hd) as Hok.
    rewrite run_history, app_nil_r in Hok.
    unfold fgnet_backward_ok in Hok.
    destruct Hok as (out & pids & lt & lx & ln & lxp & rest & Hrev & Hloss).
    exists out, pids, lt, lx, ln, lxp, (rev rest).
    split; [|exact Hloss].
    apply rev_eq_app in Hrev. now rewrite rev_involutive in Hrev.
Qed.

End CombinedLoss.

(** ** Running averages are those of the epoch (C4) *)

Section Averages.
Context {F : Framework}.

(** A report whose meters the monitor holds. *)
Ltac report_tac :=
  first
    [ exact I
    | let id := fresh "id" in
      let Hid := fresh "Hid" in
      intros id Hid; vm_compute in Hid;
      first [ discriminate Hid
            | injection Hid as <-; simpl;
              repeat match goal with H : forall id, _ = _ |- _ => rewrite H end;
              reflexivity ]
    | let Hin := fresh "Hin" in
      intros ? ? ? ? Hin; unfold Cluster.field, FGNet.field in Hin; simpl in Hin;
      repeat (destruct Hin as [Hin|Hin]; [ injection Hin as <- <- <- <-; simpl; auto | ]);
      contradiction ].

(** An [update] call: the monitor computes the same update. *)
Ltac update_call :=
  apply wp_call_pure; [ exact I | ];
  lazymatch goal with
  | |- match ?r with _ => _ end =>
      let E := fresh "E" in
      destruct r eqn:E; [ | exact I ];
      simpl;
      repeat match goal with H : forall id, _ = _ |- _ => rewrite H end;
      simpl; rewrite E
  end.

Ltac meter_call :=
  lazymatch goal with
  | |- wp _ _ (call (EUpdate _ _ _) _) _ _ _ => update_call
  | _ => inv_call report_tac
  end.

Ltac meter_step on_loop :=
  lazymatch goal with
  | |- wp _ _ (for_in (enumerate (part_weights _)) _ _) _ _ _ => on_loop
  | _ => wp_step ltac:(idtac; meter_call) ltac:(idtac; on_py_mod ltac:(exact I))
  end.

Lemma log_part_meters wr n it u s :
  wp meters_step report_ok (FGNet.log_part wr n it u) s
     (fun _ s' => s' = s) (fun _ _ => True).
Proof.
  destruct it as [i [x weights]].
  apply wp_log_part; [ intro; exact I | simpl | intro; exact I ].
  apply wp_loop with (I := fun _ _ s' => s' = s); [ | auto | reflexivity ].
  intros j js [] s' ->. wp_unfold. apply wp_bind.
  apply wp_call; [ intro; exact I | intro | intro; exact I ].
  apply wp_call; [ intro; exact I | intro; reflexivity | intro; exact I ].
Qed.

Ltac meters_loop :=
  lazymatch goal with
  | |- wp _ _ _ ?s _ _ =>
      apply wp_loop with (I := fun _ _ s' => s' = s);
      [ intros ? ? ? ? ->; apply log_part_meters
      | intros ? ? ->
      | reflexivity ]
  end.

Lemma cluster_batch_meters self epoch max_epoch nb pf it l s :
  (forall id, s id = cluster_meters l id) ->
  wp meters_step report_ok (Cluster.train_batch self epoch max_epoch nb pf it l) s
     (fun l' s' => forall id, s' id = cluster_meters l' id) (fun _ _ => True).
Proof.
  intros Hs. unfold Cluster.train_batch. destruct it as [batch_idx data]. wp_unfold.
  repeat meter_step idtac.
  all: intros id; destruct id; simpl; rewrite ?Hs; reflexivity.
Qed.

Lemma fgnet_batch_meters self epoch max_epoch nb pf it l s :
  (forall id, s id = fgnet_meters l id) ->
  wp meters_step report_ok (FGNet.train_batch self epoch max_epoch nb pf it l) s
     (fun l' s' => forall id, s' id = fgnet_meters l' id) (fun _ _ => True).
Proof.
  intros Hs. unfold FGNet.train_batch. destruct it as [batch_idx data]. wp_unfold.
  repeat meter_step ltac:(idtac; meters_loop).
  all: intros id; destruct id; simpl; rewrite ?Hs; reflexivity.
Qed.

Lemma wp_reports_own_averages {A} (m : M A) :
  wp meters_step report_ok m fresh_meters (fun _ _ => True) (fun _ _ => True) ->
  reports_own_averages m.
Proof.
  intros H w d0 ev d1 Hd. destruct (H w) as [Hacc _].
  pose proof (@accepts_at _ _ _ _ _ _ _ _ _ Hacc Hd) as Hok.
  unfold report_ok in Hok. unfold replay. destruct ev; auto.
Qed.

Lemma cluster_train_meters self epoch max_epoch tl fb ol pf :
  reports_own_averages (Cluster.train self epoch max_epoch tl fb ol pf).
Proof.
  apply wp_reports_own_averages. unfold Cluster.train. wp_unfold.
  repeat meter_step idtac.
  all: apply wp_loop with (I := fun _ l s => forall id, s id = cluster_meters l id);
    [ intros; now apply cluster_batch_meters
    | intros; repeat meter_step idtac; exact I
    | intros id; destruct id; reflexivity ].
Qed.

Lemma fgnet_train_meters self epoch max_epoch tl fb ol pf :
  reports_own_averages (FGNet.train self epoch max_epoch tl fb ol pf).
Proof.
  apply wp_reports_own_averages. unfold FGNet.train. wp_unfold.
  repeat meter_step idtac.
  all: apply wp_loop with (I := fun _ l s => forall id, s id = fgnet_meters l id);
    [ intros; now apply fgnet_batch_meters
    | intros; repeat meter_step idtac; exact I
    | intros id; destruct id; reflexivity ].
Qed.

(** C4.  The running averages are those of one epoch.  Each call of [train]
    starts from fresh [AverageMeter] objects: whatever state of the framework
    the call starts in (in particular, whatever earlier calls of [train] did),
    every value it reports, in a writer scalar or in a progress line, is the
    [val] or [avg] of a meter that started as [AverageMeter()] and received
    exactly the [update] calls this same call of [train] made before the
    report. *)
Theorem averages_are_scoped_to_the_epoch :
  (forall (self : Cluster.t) epoch max_epoch trainloader fixbase_epoch open_layers print_freq,
     reports_own_averages
       (Cluster.train self epoch max_epoch trainloader fixbase_epoch open_layers print_freq)) /\
  (forall (self : FGNet.t) epoch max_epoch trainloader fixbase_epoch open_layers print_freq,
     reports_own_averages
       (FGNet.train self epoch max_epoch trainloader fixbase_epoch open_layers print_freq)).
Proof.
  split; intros.
  - apply cluster_train_meters.
  - apply fgnet_train_meters.
Qed.

End Averages.

(** ** Printing, writer logging and control flow: the theorems (C9, C8) *)

Section LoggingTheorem.
Context {F : Framework}.

Lemma log_part_iter wr n it u :
  wp iter_step iter_ok (FGNet.log_part wr n it u) (Some n)
     (fun _ s => s = Some n) (fun _ _ => True).
Proof.
  destruct it as [i [x weights]].
  apply wp_log_part; [ intro; exact I | simpl | intro; exact I ].
  apply wp_loop with (I := fun _ _ s => s = Some n); [ | auto | reflexivity ].
  intros j js [] s ->. wp_unfold.
  repeat inv_step ltac:(first [ exact I | reflexivity ]) idtac. reflexivity.
Qed.

Ltac iter_loop :=
  lazymatch goal with
  | |- wp _ _ (for_in _ (FGNet.log_part _ ?n) _) _ _ _ =>
      apply wp_loop with (I := fun _ _ s => s = Some n);
      [ intros ? ? ? ? ->; apply log_part_iter
      | intros
      | reflexivity ]
  end.

Lemma fgnet_batch_iter self epoch max_epoch nb pf it l s :
  wp iter_step iter_ok (FGNet.train_batch self epoch max_epoch nb pf it l) s
     (fun _ _ => True) (fun _ _ => True).
Proof.
  unfold FGNet.train_batch. destruct it as [batch_idx data]. wp_unfold.
  repeat inv_step ltac:(exact I) ltac:(idtac; iter_loop). all: exact I.
Qed.

Lemma fgnet_train_iter self epoch max_epoch tl fb ol pf :
  wp iter_step iter_ok (FGNet.train self epoch max_epoch tl fb ol pf) None
     (fun _ _ => True) (fun _ _ => True).
Proof.
  unfold FGNet.train. wp_unfold.
  repeat inv_step ltac:(exact I) idtac.
  all: apply wp_loop with (I := fun _ _ _ => True);
    [ intros; apply fgnet_batch_iter
    | intros; repeat inv_step ltac:(exact I) idtac; exact I
    | exact I ].
Qed.

(** C9.  In both engines the progress line of a batch is printed exactly when
    [batch_idx+1] is a multiple of [print_freq], and, when [self.writer] is
    not [None], every batch is logged to the writer with the global step
    [n_iter = epoch * num_batches + batch_idx]: in every run the progress
    lines and [add_scalar] calls are an initial segment of, per batch, the
    line if it is due and then one scalar per tag at that step, and all of it
    when [train] returns normally.  The fgnet engine's histograms carry the
    step of the scalars logged just before them.  The step grows strictly
    from one batch to the next. *)
Theorem progress_printed_and_writer_logged :
  (forall (self : Cluster.t) epoch max_epoch trainloader fixbase_epoch open_layers print_freq,
     follows log_proj
       (Cluster.train self epoch max_epoch trainloader fixbase_epoch open_layers print_freq)
       (flat_map
          (log_expected cluster_scalar_tags (Cluster.base self) epoch
             (loader_len trainloader) print_freq)
          (enumerate (loader_items trainloader)))) /\
  (forall (self : FGNet.t) epoch max_epoch trainloader fixbase_epoch open_layers print_freq,
     follows log_proj
       (FGNet.train self epoch max_epoch trainloader fixbase_epoch open_layers print_freq)
       (flat_map
          (log_expected fgnet_scalar_tags (FGNet.base self) epoch
             (loader_len trainloader) print_freq)
          (enumerate (loader_items trainloader))) /\
     forall w d0 wr tag values n_iter r d1,
       events_of (FGNet.train self epoch max_epoch trainloader fixbase_epoch open_layers
                    print_freq w) = d0 ++ EAddHistogram wr tag values n_iter r :: d1 ->
       latest_scalar_iter d0 = Some n_iter) /\
  (forall print_freq batch_idx,
     0 <= batch_idx ->
     (print_due print_freq batch_idx = true <-> (print_freq | batch_idx + 1))) /\
  (forall epoch num_batches batch_idx,
     n_iter_of epoch num_batches batch_idx < n_iter_of epoch num_batches (batch_idx + 1)).
Proof.
  split; [|split; [|split]].
  - intros. apply cluster_train_log.
  - intros self epoch max_epoch tl fb ol pf. split.
    + apply fgnet_train_log.
    + intros w d0 wr tag values n_iter r d1 Hd.
      destruct (fgnet_train_iter self epoch max_epoch tl fb ol pf w) as [Hacc _].
      exact (@accepts_at _ _ _ _ _ _ _ _ _ Hacc Hd).
  - intros. now apply print_due_multiple.
  - intros. unfold n_iter_of. lia.
Qed.

End LoggingTheorem.

Section ControlFlowTheorem.
Context {F : Framework}.

(** C8, as amended.  The two [train] methods have the same control flow apart
    from what belongs to the loss terms (the [_compute_loss] calls, the
    products and sums that combine them, and the loss meters: their
    construction, their [update] calls with [.item()] and [.size(0)], their
    [Train/Loss_*] scalars and their fields of the progress line), the forward
    call's signature, the number of digits the progress line prints the
    learning rate with, and the fgnet engine's histogram logging.  For
    engines with the same [use_gpu], [scheduler] and [writer], called with
    the same arguments, all other calls of the cluster-dependency engine, and
    all other calls of the fgnet engine without its [weights[j, ...]] and
    [add_histogram] calls, follow one and the same sequence, [epoch_control]:
    the three other meters, [model.train()], the phase selection, [len] and
    the iteration of the loader, and for each batch the clock readings, the
    timer and accuracy updates, the gradient step, the progress line when it
    is due with its remaining fields, and the [Train/Time], [Train/Data],
    [Train/Acc glob] and [Train/Lr] scalars; then the scheduler step.  So
    when both return normally, the first are the second with the histogram
    logging removed. *)
Theorem same_control_flow_apart_from_histograms :
  forall (c : Cluster.t) (f : FGNet.t)
         epoch max_epoch trainloader fixbase_epoch open_layers print_freq,
    Cluster.base c = FGNet.base f ->
    follows skeleton
      (Cluster.train c epoch max_epoch trainloader fixbase_epoch open_layers print_freq)
      (epoch_control (Cluster.base c) epoch max_epoch trainloader fixbase_epoch open_layers
         print_freq) /\
    follows skeleton_no_hist
      (FGNet.train f epoch max_epoch trainloader fixbase_epoch open_layers print_freq)
      (epoch_control (Cluster.base c) epoch max_epoch trainloader fixbase_epoch open_layers
         print_freq) /\
    forall wc wf,
      outcome_of (Cluster.train c epoch max_epoch trainloader fixbase_epoch open_layers
                    print_freq wc) = Ok tt ->
      outcome_of (FGNet.train f epoch max_epoch trainloader fixbase_epoch open_layers
                    print_freq wf) = Ok tt ->
      flat_map skeleton
        (events_of (Cluster.train c epoch max_epoch trainloader fixbase_epoch open_layers
                      print_freq wc))
      = without_histograms
          (flat_map skeleton
             (events_of (FGNet.train f epoch max_epoch trainloader fixbase_epoch open_layers
                           print_freq wf))).
Proof.
  intros c f epoch max_epoch tl fb ol pf Hbase.
  pose proof (cluster_train_control c epoch max_epoch tl fb ol pf) as Hc.
  pose proof (fgnet_train_control f epoch max_epoch tl fb ol pf) as Hf.
  rewrite <- Hbase in Hf. split; [exact Hc|]. split; [exact Hf|].
  intros wc wf Hoc Hof.
  destruct (Hc wc) as [_ Hc']. destruct (Hf wf) as [_ Hf'].
  rewrite (Hc' _ Hoc), <- without_histograms_flat_map. symmetry. exact (Hf' _ Hof).
Qed.

End ControlFlowTheorem.

(** * The theorems on a concrete run *)

Section Examples.

(** The first [backward] of either toy epoch gets the weighted sum of the
    losses computed just before it: 1818 of ten losses, 304 of four; and the
    fgnet epoch computes its four losses and backpropagates once for each of
    its two batches. *)
Lemma backward_gets_the_weighted_sum_example :
  (exists out pids loss_x loss_t loss_c loss_db_x loss_db_t loss_db_c
          loss_b_db_x loss_b_db_t loss_b_db_c loss_dep before,
     firstn 55 (events_of Toy.cluster_run)
     = before ++
       @cluster_loss_calls Toy.framework out pids loss_x loss_t loss_c loss_db_x loss_db_t
         loss_db_c loss_b_db_x loss_b_db_t loss_b_db_c loss_dep ++
       weighted_sum_calls
         (cluster_terms Toy.cluster loss_x loss_t loss_c loss_db_x loss_db_t
            loss_db_c loss_b_db_x loss_b_db_t loss_b_db_c loss_dep) /\
     1818 = 1 * loss_t + 2 * loss_x + 4 * loss_db_t + 5 * loss_db_x
            + 7 * loss_b_db_t + 8 * loss_b_db_x + 3 * loss_c + 6 * loss_db_c
            + 9 * loss_b_db_c + 10 * loss_dep) /\
  (exists out pids loss_t loss_x loss_n loss_x_parts before,
     firstn 31 (events_of Toy.fgnet_run)
     = before ++
       @fgnet_loss_calls Toy.framework out pids loss_t loss_x loss_n loss_x_parts ++
       weighted_sum_calls (fgnet_terms Toy.fgnet loss_t loss_x loss_n loss_x_parts) /\
     304 = 1 * loss_t + 2 * loss_x + 3 * loss_n + 4 * loss_x_parts) /\
  flat_map loss_proj (events_of Toy.fgnet_run) = fgnet_loss_tokens ++ fgnet_loss_tokens.
Proof.
  split; [ | split ].
  - apply (proj2 (proj1 (@backward_gets_the_weighted_sum Toy.framework)
                    Toy.engine 1 2 3 4 5 6 7 8 9 10 (Some 2) 1 60 Toy.loader 0 None 2)
             0 (firstn 55 (events_of Toy.cluster_run)) 1818 (Ok tt)
             (skipn 56 (events_of Toy.cluster_run))).
    reflexivity.
  - apply (proj2 (proj2 (@backward_gets_the_weighted_sum Toy.framework)
                    Toy.engine 1 2 3 4 1 60 Toy.loader 0 None 2)
             0 (firstn 31 (events_of Toy.fgnet_run)) 304 (Ok tt)
             (skipn 32 (events_of Toy.fgnet_run))).
    reflexivity.
  - apply (proj2 (proj1 (proj2 (@backward_gets_the_weighted_sum Toy.framework)
                           Toy.engine 1 2 3 4 1 60 Toy.loader 0 None 2) 0) tt).
    reflexivity.
Defined.

(** In epoch 1 with [top_drop_epoch = 2] the flag is true. *)
Lemma drop_top_flag_of_forward_calls_example :
  true = true <->
  Cluster.top_drop_epoch Toy.cluster <> -1 /\ 1 + 1 >= Cluster.top_drop_epoch Toy.cluster.
Proof.
  apply (proj1 (@drop_top_flag_of_forward_calls Toy.framework)
           Toy.cluster 1 60 Toy.loader 0 None 2 0 10 true
           (Ok {| prelogits := 10; features := 11; db_prelogits := 12; db_features := 13;
                  b_db_prelogits := 14; b_db_features := 15 |})).
  apply (@nth_error_In _ _ 25). reflexivity.
Defined.

(** With [fixbase_epoch = 0] all layers are opened, once, before the two
    batches. *)
Lemma layers_opened_once_before_the_batches_example :
  flat_map phase_proj (events_of Toy.cluster_run) = [TOpenAll; @TBatch Toy.framework 10; @TBatch Toy.framework 20].
Proof.
  apply (proj2 (proj1 (@layers_opened_once_before_the_batches Toy.framework)
                  Toy.cluster 1 60 Toy.loader 0 None 2 0) tt).
  reflexivity.
Defined.

(** The [Train/Loss_t] scalar of the second batch is 28, the average of the
    two [losses_t.update] calls of the epoch (23 and 33). *)
Lemma averages_are_scoped_to_the_epoch_example :
  28 = @meter_avg Toy.framework
         (replay (firstn 186 (events_of Toy.cluster_run)) id_losses_t).
Proof.
  refine (proj1 (@averages_are_scoped_to_the_epoch Toy.framework)
            Toy.cluster 1 60 Toy.loader 0 None 2 0
            (firstn 186 (events_of Toy.cluster_run))
            (@EAddScalar Toy.framework tt "Train/Loss_t" 28 3 (Ok tt))
            (skipn 187 (events_of Toy.cluster_run)) _ id_losses_t _); reflexivity.
Defined.

(** The model refuses the second batch: the forward call is the last call and
    [train] raises its [RuntimeError].  And when [len(trainloader)] raises
    [OverflowError], [train] raises it, and [len] was its last call. *)
Lemma train_raises_what_its_calls_raise_example :
  (@nil (@event Toy.framework) = [] /\
   outcome_of Toy.cluster_bad_run = Raise "RuntimeError"%string) /\
  ((exists d0 ev,
      events_of (Cluster.train Toy.cluster 1 60 Toy.loader 0 None 2 (-1)) = d0 ++ [ev] /\
      raised ev = Some "OverflowError"%string) \/
   ("OverflowError"%string = @ZeroDivisionError Toy.framework /\ 2 = 0)).
Proof.
  split.
  - apply (proj1 (proj1 (@train_raises_what_its_calls_raise Toy.framework)
                    Toy.cluster 1 60 Toy.bad_loader 0 None 2 0)
             (firstn 114 (events_of Toy.cluster_bad_run))
             (@EForwardDropTop Toy.framework (-1) true (Raise "RuntimeError"%string))).
    + reflexivity.
    + reflexivity.
  - apply (proj2 (proj1 (@train_raises_what_its_calls_raise Toy.framework)
                    Toy.cluster 1 60 Toy.loader 0 None 2 (-1))).
    reflexivity.
Defined.

(** With no batch the scheduler still steps once, and the optimizer never. *)
Lemma scheduler_steps_once_after_the_loop_example :
  flat_map step_proj (events_of Toy.cluster_empty_run) = [@TSchedulerStep Toy.framework tt] /\
  exists d, events_of Toy.cluster_empty_run = d ++ [@ESchedStep Toy.framework tt (Ok tt)].
Proof.
  destruct (proj1 (@scheduler_steps_once_after_the_loop Toy.framework)
              Toy.cluster 1 60 Toy.empty_loader 0 None 2) as [H1 H2].
  split.
  - apply (proj2 (H1 0) tt). reflexivity.
  - apply (H2 0 tt); reflexivity.
Defined.

Lemma train_gradient_steps_in_order_example :
  flat_map grad_proj (events_of Toy.fgnet_run)
  = [@GBatch Toy.framework 10; GZeroGrad; GForward; GBackward; GStep;
     @GBatch Toy.framework 20; GZeroGrad; GForward; GBackward; GStep].
Proof.
  apply (proj2 (proj2 (@train_gradient_steps_in_order Toy.framework)
                  Toy.fgnet 1 60 Toy.loader 0 None 2 0) tt).
  reflexivity.
Defined.

(** The two toy engines share [use_gpu], [scheduler] and [writer]; their
    control calls agree once the histogram logging is removed. *)
Lemma same_control_flow_apart_from_histograms_example :
  flat_map skeleton (events_of Toy.cluster_run)
  = without_histograms (flat_map skeleton (events_of Toy.fgnet_run)).
Proof.
  apply (proj2 (proj2 (@same_control_flow_apart_from_histograms Toy.framework
                         Toy.cluster Toy.fgnet 1 60 Toy.loader 0 None 2 eq_refl)) 0 0).
  - reflexivity.
  - reflexivity.
Defined.

(** C8 as stated fails: both toy runs return normally, with the same
    arguments and the same [use_gpu], [scheduler] and [writer], and their
    control calls differ, the fgnet engine's containing its histogram
    logging. *)
Lemma control_flow_differs_by_histograms :
  Cluster.base Toy.cluster = FGNet.base Toy.fgnet /\
  outcome_of Toy.cluster_run = Ok tt /\
  outcome_of Toy.fgnet_run = Ok tt /\
  flat_map skeleton (events_of Toy.cluster_run)
  <> flat_map skeleton (events_of Toy.fgnet_run).
Proof.
  split; [reflexivity|]. split; [reflexivity|].
  split; [reflexivity|].
  intros H. apply (f_equal (@length _)) in H. vm_compute in H. discriminate H.
Qed.

(** With [print_freq = 2] only the second batch is printed; both are logged,
    at steps 2 and 3. *)
Lemma progress_printed_and_writer_logged_example :
  flat_map log_proj (events_of Toy.fgnet_run)
  = map (fun tag => @LScalar Toy.framework tt tag 2) fgnet_scalar_tags ++ [@LPrint Toy.framework 2] ++
    map (fun tag => @LScalar Toy.framework tt tag 3) fgnet_scalar_tags.
Proof.
  apply (proj2 (proj1 (proj1 (proj2 (@progress_printed_and_writer_logged Toy.framework))
                         Toy.fgnet 1 60 Toy.loader 0 None 2) 0) tt).
  reflexivity.
Defined.

(** The second part's tensor has 5 rows; the last row logged is row 2. *)
Lemma histogram_indices_in_bounds_example :
  0 <= 2 < @size0 Toy.framework 5 /\ 2 < 3.
Proof.
  apply (proj2 (proj2 (@histogram_indices_in_bounds Toy.framework))
           Toy.fgnet 1 60 Toy.loader 0 None 2 0 5 2 (Ok 52)).
  apply (@nth_error_In _ _ 68). reflexivity.
Defined.

End Examples.

(** * Further properties of the engines: proofs *)

(** ** Histogram logging under a monitor it does not move *)

Section QuietHistograms.
Context {F : Framework} {S : Type}.
Variable step : S -> event -> S.
Variable ok : S -> event -> Prop.
Hypothesis step_size0 : forall s t r, step s (ESize0 t r) = s.
Hypothesis step_index : forall s weights j r, step s (EIndex weights j r) = s.
Hypothesis step_histogram : forall s wr tag v n r, step s (EAddHistogram wr tag v n r) = s.
Hypothesis ok_size0 : forall s t r, ok s (ESize0 t r).
Hypothesis ok_index : forall s weights j r, ok s (EIndex weights j r).
Hypothesis ok_histogram : forall s wr tag v n r, ok s (EAddHistogram wr tag v n r).

Lemma log_part_quiet wr n it u s :
  wp step ok (FGNet.log_part wr n it u) s (fun _ s' => s' = s) (fun _ _ => True).
Proof.
  destruct it as [i [x weights]].
  apply wp_log_part; [ intro; apply ok_size0 | rewrite step_size0 | intro; exact I ].
  apply wp_for_in with (I := fun _ _ s' => s' = s); [|reflexivity].
  intros j js [] s' ->. wp_unfold. apply wp_bind.
  apply wp_call; [ intro; apply ok_index | intro values | intro; exact I ].
  rewrite step_index.
  apply wp_call; [ intro; apply ok_histogram | intro; apply step_histogram | intro; exact I ].
Qed.

Lemma log_parts_quiet wr n (pw : list (Z * (Tensor * Tensor))) u s :
  wp step ok (for_in pw (FGNet.log_part wr n) u) s (fun _ s' => s' = s) (fun _ _ => True).
Proof.
  apply wp_for_in with (I := fun _ _ s' => s' = s); [|reflexivity].
  intros it its u' s' ->. apply log_part_quiet.
Qed.

End QuietHistograms.

Section AllowedHistograms.
Context {F : Framework} {S : Type}.
Variable step : S -> event -> S.
Variable ok : S -> event -> Prop.
Variable wr : Writer.
Hypothesis ok_size0 : forall s t r, ok s (ESize0 t r).
Hypothesis ok_index : forall s weights j r, ok s (EIndex weights j r).
Hypothesis ok_histogram : forall s tag v n r, ok s (EAddHistogram wr tag v n r).

Lemma log_parts_allowed n (pw : list (Z * (Tensor * Tensor))) u s :
  wp step ok (for_in pw (FGNet.log_part wr n) u) s (fun _ _ => True) (fun _ _ => True).
Proof.
  apply wp_loop with (I := fun _ _ _ => True); [ | auto | exact I ].
  intros [i [x weights]] its [] s' _.
  apply wp_log_part; [ intro; apply ok_size0 | | intro; exact I ].
  apply wp_loop with (I := fun _ _ _ => True); [ | auto | exact I ].
  intros j js [] s'' _. wp_unfold. apply wp_bind.
  apply wp_call; [ intro; apply ok_index | intro values | intro; exact I ].
  apply wp_call; [ intro; apply ok_histogram | intro; exact I | intro; exact I ].
Qed.

End AllowedHistograms.

Ltac allowed_loop :=
  eapply wp_conseq;
  [ apply log_parts_allowed; intros; exact I
  | intros
  | auto ].

Ltac quiet_loop :=
  eapply wp_conseq;
  [ apply log_parts_quiet; intros; first [ reflexivity | exact I ]
  | intros ? ? ->
  | auto ].

(** ** The two timers (X2) *)

Section Timing.
Context {F : Framework}.

Ltac timing_tac := first [ exact I | repeat eexists ].

Lemma cluster_batch_clock self epoch max_epoch nb pf it l s :
  (exists rest, s = Cluster.l_end l :: rest) ->
  wp clock_step timing_ok (Cluster.train_batch self epoch max_epoch nb pf it l) s
     (fun l' s' => exists rest, s' = Cluster.l_end l' :: rest) (fun _ _ => True).
Proof.
  intros [rest ->]. unfold Cluster.train_batch. destruct it as [batch_idx data]. wp_unfold.
  repeat inv_step timing_tac idtac. all: eexists; reflexivity.
Qed.

Lemma fgnet_batch_clock self epoch max_epoch nb pf it l s :
  (exists rest, s = FGNet.l_end l :: rest) ->
  wp clock_step timing_ok (FGNet.train_batch self epoch max_epoch nb pf it l) s
     (fun l' s' => exists rest, s' = FGNet.l_end l' :: rest) (fun _ _ => True).
Proof.
  intros [rest ->]. unfold FGNet.train_batch. destruct it as [batch_idx data]. wp_unfold.
  repeat inv_step timing_tac ltac:(idtac; quiet_loop). all: eexists; reflexivity.
Qed.

Lemma cluster_train_clock self epoch max_epoch tl fb ol pf :
  wp clock_step timing_ok (Cluster.train self epoch max_epoch tl fb ol pf) []
     (fun _ _ => True) (fun _ _ => True).
Proof.
  unfold Cluster.train. wp_unfold.
  repeat inv_step timing_tac idtac.
  all: apply wp_loop with (I := fun _ l s => exists rest, s = Cluster.l_end l :: rest);
    [ intros; now apply cluster_batch_clock
    | intros; repeat inv_step timing_tac idtac; exact I
    | eexists; reflexivity ].
Qed.

Lemma fgnet_train_clock self epoch max_epoch tl fb ol pf :
  wp clock_step timing_ok (FGNet.train self epoch max_epoch tl fb ol pf) []
     (fun _ _ => True) (fun _ _ => True).
Proof.
  unfold FGNet.train. wp_unfold.
  repeat inv_step timing_tac idtac.
  all: apply wp_loop with (I := fun _ l s => exists rest, s = FGNet.l_end l :: rest);
    [ intros; now apply fgnet_batch_clock
    | intros; repeat inv_step timing_tac idtac; exact I
    | eexists; reflexivity ].
Qed.

Lemma timing_at {A} (m : M A) w d0 id val n r d1 :
  wp clock_step timing_ok m [] (fun _ _ => True) (fun _ _ => True) ->
  events_of (m w) = d0 ++ EUpdate id val n r :: d1 ->
  (id = id_data_time ->
   exists now end_ rest,
     clock_readings d0 = now :: end_ :: rest /\ val = fsub now end_ /\ n = 1) /\
  (id = id_batch_time ->
   exists now mid end_ rest,
     clock_readings d0 = now :: mid :: end_ :: rest /\ val = fsub now end_ /\ n = 1).
Proof.
  intros H Hd. destruct (H w) as [Hacc _].
  pose proof (@accepts_at _ _ _ _ _ _ _ _ _ Hacc Hd) as Hok.
  unfold clock_readings. split; intros ->; exact Hok.
Qed.

(** X2.  Both timers of a batch are measured from the same clock reading,
    the one that ended the batch before (or the one taken before the loop):
    [data_time] is updated with the latest reading minus the one before it,
    and [batch_time] with the latest reading minus the one two before it, the
    reading in between being the one [data_time] was measured at.  So
    [batch_time] includes the time spent fetching the batch. *)
Theorem timers_measure_from_the_previous_batch_end :
  (forall (self : Cluster.t) epoch max_epoch trainloader fixbase_epoch open_layers print_freq
          w d0 id val n r d1,
     events_of (Cluster.train self epoch max_epoch trainloader fixbase_epoch open_layers
                  print_freq w) = d0 ++ EUpdate id val n r :: d1 ->
     (id = id_data_time ->
      exists now end_ rest,
        clock_readings d0 = now :: end_ :: rest /\ val = fsub now end_ /\ n = 1) /\
     (id = id_batch_time ->
      exists now mid end_ rest,
        clock_readings d0 = now :: mid :: end_ :: rest /\ val = fsub now end_ /\ n = 1)) /\
  (forall (self : FGNet.t) epoch max_epoch trainloader fixbase_epoch open_layers print_freq
          w d0 id val n r d1,
     events_of (FGNet.train self epoch max_epoch trainloader fixbase_epoch open_layers
                  print_freq w) = d0 ++ EUpdate id val n r :: d1 ->
     (id = id_data_time ->
      exists now end_ rest,
        clock_readings d0 = now :: end_ :: rest /\ val = fsub now end_ /\ n = 1) /\
     (id = id_batch_time ->
      exists now mid end_ rest,
        clock_readings d0 = now :: mid :: end_ :: rest /\ val = fsub now end_ /\ n = 1)).
Proof.
  split; intros.
  - eapply timing_at; [ apply cluster_train_clock | eassumption ].
  - eapply timing_at; [ apply fgnet_train_clock | eassumption ].
Qed.

End Timing.

(** ** A zero [print_freq] (X1) *)

Section ZeroPrintFreq.
Context {F : Framework}.

(** At [(batch_idx+1) % 0] the batch raises: what follows is not run. *)
Ltac zero_step tac on_loop :=
  lazymatch goal with
  | |- wp _ _ (lift (py_mod _ 0)) _ _ _ => apply wp_lift; exact I
  | _ => inv_step tac on_loop
  end.

Ltac zero_tok_step :=
  lazymatch goal with
  | |- wp _ _ (lift (py_mod _ 0)) _ _ _ => apply wp_lift; exact I
  | _ => wp_step tok_on_call idtac
  end.

Ltac quiet_tac := first [ exact I | reflexivity | split; reflexivity ].

Lemma cluster_batch_zero_quiet self epoch max_epoch nb it l s :
  wp every_step (every_ok no_report_nor_step)
     (Cluster.train_batch self epoch max_epoch nb 0 it l) s
     (fun _ _ => False) (fun _ _ => True).
Proof.
  unfold Cluster.train_batch. destruct it as [batch_idx data]. wp_unfold.
  repeat zero_step quiet_tac idtac.
Qed.

Lemma fgnet_batch_zero_quiet self epoch max_epoch nb it l s :
  wp every_step (every_ok no_report_nor_step)
     (FGNet.train_batch self epoch max_epoch nb 0 it l) s
     (fun _ _ => False) (fun _ _ => True).
Proof.
  unfold FGNet.train_batch. destruct it as [batch_idx data]. wp_unfold.
  repeat zero_step quiet_tac idtac.
Qed.

Lemma cluster_batch_zero_grad self epoch max_epoch nb it l :
  wp (consume_step grad_proj) (consume_ok grad_proj)
     (Cluster.train_batch self epoch max_epoch nb 0 it l) (grad_expected (snd it))
     (fun _ _ => False) (fun _ _ => True).
Proof.
  unfold Cluster.train_batch. destruct it as [batch_idx data]. wp_unfold.
  repeat zero_tok_step.
Qed.

Lemma fgnet_batch_zero_grad self epoch max_epoch nb it l :
  wp (consume_step grad_proj) (consume_ok grad_proj)
     (FGNet.train_batch self epoch max_epoch nb 0 it l) (grad_expected (snd it))
     (fun _ _ => False) (fun _ _ => True).
Proof.
  unfold FGNet.train_batch. destruct it as [batch_idx data]. wp_unfold.
  repeat zero_tok_step.
Qed.

(** A loop whose body never returns normally, over at least one item. *)
Lemma wp_loop_stuck {S A L} (step : S -> event -> S) (ok : S -> event -> Prop)
    (body : A -> L -> M L) x xs l s (Q : L -> S -> Prop) QE :
  wp step ok (body x l) s (fun _ _ => False) QE ->
  wp step ok (for_in (x :: xs) body l) s Q QE.
Proof.
  intros H. simpl. apply wp_bind. eapply wp_conseq; [ exact H | intros ? ? [] | auto ].
Qed.

(** A loop that makes only calls the property allows, and may stop early. *)
Lemma wp_loop_every {A L} (P : event -> Prop) (body : A -> L -> M L) xs l :
  (forall x l', wp every_step (every_ok P) (body x l') tt (fun _ _ => False) (fun _ _ => True)) ->
  wp every_step (every_ok P) (for_in xs body l) tt (fun _ _ => True) (fun _ _ => True).
Proof.
  intros H. destruct xs as [|x xs].
  - now apply wp_ret.
  - apply wp_loop_stuck. apply H.
Qed.

Lemma wp_every_weaken {A} (P P' : event -> Prop) (m : M A) Q QE :
  (forall ev, P ev -> P' ev) ->
  wp every_step (every_ok P) m tt Q QE ->
  wp every_step (every_ok P') m tt Q QE.
Proof.
  intros HP H w. destruct (H w) as [Hacc Hout]. split.
  - apply accepts_every. apply accepts_every in Hacc.
    eapply Forall_impl; [ exact HP | exact Hacc ].
  - destruct (run every_step tt (events_of (m w))).
    destruct (outcome_of (m w)); exact Hout.
Qed.

Lemma cluster_train_zero_reports self epoch max_epoch tl fb ol :
  wp every_step (every_ok (fun ev => is_report ev = false))
     (Cluster.train self epoch max_epoch tl fb ol 0) tt
     (fun _ _ => True) (fun _ _ => True).
Proof.
  unfold Cluster.train. wp_unfold.
  repeat inv_step quiet_tac idtac.
  all: eapply wp_conseq;
    [ apply wp_loop_every; intros;
      eapply wp_every_weaken; [ | apply cluster_batch_zero_quiet ]; intros ? [? _]; assumption
    | intros; repeat inv_step quiet_tac idtac; exact I
    | auto ].
Qed.

Lemma fgnet_train_zero_reports self epoch max_epoch tl fb ol :
  wp every_step (every_ok (fun ev => is_report ev = false))
     (FGNet.train self epoch max_epoch tl fb ol 0) tt
     (fun _ _ => True) (fun _ _ => True).
Proof.
  unfold FGNet.train. wp_unfold.
  repeat inv_step quiet_tac idtac.
  all: eapply wp_conseq;
    [ apply wp_loop_every; intros;
      eapply wp_every_weaken; [ | apply fgnet_batch_zero_quiet ]; intros ? [? _]; assumption
    | intros; repeat inv_step quiet_tac idtac; exact I
    | auto ].
Qed.

Lemma cluster_train_zero_quiet self epoch max_epoch tl fb ol data rest :
  loader_items tl = data :: rest ->
  wp every_step (every_ok no_report_nor_step)
     (Cluster.train self epoch max_epoch tl fb ol 0) tt
     (fun _ _ => False) (fun _ _ => True).
Proof.
  intros Hl. unfold Cluster.train, enumerate. wp_unfold.
  repeat inv_step quiet_tac idtac.
  all: rewrite Hl; apply wp_loop_stuck; apply cluster_batch_zero_quiet.
Qed.

Lemma fgnet_train_zero_quiet self epoch max_epoch tl fb ol data rest :
  loader_items tl = data :: rest ->
  wp every_step (every_ok no_report_nor_step)
     (FGNet.train self epoch max_epoch tl fb ol 0) tt
     (fun _ _ => False) (fun _ _ => True).
Proof.
  intros Hl. unfold FGNet.train, enumerate. wp_unfold.
  repeat inv_step quiet_tac idtac.
  all: rewrite Hl; apply wp_loop_stuck; apply fgnet_batch_zero_quiet.
Qed.

Lemma cluster_train_zero_grad self epoch max_epoch tl fb ol data rest :
  loader_items tl = data :: rest ->
  wp (consume_step grad_proj) (consume_ok grad_proj)
     (Cluster.train self epoch max_epoch tl fb ol 0) (grad_expected data)
     (fun _ _ => False) (fun _ _ => True).
Proof.
  intros Hl. unfold Cluster.train, enumerate. wp_unfold.
  repeat wp_step tok_on_call idtac.
  all: rewrite Hl; apply wp_loop_stuck; apply (cluster_batch_zero_grad _ _ _ _ (0, data)).
Qed.

Lemma fgnet_train_zero_grad self epoch max_epoch tl fb ol data rest :
  loader_items tl = data :: rest ->
  wp (consume_step grad_proj) (consume_ok grad_proj)
     (FGNet.train self epoch max_epoch tl fb ol 0) (grad_expected data)
     (fun _ _ => False) (fun _ _ => True).
Proof.
  intros Hl. unfold FGNet.train, enumerate. wp_unfold.
  repeat wp_step tok_on_call idtac.
  all: rewrite Hl; apply wp_loop_stuck; apply (fgnet_batch_zero_grad _ _ _ _ (0, data)).
Qed.

(** What a run that cannot return normally and raises nothing of its calls'
    comes to. *)
Lemma zero_freq_run {A} (m : M A) data w :
  wp every_step (every_ok no_report_nor_step) m tt (fun _ _ => False) (fun _ _ => True) ->
  wp (consume_step grad_proj) (consume_ok grad_proj) m (grad_expected data)
     (fun _ _ => False) (fun _ _ => True) ->
  raises_unchanged 0 m ->
  prefix_of (flat_map grad_proj (events_of (m w))) (grad_expected data) /\
  Forall (fun ev => is_scheduler_step ev = false) (events_of (m w)) /\
  (forall a, outcome_of (m w) <> Ok a) /\
  (Forall (fun ev => raised ev = None) (events_of (m w)) ->
   outcome_of (m w) = Raise ZeroDivisionError).
Proof.
  intros Hq Hg Hr.
  destruct (Hq w) as [Hqa Hqo]. destruct (Hg w) as [Hga _]. destruct (Hr w) as [_ Hr2].
  apply accepts_every in Hqa. apply consume_sound in Hga.
  assert (Hno : forall a, outcome_of (m w) <> Ok a).
  { intros a Ha. rewrite Ha in Hqo. exact Hqo. }
  split; [ eexists; exact Hga | ].
  split; [ eapply Forall_impl; [ | exact Hqa ]; intros ? [_ ?]; assumption | ].
  split; [ exact Hno | ].
  intros Hall. destruct (outcome_of (m w)) as [a|e] eqn:Ho.
  - now elim (Hno a).
  - destruct (Hr2 e eq_refl) as [(d0 & ev & Hd & Hev)|[-> _]]; [ | reflexivity ].
    rewrite Hd in Hall. apply Forall_app in Hall. destruct Hall as [_ Hall].
    inversion Hall; subst. congruence.
Qed.

(** X1.  With [print_freq = 0] the test [(batch_idx+1) % print_freq] of the
    first batch raises: the run makes no report (no progress line, no writer
    record) whatever the loader holds; and when the loader holds a batch, the
    run never returns normally, its gradient-step calls are an initial
    segment of those of the first batch alone, the scheduler is not stepped,
    and, if none of its calls raises, it raises [ZeroDivisionError]. *)
Theorem zero_print_freq_stops_in_the_first_batch :
  (forall (self : Cluster.t) epoch max_epoch trainloader fixbase_epoch open_layers w,
     let r := Cluster.train self epoch max_epoch trainloader fixbase_epoch open_layers 0 w in
     Forall (fun ev => is_report ev = false) (events_of r) /\
     forall data rest,
       loader_items trainloader = data :: rest ->
       prefix_of (flat_map grad_proj (events_of r)) (grad_expected data) /\
       Forall (fun ev => is_scheduler_step ev = false) (events_of r) /\
       (forall a, outcome_of r <> Ok a) /\
       (Forall (fun ev => raised ev = None) (events_of r) ->
        outcome_of r = Raise ZeroDivisionError)) /\
  (forall (self : FGNet.t) epoch max_epoch trainloader fixbase_epoch open_layers w,
     let r := FGNet.train self epoch max_epoch trainloader fixbase_epoch open_layers 0 w in
     Forall (fun ev => is_report ev = false) (events_of r) /\
     forall data rest,
       loader_items trainloader = data :: rest ->
       prefix_of (flat_map grad_proj (events_of r)) (grad_expected data) /\
       Forall (fun ev => is_scheduler_step ev = false) (events_of r) /\
       (forall a, outcome_of r <> Ok a) /\
       (Forall (fun ev => raised ev = None) (events_of r) ->
        outcome_of r = Raise ZeroDivisionError)).
Proof.
  split; intros self epoch max_epoch tl fb ol w r; subst r; split.
  - destruct (cluster_train_zero_reports self epoch max_epoch tl fb ol w) as [Hacc _].
    now apply accepts_every in Hacc.
  - intros data rest Hl. apply zero_freq_run.
    + eapply cluster_train_zero_quiet; eassumption.
    + eapply cluster_train_zero_grad; eassumption.
    + apply cluster_train_pending.
  - destruct (fgnet_train_zero_reports self epoch max_epoch tl fb ol w) as [Hacc _].
    now apply accepts_every in Hacc.
  - intros data rest Hl. apply zero_freq_run.
    + eapply fgnet_train_zero_quiet; eassumption.
    + eapply fgnet_train_zero_grad; eassumption.
    + apply fgnet_train_pending.
Qed.

End ZeroPrintFreq.

(** ** The inputs of the forward call (X3) *)

Section ForwardInputs.
Context {F : Framework}.

Ltac gpu_known :=
  repeat match goal with
         | H : use_gpu _ = _ |- _ => rewrite H
         end.

Ltac forward_tac :=
  first
    [ exact I
    | cbv [forward_ok forward_inputs_ok batch_inputs]; gpu_known;
      repeat match goal with u : unit |- _ => destruct u end;
      do 5 eexists; split;
      [ simpl; reflexivity
      | let H := fresh in intro H; first [ discriminate H | split; reflexivity ] ] ].

Lemma cluster_batch_forward self epoch max_epoch nb pf it l s :
  wp history_step (forward_ok (use_gpu (Cluster.base self)))
     (Cluster.train_batch self epoch max_epoch nb pf it l) s
     (fun _ _ => True) (fun _ _ => True).
Proof.
  unfold Cluster.train_batch. destruct it as [batch_idx data]. wp_unfold.
  repeat inv_step forward_tac idtac. all: exact I.
Qed.

Lemma fgnet_batch_forward self epoch max_epoch nb pf it l s :
  wp history_step (forward_ok (use_gpu (FGNet.base self)))
     (FGNet.train_batch self epoch max_epoch nb pf it l) s
     (fun _ _ => True) (fun _ _ => True).
Proof.
  unfold FGNet.train_batch. destruct it as [batch_idx data]. wp_unfold.
  repeat inv_step forward_tac ltac:(idtac; allowed_loop).
  all: exact I.
Qed.

Lemma cluster_train_forward self epoch max_epoch tl fb ol pf :
  wp history_step (forward_ok (use_gpu (Cluster.base self)))
     (Cluster.train self epoch max_epoch tl fb ol pf) []
     (fun _ _ => True) (fun _ _ => True).
Proof.
  unfold Cluster.train. wp_unfold.
  repeat inv_step forward_tac idtac.
  all: apply wp_loop with (I := fun _ _ _ => True);
    [ intros; apply cluster_batch_forward
    | intros; repeat inv_step forward_tac idtac; exact I
    | exact I ].
Qed.

Lemma fgnet_train_forward self epoch max_epoch tl fb ol pf :
  wp history_step (forward_ok (use_gpu (FGNet.base self)))
     (FGNet.train self epoch max_epoch tl fb ol pf) []
     (fun _ _ => True) (fun _ _ => True).
Proof.
  unfold FGNet.train. wp_unfold.
  repeat inv_step forward_tac idtac.
  all: apply wp_loop with (I := fun _ _ _ => True);
    [ intros; apply fgnet_batch_forward
    | intros; repeat inv_step forward_tac idtac; exact I
    | exact I ].
Qed.

Lemma forward_inputs_before gpu d0 imgs :
  forward_inputs_ok gpu (rev d0) imgs ->
  exists data imgs0 pids0 pids before,
    d0 = before ++ batch_inputs gpu data imgs0 pids0 imgs pids /\
    (gpu = false -> imgs = imgs0 /\ pids = pids0).
Proof.
  intros (data & imgs0 & pids0 & pids & rest & Hrev & Hg).
  exists data, imgs0, pids0, pids, (rev rest). split; [ | exact Hg ].
  apply rev_eq_app in Hrev. now rewrite rev_involutive in Hrev.
Qed.

(** X3.  The model is run on the images of the batch just fetched: every
    forward call comes directly after the calls that parse the batch, move
    its images and then its labels to the GPU when [use_gpu] is set, and
    reset the gradients; its [imgs] is what [.cuda()] returned for the parsed
    images, or the parsed images themselves when [use_gpu] is not set. *)
Theorem forward_gets_the_batch_images :
  (forall (self : Cluster.t) epoch max_epoch trainloader fixbase_epoch open_layers print_freq
          w d0 imgs drop_top r d1,
     events_of (Cluster.train self epoch max_epoch trainloader fixbase_epoch open_layers
                  print_freq w) = d0 ++ EForwardDropTop imgs drop_top r :: d1 ->
     exists data imgs0 pids0 pids before,
       d0 = before ++ batch_inputs (use_gpu (Cluster.base self)) data imgs0 pids0 imgs pids /\
       (use_gpu (Cluster.base self) = false -> imgs = imgs0 /\ pids = pids0)) /\
  (forall (self : FGNet.t) epoch max_epoch trainloader fixbase_epoch open_layers print_freq
          w d0 imgs r d1,
     events_of (FGNet.train self epoch max_epoch trainloader fixbase_epoch open_layers
                  print_freq w) = d0 ++ EForward imgs r :: d1 ->
     exists data imgs0 pids0 pids before,
       d0 = before ++ batch_inputs (use_gpu (FGNet.base self)) data imgs0 pids0 imgs pids /\
       (use_gpu (FGNet.base self) = false -> imgs = imgs0 /\ pids = pids0)).
Proof.
  split.
  - intros self epoch max_epoch tl fb ol pf w d0 imgs drop_top r d1 Hd.
    destruct (cluster_train_forward self epoch max_epoch tl fb ol pf w) as [Hacc _].
    pose proof (@accepts_at _ _ _ _ _ _ _ _ _ Hacc Hd) as Hok.
    rewrite run_history, app_nil_r in Hok. now apply forward_inputs_before.
  - intros self epoch max_epoch tl fb ol pf w d0 imgs r d1 Hd.
    destruct (fgnet_train_forward self epoch max_epoch tl fb ol pf w) as [Hacc _].
    pose proof (@accepts_at _ _ _ _ _ _ _ _ _ Hacc Hd) as Hok.
    rewrite run_history, app_nil_r in Hok. now apply forward_inputs_before.
Qed.

End ForwardInputs.

(** ** Where the values of a batch come from (X4, X5, X6) *)

Section DataFlowProofs.
Context {F : Framework}.

Lemma flow_run gpu d s :
  f_labels (run (flow_step gpu) s d) = run (latest_step (pick_labels gpu)) (f_labels s) d /\
  f_cluster_out (run (flow_step gpu) s d)
  = run (latest_step pick_cluster_out) (f_cluster_out s) d /\
  f_fgnet_out (run (flow_step gpu) s d) = run (latest_step pick_fgnet_out) (f_fgnet_out s) d /\
  (forall c, f_loss (run (flow_step gpu) s d) c
             = run (latest_step (pick_loss c)) (f_loss s c) d) /\
  f_accuracy (run (flow_step gpu) s d) = run (latest_step pick_accuracy) (f_accuracy s) d /\
  f_lr (run (flow_step gpu) s d) = run (latest_step pick_lr) (f_lr s) d /\
  f_eta (run (flow_step gpu) s d) = run (latest_step pick_eta) (f_eta s) d /\
  f_batch_time (run (flow_step gpu) s d)
  = run (latest_step pick_batch_time) (f_batch_time s) d.
Proof.
  revert s. induction d as [|ev d IH]; intros s.
  - repeat split; reflexivity.
  - exact (IH (flow_step gpu s ev)).
Qed.

Lemma flow_latest gpu d :
  let s := run (flow_step gpu) flow_start d in
  f_labels s = latest_of_batch (pick_labels gpu) d /\
  f_cluster_out s = latest_of_batch pick_cluster_out d /\
  f_fgnet_out s = latest_of_batch pick_fgnet_out d /\
  (forall c, f_loss s c = latest_of_batch (pick_loss c) d) /\
  f_accuracy s = latest_of_batch pick_accuracy d /\
  f_lr s = latest_of_batch pick_lr d /\
  f_eta s = latest_of_batch pick_eta d /\
  f_batch_time s = latest_of_batch pick_batch_time d.
Proof. exact (flow_run gpu d flow_start). Qed.

Ltac flow_tac :=
  first
    [ exact I
    | repeat match goal with u : unit |- _ => destruct u end;
      cbn; rewrite ?Z.add_simpl_r;
      repeat first
        [ reflexivity
        | split
        | eexists
        | let H := fresh in intro H; first [ discriminate H | clear H ] ] ].

Lemma cluster_batch_flow self epoch max_epoch nb pf it l s :
  wp (flow_step (use_gpu (Cluster.base self))) (cluster_flow_ok epoch max_epoch nb)
     (Cluster.train_batch self epoch max_epoch nb pf it l) s
     (fun _ _ => True) (fun _ _ => True).
Proof.
  unfold Cluster.train_batch. destruct it as [batch_idx data]. wp_unfold.
  repeat inv_step flow_tac idtac. all: exact I.
Qed.

Lemma fgnet_batch_flow self epoch max_epoch nb pf it l s :
  wp (flow_step (use_gpu (FGNet.base self))) (fgnet_flow_ok epoch max_epoch nb)
     (FGNet.train_batch self epoch max_epoch nb pf it l) s
     (fun _ _ => True) (fun _ _ => True).
Proof.
  unfold FGNet.train_batch. destruct it as [batch_idx data]. wp_unfold.
  repeat inv_step flow_tac ltac:(idtac; allowed_loop). all: exact I.
Qed.

Lemma cluster_train_flow self epoch max_epoch tl fb ol pf :
  wp (flow_step (use_gpu (Cluster.base self)))
     (cluster_flow_ok epoch max_epoch (loader_len tl))
     (Cluster.train self epoch max_epoch tl fb ol pf) flow_start
     (fun _ _ => True) (fun _ _ => True).
Proof.
  unfold Cluster.train. wp_unfold.
  repeat inv_step flow_tac idtac.
  all: apply wp_loop with (I := fun _ _ _ => True);
    [ intros; apply cluster_batch_flow
    | intros; repeat inv_step flow_tac idtac; exact I
    | exact I ].
Qed.

Lemma fgnet_train_flow self epoch max_epoch tl fb ol pf :
  wp (flow_step (use_gpu (FGNet.base self)))
     (fgnet_flow_ok epoch max_epoch (loader_len tl))
     (FGNet.train self epoch max_epoch tl fb ol pf) flow_start
     (fun _ _ => True) (fun _ _ => True).
Proof.
  unfold FGNet.train. wp_unfold.
  repeat inv_step flow_tac idtac.
  all: apply wp_loop with (I := fun _ _ _ => True);
    [ intros; apply fgnet_batch_flow
    | intros; repeat inv_step flow_tac idtac; exact I
    | exact I ].
Qed.

End DataFlowProofs.

Section DataFlowTheorems.
Context {F : Framework}.

Lemma flow_at {A} {m : M A} {gpu} {ok : flow -> event -> Prop} {w d0 ev d1} :
  wp (flow_step gpu) ok m flow_start (fun _ _ => True) (fun _ _ => True) ->
  events_of (m w) = d0 ++ ev :: d1 ->
  ok (run (flow_step gpu) flow_start d0) ev.
Proof.
  intros H Hd. destruct (H w) as [Hacc _].
  exact (@accepts_at _ _ _ _ _ _ _ _ _ Hacc Hd).
Qed.

Ltac flow_facts gpu d0 :=
  let Hl := fresh "Hlabels" in
  let Hc := fresh "Hcluster" in
  let Hf := fresh "Hfgnet" in
  let Hs := fresh "Hloss" in
  let Ha := fresh "Hacc" in
  let Hr := fresh "Hlr" in
  let He := fresh "Heta" in
  let Hb := fresh "Hbatch" in
  destruct (flow_latest gpu d0) as (Hl & Hc & Hf & Hs & Ha & Hr & He & Hb);
  cbv zeta in Hl, Hc, Hf, Hs, Ha, Hr, He, Hb.


Lemma update_flow gpu d0 id val n (s : flow) :
  s = run (flow_step gpu) flow_start d0 ->
  match meter_criterion id with
  | Some c =>
      exists loss pids,
        f_loss s c = Some loss /\ val = item loss /\ f_labels s = Some pids /\ n = size0 pids
  | None => match id with id_accs => f_accuracy s = Some val /\ n = 1 | _ => True end
  end ->
  (forall c, meter_criterion id = Some c ->
     exists loss pids,
       latest_of_batch (pick_loss c) d0 = Some loss /\ val = item loss /\
       latest_of_batch (pick_labels gpu) d0 = Some pids /\ n = size0 pids) /\
  (id = id_accs -> latest_of_batch pick_accuracy d0 = Some val /\ n = 1).
Proof.
  intros -> Hok. flow_facts gpu d0. split.
  - intros c Hc. rewrite Hc in Hok. now rewrite <- Hloss, <- Hlabels.
  - intros ->. simpl in Hok. now rewrite <- Hacc.
Qed.


Lemma eta_seconds_remaining (avg : Scalar) epoch max_epoch num_batches batch_idx :
  eta_seconds avg epoch max_epoch num_batches batch_idx
  = fmul_int avg (max_epoch * num_batches - (n_iter_of epoch num_batches batch_idx + 1)).
Proof. unfold eta_seconds, n_iter_of. f_equal. ring. Qed.


End DataFlowTheorems.

(** ** Calls an engine never makes (X7) *)

Section NeverCalled.
Context {F : Framework}.

Ltac call_tac :=
  first
    [ exact I
    | assumption
    | reflexivity
    | split; discriminate
    | match goal with H : ?x = Some _ |- ?x <> None => rewrite H; discriminate end ].

Ltac call_loop :=
  eapply wp_conseq;
  [ apply log_parts_allowed; intros; simpl; call_tac
  | intros
  | auto ].

Lemma cluster_batch_calls self epoch max_epoch nb pf it l s :
  wp every_step (every_ok (cluster_call (Cluster.base self)))
     (Cluster.train_batch self epoch max_epoch nb pf it l) s
     (fun _ _ => True) (fun _ _ => True).
Proof.
  unfold Cluster.train_batch. destruct it as [batch_idx data]. wp_unfold.
  repeat inv_step call_tac idtac. all: exact I.
Qed.

Lemma fgnet_batch_calls self epoch max_epoch nb pf it l s :
  wp every_step (every_ok (fgnet_call (FGNet.base self)))
     (FGNet.train_batch self epoch max_epoch nb pf it l) s
     (fun _ _ => True) (fun _ _ => True).
Proof.
  unfold FGNet.train_batch. destruct it as [batch_idx data]. wp_unfold.
  repeat inv_step call_tac ltac:(idtac; call_loop). all: exact I.
Qed.

Lemma cluster_train_calls self epoch max_epoch tl fb ol pf :
  wp every_step (every_ok (cluster_call (Cluster.base self)))
     (Cluster.train self epoch max_epoch tl fb ol pf) tt
     (fun _ _ => True) (fun _ _ => True).
Proof.
  unfold Cluster.train. wp_unfold.
  repeat inv_step call_tac idtac.
  all: apply wp_loop with (I := fun _ _ _ => True);
    [ intros; apply cluster_batch_calls
    | intros; repeat inv_step call_tac idtac; exact I
    | exact I ].
Qed.

Lemma fgnet_train_calls self epoch max_epoch tl fb ol pf :
  wp every_step (every_ok (fgnet_call (FGNet.base self)))
     (FGNet.train self epoch max_epoch tl fb ol pf) tt
     (fun _ _ => True) (fun _ _ => True).
Proof.
  unfold FGNet.train. wp_unfold.
  repeat inv_step call_tac idtac.
  all: apply wp_loop with (I := fun _ _ _ => True);
    [ intros; apply fgnet_batch_calls
    | intros; repeat inv_step call_tac idtac; exact I
    | exact I ].
Qed.

(** X7.  What a run never does.  The cluster-dependency engine never calls
    the model without [drop_top], never indexes a tensor and never writes a
    histogram, and uses none of the fgnet engine's criteria or meters; the
    fgnet engine never calls the model with [drop_top] and uses only its four
    criteria and their meters.  Neither moves a tensor to the GPU unless
    [use_gpu] is set, writes to a writer other than [self.writer] (so to none
    when it is [None]), or steps a scheduler other than [self.scheduler]. *)
Theorem engines_make_only_their_own_calls :
  (forall (self : Cluster.t) epoch max_epoch trainloader fixbase_epoch open_layers print_freq w,
     Forall (cluster_call (Cluster.base self))
       (events_of (Cluster.train self epoch max_epoch trainloader fixbase_epoch open_layers
                     print_freq w))) /\
  (forall (self : FGNet.t) epoch max_epoch trainloader fixbase_epoch open_layers print_freq w,
     Forall (fgnet_call (FGNet.base self))
       (events_of (FGNet.train self epoch max_epoch trainloader fixbase_epoch open_layers
                     print_freq w))).
Proof.
  split; intros self epoch max_epoch tl fb ol pf w.
  - destruct (cluster_train_calls self epoch max_epoch tl fb ol pf w) as [Hacc _].
    now apply accepts_every in Hacc.
  - destruct (fgnet_train_calls self epoch max_epoch tl fb ol pf w) as [Hacc _].
    now apply accepts_every in Hacc.
Qed.

End NeverCalled.

(** ** The drop-top phase and the global step (X8, X9) *)

Section Phases.
Context {F : Framework}.

Lemma forward_flag self epoch max_epoch tl fb ol pf w imgs drop_top r :
  In (EForwardDropTop imgs drop_top r)
     (events_of (Cluster.train self epoch max_epoch tl fb ol pf w)) ->
  drop_top = Cluster.drop_top_flag self epoch.
Proof.
  intros Hin.
  destruct (cluster_train_drop_top self epoch max_epoch tl fb ol pf w) as [Hacc _].
  apply accepts_every in Hacc. rewrite Forall_forall in Hacc.
  specialize (Hacc _ Hin). simpl in Hacc.
  pose proof (drop_top_flag_spec self epoch) as Hspec.
  destruct drop_top, (Cluster.drop_top_flag self epoch); intuition congruence.
Qed.

(** X8.  The drop-top phase, once begun, does not end: if a forward call of
    some epoch is made with [drop_top] true, every forward call of the same
    engine in a later epoch is. *)
Theorem drop_top_stays_on :
  forall (self : Cluster.t) epoch epoch'
         max_epoch trainloader fixbase_epoch open_layers print_freq w
         max_epoch' trainloader' fixbase_epoch' open_layers' print_freq' w'
         imgs r imgs' drop_top' r',
    epoch <= epoch' ->
    In (EForwardDropTop imgs true r)
       (events_of (Cluster.train self epoch max_epoch trainloader fixbase_epoch open_layers
                     print_freq w)) ->
    In (EForwardDropTop imgs' drop_top' r')
       (events_of (Cluster.train self epoch' max_epoch' trainloader' fixbase_epoch'
                     open_layers' print_freq' w')) ->
    drop_top' = true.
Proof.
  intros self epoch epoch' me tl fb ol pf w me' tl' fb' ol' pf' w' imgs r imgs' flag' r'
         Hle H H'.
  apply forward_flag in H. apply forward_flag in H'. subst flag'.
  symmetry in H. apply drop_top_flag_spec in H. apply drop_top_flag_spec. lia.
Qed.

(** X9.  The global step [n_iter = epoch * num_batches + batch_idx] names a
    batch of the training uniquely as long as every epoch has at most
    [num_batches] batches; it goes on from the last batch of an epoch to the
    first of the next; and a batch beyond the [num_batches]-th gets the step
    of the first batch of the next epoch. *)
Theorem global_step_names_one_batch :
  (forall num_batches epoch epoch' batch_idx batch_idx',
     0 <= batch_idx < num_batches ->
     0 <= batch_idx' < num_batches ->
     n_iter_of epoch num_batches batch_idx = n_iter_of epoch' num_batches batch_idx' ->
     epoch = epoch' /\ batch_idx = batch_idx') /\
  (forall num_batches epoch,
     n_iter_of (epoch + 1) num_batches 0 = n_iter_of epoch num_batches (num_batches - 1) + 1) /\
  (forall num_batches epoch,
     n_iter_of epoch num_batches num_batches = n_iter_of (epoch + 1) num_batches 0).
Proof.
  unfold n_iter_of. split; [ | split ]; intros; try lia.
  assert (epoch = epoch') by nia. subst. split; [ reflexivity | lia ].
Qed.

End Phases.

(** ** Writer records do not collide (X10, X11) *)

Section ScalarKeys.
Context {F : Framework}.

Lemma flat_map_nested {A B C} (f : A -> list B) (g : B -> list C) l :
  flat_map g (flat_map f l) = flat_map (fun x => flat_map g (f x)) l.
Proof.
  induction l as [|x l IH]; simpl; [ reflexivity | ]. now rewrite flat_map_app, IH.
Qed.

Lemma scalar_keys_of_tokens d :
  flat_map scalar_key d = flat_map token_key (flat_map log_proj d).
Proof.
  induction d as [|ev d IH]; simpl; [ reflexivity | ].
  rewrite flat_map_app, <- IH. destruct ev; reflexivity.
Qed.

Lemma token_keys_of_batch tags engine epoch nb pf it :
  flat_map token_key (log_expected tags engine epoch nb pf it)
  = batch_keys tags engine epoch nb it.
Proof.
  unfold log_expected, batch_keys. rewrite flat_map_app.
  replace (flat_map token_key
             (if print_due pf (fst it) then [LPrint (fst it + 1)] else []))
    with (@nil (string * Z)) by (destruct (print_due pf (fst it)); reflexivity).
  simpl. destruct (writer engine) as [wr|]; [ | reflexivity ].
  induction tags as [|tag tags IH]; simpl; [ reflexivity | now rewrite IH ].
Qed.

Lemma batch_keys_later tags engine epoch nb k (items : list Data) key :
  In key (flat_map (batch_keys tags engine epoch nb) (enumerate_from k items)) ->
  exists j, k <= j /\ snd key = n_iter_of epoch nb j.
Proof.
  revert k. induction items as [|x items IH]; simpl; intros k Hin; [ contradiction | ].
  apply in_app_or in Hin. destruct Hin as [Hin|Hin].
  - unfold batch_keys in Hin. destruct (writer engine); [ | contradiction ].
    apply in_map_iff in Hin. destruct Hin as (tag & <- & _). exists k. simpl. lia.
  - destruct (IH _ Hin) as (j & Hj & Hkey). exists j. lia.
Qed.

Lemma batch_keys_nodup tags engine epoch nb k (items : list Data) :
  NoDup tags ->
  NoDup (flat_map (batch_keys tags engine epoch nb) (enumerate_from k items)).
Proof.
  intros Htags. revert k. induction items as [|x items IH]; simpl; intros k.
  - constructor.
  - apply NoDup_app.
    + unfold batch_keys. destruct (writer engine); [ | constructor ].
      apply NoDup_map_NoDup_ForallPairs; [ | exact Htags ].
      intros a b _ _ Hab. now injection Hab.
    + apply IH.
    + intros key Hin Hin'. apply batch_keys_later in Hin'.
      destruct Hin' as (j & Hj & Hkey).
      unfold batch_keys in Hin. destruct (writer engine); [ | contradiction ].
      apply in_map_iff in Hin. destruct Hin as (tag & <- & _).
      unfold n_iter_of in Hkey. simpl in Hkey. lia.
Qed.

Lemma cluster_scalar_tags_nodup : NoDup cluster_scalar_tags.
Proof.
  unfold cluster_scalar_tags.
  repeat (constructor; [ simpl; intuition discriminate | ]). constructor.
Qed.

Lemma fgnet_scalar_tags_nodup : NoDup fgnet_scalar_tags.
Proof.
  unfold fgnet_scalar_tags.
  repeat (constructor; [ simpl; intuition discriminate | ]). constructor.
Qed.

Lemma followed_keys_nodup {A} (m : M A) tags engine epoch nb pf (items : list Data) w :
  NoDup tags ->
  follows log_proj m (flat_map (log_expected tags engine epoch nb pf) (enumerate items)) ->
  NoDup (flat_map scalar_key (events_of (m w))).
Proof.
  intros Htags Hf. destruct (Hf w) as [[rest Hpre] _].
  rewrite scalar_keys_of_tokens.
  apply (f_equal (flat_map token_key)) in Hpre. rewrite flat_map_app in Hpre.
  apply NoDup_app_remove_r with (l' := flat_map token_key rest). rewrite <- Hpre.
  rewrite flat_map_nested.
  erewrite flat_map_ext; [ | intro; apply token_keys_of_batch ].
  now apply batch_keys_nodup.
Qed.

(** X10.  No two [add_scalar] calls of a run write under the same tag and
    global step: within a batch the tags differ, and from batch to batch the
    step does. *)
Theorem scalar_records_do_not_collide :
  (forall (self : Cluster.t) epoch max_epoch trainloader fixbase_epoch open_layers print_freq w,
     NoDup (flat_map scalar_key
              (events_of (Cluster.train self epoch max_epoch trainloader fixbase_epoch
                            open_layers print_freq w)))) /\
  (forall (self : FGNet.t) epoch max_epoch trainloader fixbase_epoch open_layers print_freq w,
     NoDup (flat_map scalar_key
              (events_of (FGNet.train self epoch max_epoch trainloader fixbase_epoch
                            open_layers print_freq w)))).
Proof.
  split; intros self epoch max_epoch tl fb ol pf w.
  - eapply followed_keys_nodup; [ apply cluster_scalar_tags_nodup | apply cluster_train_log ].
  - eapply followed_keys_nodup; [ apply fgnet_scalar_tags_nodup | apply fgnet_train_log ].
Qed.

End ScalarKeys.

Section HistogramKeys.
Context {F : Framework}.

(** *** The tag names its part and index *)

Lemma to_int_not_nil z : Z.to_int z <> Decimal.Pos Decimal.Nil /\ Z.to_int z <> Decimal.Neg Decimal.Nil.
Proof.
  destruct z; simpl; split; intros H; try discriminate H;
    injection H as H; now apply DecimalPos.Unsigned.to_uint_nonnil in H.
Qed.

Lemma str_of_int_inj a b : str_of_int a = str_of_int b -> a = b.
Proof.
  unfold str_of_int. intros H. apply (f_equal NilZero.int_of_string) in H.
  destruct (to_int_not_nil a), (to_int_not_nil b).
  rewrite !NilZero.isi in H by assumption.
  injection H as H. now apply DecimalZ.to_int_inj.
Qed.

Lemma uint_no_slash d : no_slash (NilEmpty.string_of_uint d) = true.
Proof. induction d; simpl; auto. Qed.

Lemma str_of_int_no_slash z : no_slash (str_of_int z) = true.
Proof.
  unfold str_of_int, NilZero.string_of_int, NilZero.string_of_uint.
  destruct (Z.to_int z) as [d|d]; destruct d; simpl; auto using uint_no_slash.
Qed.

Lemma split_at_slash a a' b b' :
  no_slash a = true -> no_slash a' = true ->
  (a ++ String slash b)%string = (a' ++ String slash b')%string ->
  a = a' /\ b = b'.
Proof.
  revert a'. induction a as [|c a IH]; intros [|c' a']; simpl; intros Ha Ha' H.
  - injection H as H. auto.
  - injection H as Hc _. subst c'. apply andb_prop in Ha'. destruct Ha' as [Hc _].
    now rewrite Ascii.eqb_refl in Hc.
  - injection H as Hc _. subst c. apply andb_prop in Ha. destruct Ha as [Hc _].
    now rewrite Ascii.eqb_refl in Hc.
  - injection H as -> H. apply andb_prop in Ha. apply andb_prop in Ha'.
    destruct (IH a') as [-> ->]; tauto.
Qed.

Lemma part_tag_inj i j i' j' : part_tag i j = part_tag i' j' -> i = i' /\ j = j'.
Proof.
  unfold part_tag. intros H. simpl in H. injection H as H.
  apply (split_at_slash (str_of_int i) (str_of_int i')) in H;
    try apply str_of_int_no_slash.
  destruct H as [Hi Hj]. injection Hj as Hj.
  split; now apply str_of_int_inj.
Qed.

(** *** The keys monitor *)

Lemma run_keys d s : run keys_step s d = rev (flat_map histogram_key d) ++ s.
Proof.
  revert s. induction d as [|ev d IH]; simpl; intros s; [ reflexivity | ].
  rewrite IH, rev_app_distr, <- app_assoc. f_equal. destruct ev; reflexivity.
Qed.

Lemma accepts_keys d s :
  NoDup s -> accepts keys_step keys_ok s d -> NoDup (run keys_step s d).
Proof.
  revert s. induction d as [|ev d IH]; simpl; intros s Hs H; [ exact Hs | ].
  destruct H as [Hok H]. apply IH; [ | exact H ].
  destruct ev; simpl; try exact Hs. constructor; assumption.
Qed.

Lemma wp_keys_nodup {A} (m : M A) w :
  wp keys_step keys_ok m [] (fun _ _ => True) (fun _ _ => True) ->
  NoDup (flat_map histogram_key (events_of (m w))).
Proof.
  intros H. destruct (H w) as [Hacc _].
  apply accepts_keys in Hacc; [ | constructor ].
  rewrite run_keys, app_nil_r in Hacc. apply NoDup_rev in Hacc.
  now rewrite rev_involutive in Hacc.
Qed.

Lemma older_key_next_index N i j key : older_key N i j key -> older_key N i (j + 1) key.
Proof.
  intros [H|(H & i' & j' & Ht & Hij)]; [ now left | right ].
  split; [ exact H | ]. exists i', j'. split; [ exact Ht | lia ].
Qed.

Lemma older_key_next_part N i j key : older_key N i j key -> older_key N (i + 1) 0 key.
Proof.
  intros [H|(H & i' & j' & Ht & Hij)]; [ now left | right ].
  split; [ exact H | ]. exists i', j'. split; [ exact Ht | lia ].
Qed.

Lemma older_key_fresh N i j s :
  Forall (older_key N i j) s -> ~ In (part_tag i j, N) s.
Proof.
  intros Hs Hin. rewrite Forall_forall in Hs. specialize (Hs _ Hin).
  destruct Hs as [H|(_ & i' & j' & Ht & Hij)]; simpl in *; [ lia | ].
  apply part_tag_inj in Ht. lia.
Qed.

Lemma log_part_keys wr N i x weights u s :
  Forall (older_key N i 0) s ->
  wp keys_step keys_ok (FGNet.log_part wr N (i, (x, weights)) u) s
     (fun _ s' => Forall (older_key N (i + 1) 0) s') (fun _ _ => True).
Proof.
  intros Hs.
  apply wp_log_part; [ intro; exact I | simpl; unfold range | intro; exact I ].
  apply wp_loop with
    (I := fun js (_ : unit) s' =>
            exists a len, js = map Z.of_nat (seq a len) /\
                          Forall (older_key N i (Z.of_nat a)) s').
  - intros j js [] s' (a & len & Hjs & Hs').
    destruct len as [|len]; [ discriminate Hjs | ].
    simpl in Hjs. injection Hjs as -> ->.
    wp_unfold. apply wp_bind.
    apply wp_call; [ intro; exact I | intro values; simpl | intro; exact I ].
    apply wp_call; [ intro; simpl | intro; simpl | intro; exact I ].
    + now apply older_key_fresh.
    + exists (S a), len. split; [ reflexivity | ].
      rewrite Nat2Z.inj_succ. unfold Z.succ. constructor.
      * right. split; [ reflexivity | ]. exists i, (Z.of_nat a). simpl. split; [ reflexivity | lia ].
      * eapply Forall_impl; [ | exact Hs' ]. intro. apply older_key_next_index.
  - intros [] s' (a & len & _ & Hs').
    eapply Forall_impl; [ | exact Hs' ]. intro. apply older_key_next_part.
  - exists 0%nat, (Z.to_nat (Z.min (size0 weights) 3)). split; [ reflexivity | exact Hs ].
Qed.

Lemma log_parts_keys wr N (pw : list (Tensor * Tensor)) s :
  Forall (fun key => snd key < N) s ->
  wp keys_step keys_ok (for_in (enumerate pw) (FGNet.log_part wr N) tt) s
     (fun _ s' => Forall (fun key => snd key <= N) s') (fun _ _ => True).
Proof.
  intros Hs. unfold enumerate.
  apply wp_loop with
    (I := fun ps (_ : unit) s' =>
            exists i pw', ps = enumerate_from i pw' /\ Forall (older_key N i 0) s').
  - intros [i' [x weights]] ps [] s' (i & pw' & Hps & Hs').
    destruct pw' as [|p pw']; [ discriminate Hps | ].
    simpl in Hps. injection Hps as <- _ ->.
    eapply wp_conseq; [ now apply log_part_keys | | auto ].
    intros ? s'' Hs''. now exists (i' + 1), pw'.
  - intros [] s' (i & pw' & _ & Hs').
    eapply Forall_impl; [ | exact Hs' ].
    intros key [H|[H _]]; lia.
  - exists 0, pw. split; [ reflexivity | ].
    eapply Forall_impl; [ | exact Hs ]. intros key H. now left.
Qed.

Ltac keys_loop :=
  eapply wp_conseq;
  [ apply log_parts_keys; eassumption
  | intros
  | auto ].

Lemma fgnet_batch_keys self epoch max_epoch nb pf k data l s :
  Forall (fun key => snd key < n_iter_of epoch nb k) s ->
  wp keys_step keys_ok (FGNet.train_batch self epoch max_epoch nb pf (k, data) l) s
     (fun _ s' => Forall (fun key => snd key < n_iter_of epoch nb (k + 1)) s')
     (fun _ _ => True).
Proof.
  intros Hs. unfold FGNet.train_batch. wp_unfold.
  repeat inv_step ltac:(exact I) ltac:(idtac; keys_loop).
  all: cbv beta in *;
       match goal with
       | H : Forall _ ?s |- Forall _ ?s =>
           eapply Forall_impl; [ | exact H ]; unfold n_iter_of; intros; simpl in *; lia
       end.
Qed.

Lemma fgnet_train_keys self epoch max_epoch tl fb ol pf :
  wp keys_step keys_ok (FGNet.train self epoch max_epoch tl fb ol pf) []
     (fun _ _ => True) (fun _ _ => True).
Proof.
  unfold FGNet.train, enumerate. wp_unfold.
  repeat inv_step ltac:(exact I) idtac.
  all: apply wp_loop with
         (I := fun its (_ : FGNet.locals) s =>
                 exists k items, its = enumerate_from k items /\
                   Forall (fun key => snd key < n_iter_of epoch (loader_len tl) k) s);
    [ intros [k' data] its l s (k & items & Hits & Hs);
      destruct items as [|x items]; [ discriminate Hits | ];
      simpl in Hits; injection Hits as -> -> ->;
      eapply wp_conseq; [ now apply fgnet_batch_keys | | auto ];
      intros l' s' Hs'; now exists (k + 1), items
    | intros; repeat inv_step ltac:(exact I) idtac; exact I
    | exists 0, (loader_items tl); split; [ reflexivity | constructor ] ].
Qed.

(** X11.  No two [add_histogram] calls of a run of the fgnet engine write
    under the same tag and global step: the tag
    ['Train/Part{}/Batch{}'.format(i, j)] names the part [i] and the index
    [j] (two tags are equal only for the same [i] and [j]), no part and index
    comes twice in a batch, and no step in two batches. *)
Theorem histogram_records_do_not_collide :
  (forall i j i' j', part_tag i j = part_tag i' j' -> i = i' /\ j = j') /\
  (forall (self : FGNet.t) epoch max_epoch trainloader fixbase_epoch open_layers print_freq w,
     NoDup (flat_map histogram_key
              (events_of (FGNet.train self epoch max_epoch trainloader fixbase_epoch
                            open_layers print_freq w)))).
Proof.
  split.
  - apply part_tag_inj.
  - intros. apply wp_keys_nodup. apply fgnet_train_keys.
Qed.

End HistogramKeys.

(** ** The loss objects of [__init__] and their use in [train] (X12) *)

Section CriteriaProofs.
Context {F : Framework}.

Lemma cluster_batch_criteria self epoch max_epoch nb pf it l rest :
  wp (consume_step criterion_used) (consume_ok criterion_used)
     (Cluster.train_batch self epoch max_epoch nb pf it l)
     (cluster_criteria_used ++ rest)
     (fun _ s => s = rest) (fun _ _ => True).
Proof.
  unfold Cluster.train_batch. destruct it as [batch_idx data]. wp_unfold.
  tok_steps; reflexivity.
Qed.

Lemma fgnet_batch_criteria self epoch max_epoch nb pf it l rest :
  wp (consume_step criterion_used) (consume_ok criterion_used)
     (FGNet.train_batch self epoch max_epoch nb pf it l)
     (fgnet_criteria_used ++ rest)
     (fun _ s => s = rest) (fun _ _ => True).
Proof.
  unfold FGNet.train_batch. destruct it as [batch_idx data]. wp_unfold.
  tok_steps; reflexivity.
Qed.

Lemma cluster_train_criteria self epoch max_epoch tl fb ol pf :
  follows criterion_used (Cluster.train self epoch max_epoch tl fb ol pf)
    (flat_map (fun _ => cluster_criteria_used) (loader_items tl)).
Proof.
  apply wp_follows. unfold Cluster.train, enumerate. wp_unfold.
  rewrite <- (flat_map_enumerate (fun _ : Data => cluster_criteria_used) _ 0).
  rewrite <- (app_nil_r (flat_map _ _)).
  tok_train cluster_batch_criteria (fun _ : Z * Data => cluster_criteria_used).
Qed.

Lemma fgnet_train_criteria self epoch max_epoch tl fb ol pf :
  follows criterion_used (FGNet.train self epoch max_epoch tl fb ol pf)
    (flat_map (fun _ => fgnet_criteria_used) (loader_items tl)).
Proof.
  apply wp_follows. unfold FGNet.train, enumerate. wp_unfold.
  rewrite <- (flat_map_enumerate (fun _ : Data => fgnet_criteria_used) _ 0).
  rewrite <- (app_nil_r (flat_map _ _)).
  tok_train fgnet_batch_criteria (fun _ : Z * Data => fgnet_criteria_used).
Qed.

(** X12.  [train] uses the loss objects [__init__] creates, all of them and
    no other: in every run the criteria passed to [_compute_loss] are, batch
    after batch, the ten (resp. four) of the engine, each once (an initial
    segment of this when a call raises), and these are exactly the criterion
    attributes [__init__] assigns.  In the cluster-dependency engine the three
    heads are scored by equal losses: the criterion of a kind on any head is
    constructed with the same arguments; in the fgnet engine the two
    cross-entropy criteria are. *)
Theorem train_uses_the_criteria_of_init :
  (forall (self : Cluster.t) epoch max_epoch trainloader fixbase_epoch open_layers print_freq,
     follows criterion_used
       (Cluster.train self epoch max_epoch trainloader fixbase_epoch open_layers print_freq)
       (flat_map (fun _ => cluster_criteria_used) (loader_items trainloader))) /\
  (forall (self : FGNet.t) epoch max_epoch trainloader fixbase_epoch open_layers print_freq,
     follows criterion_used
       (FGNet.train self epoch max_epoch trainloader fixbase_epoch open_layers print_freq)
       (flat_map (fun _ => fgnet_criteria_used) (loader_items trainloader))) /\
  (forall engine num_train_pids margin label_smooth c,
     In c cluster_criteria_used <->
     getattr (cluster_criteria engine num_train_pids margin label_smooth) c <> None) /\
  (forall engine num_train_pids margin margin_sasc margin_sadc margin_dasc label_smooth c,
     In c fgnet_criteria_used <->
     getattr (fgnet_criteria engine num_train_pids margin margin_sasc margin_sadc margin_dasc
                label_smooth) c <> None) /\
  (forall engine num_train_pids margin label_smooth h c,
     getattr (cluster_criteria engine num_train_pids margin label_smooth) (on_head h c)
     = getattr (cluster_criteria engine num_train_pids margin label_smooth) c) /\
  (forall engine num_train_pids margin margin_sasc margin_sadc margin_dasc label_smooth,
     getattr (fgnet_criteria engine num_train_pids margin margin_sasc margin_sadc margin_dasc
                label_smooth) criterion_x_parts
     = getattr (fgnet_criteria engine num_train_pids margin margin_sasc margin_sadc margin_dasc
                  label_smooth) criterion_x).
Proof.
  split; [ | split; [ | split; [ | split; [ | split ] ] ] ].
  - intros. apply cluster_train_criteria.
  - intros. apply fgnet_train_criteria.
  - intros engine n margin ls c. destruct c; simpl; split; intro H;
      try discriminate; try (now elim H); intuition discriminate.
  - intros engine n margin sasc sadc dasc ls c. destruct c; simpl; split; intro H;
      try discriminate; try (now elim H); intuition discriminate.
  - intros engine n margin ls h c. destruct h, c; reflexivity.
  - reflexivity.
Qed.

End CriteriaProofs.

(** ** The further properties on a concrete run *)

Section MoreExamples.

Lemma Forall_of_forallb {A} {P : A -> Prop} {f : A -> bool} {l} :
  (forall x, f x = true -> P x) -> forallb f l = true -> Forall P l.
Proof.
  intros Hf H. apply Forall_forall. intros x Hin. apply Hf.
  rewrite forallb_forall in H. now apply H.
Qed.

Lemma not_raised_bool (ev : @event Toy.framework) :
  match raised ev with None => true | Some _ => false end = true -> raised ev = None.
Proof. destruct (raised ev); [ discriminate | reflexivity ]. Qed.

(** With [print_freq = 0] the toy epoch raises [ZeroDivisionError]. *)
Lemma zero_print_freq_stops_in_the_first_batch_example :
  outcome_of (Cluster.train Toy.cluster 1 60 Toy.loader 0 None 0 0)
  = Raise "ZeroDivisionError"%string.
Proof.
  refine (proj2 (proj2 (proj2
            (proj2 (proj1 (@zero_print_freq_stops_in_the_first_batch Toy.framework)
                      Toy.cluster 1 60 Toy.loader 0 None 0)
               10 [20] eq_refl))) _).
  apply (Forall_of_forallb not_raised_bool). reflexivity.
Defined.

(** The first [data_time.update] of the toy epoch gets 1 - 0. *)
Lemma timers_measure_from_the_previous_batch_end_example :
  exists now end_ rest,
    clock_readings (firstn 20 (events_of Toy.cluster_run)) = now :: end_ :: rest /\
    1 = @fsub Toy.framework now end_ /\ 1 = 1.
Proof.
  refine (proj1 (proj1 (@timers_measure_from_the_previous_batch_end Toy.framework)
                   Toy.cluster 1 60 Toy.loader 0 None 2 0
                   (firstn 20 (events_of Toy.cluster_run)) id_data_time 1 1
                   (Ok (1, 1, 1, 1))
                   (skipn 21 (events_of Toy.cluster_run)) _) eq_refl).
  reflexivity.
Defined.

(** The first forward call of the toy epoch comes after the batch 10 is
    parsed and moved to the GPU. *)
Lemma forward_gets_the_batch_images_example :
  exists data imgs0 pids0 pids before,
    firstn 25 (events_of Toy.cluster_run)
    = before ++ @batch_inputs Toy.framework true data imgs0 pids0 10 pids /\
    (true = false -> 10 = imgs0 /\ pids = pids0).
Proof.
  refine (proj1 (@forward_gets_the_batch_images Toy.framework)
            Toy.cluster 1 60 Toy.loader 0 None 2 0
            (firstn 25 (events_of Toy.cluster_run)) 10 true
            (Ok {| prelogits := 10; features := 11; db_prelogits := 12; db_features := 13;
                   b_db_prelogits := 14; b_db_features := 15 |})
            (skipn 26 (events_of Toy.cluster_run)) _).
  reflexivity.
Defined.




Lemma engines_make_only_their_own_calls_example :
  Forall (@fgnet_call Toy.framework Toy.engine) (events_of Toy.fgnet_run).
Proof.
  exact (proj2 (@engines_make_only_their_own_calls Toy.framework)
           Toy.fgnet 1 60 Toy.loader 0 None 2 0).
Defined.

(** With [top_drop_epoch = 2] the flag is on in epoch 1, and so in epoch 5. *)
Lemma drop_top_stays_on_example :
  1 <= 5 /\
  In (@EForwardDropTop Toy.framework 10 true
        (Ok {| prelogits := 10; features := 11; db_prelogits := 12; db_features := 13;
               b_db_prelogits := 14; b_db_features := 15 |}))
     (events_of Toy.cluster_run) /\
  Cluster.drop_top_flag Toy.cluster 5 = true.
Proof.
  assert (H1 : In (@EForwardDropTop Toy.framework 10 true
                     (Ok {| prelogits := 10; features := 11; db_prelogits := 12;
                            db_features := 13; b_db_prelogits := 14;
                            b_db_features := 15 |}))
                  (events_of Toy.cluster_run)).
  { apply (@nth_error_In _ _ 25). reflexivity. }
  split; [ lia | ]. split; [ exact H1 | ].
  refine (@drop_top_stays_on Toy.framework Toy.cluster 1 5
            60 Toy.loader 0 None 2 0 60 Toy.loader 0 None 2 0
            10 _ 10 (Cluster.drop_top_flag Toy.cluster 5) _ _ H1 _); [ lia | ].
  apply (@nth_error_In _ _ 25). reflexivity.
Defined.

Lemma global_step_names_one_batch_example : 3 = 3 /\ 1 = 1.
Proof.
  refine (proj1 global_step_names_one_batch 2 3 3 1 1 _ _ eq_refl); lia.
Defined.

Lemma scalar_records_do_not_collide_example :
  NoDup (flat_map scalar_key (events_of Toy.cluster_run)).
Proof.
  exact (proj1 (@scalar_records_do_not_collide Toy.framework)
           Toy.cluster 1 60 Toy.loader 0 None 2 0).
Defined.

Lemma histogram_records_do_not_collide_example :
  NoDup (flat_map histogram_key (events_of Toy.fgnet_run)).
Proof.
  exact (proj2 (@histogram_records_do_not_collide Toy.framework)
           Toy.fgnet 1 60 Toy.loader 0 None 2 0).
Defined.

(** The criteria of the two toy batches. *)
Lemma train_uses_the_criteria_of_init_example :
  flat_map criterion_used (events_of Toy.fgnet_run)
  = fgnet_criteria_used ++ fgnet_criteria_used.
Proof.
  refine (proj2 (proj1 (proj2 (@train_uses_the_criteria_of_init Toy.framework))
                   Toy.fgnet 1 60 Toy.loader 0 None 2 0) tt _).
  reflexivity.
Defined.

End MoreExamples.
